(** * Siglent oscilloscope driver and BIN import filter: a shallow embedding

  The development follows two translation units of libscopehal:

  - [scopehal/SiglentMinOscilloscope.cpp]: the SCPI driver (configuration
    cache, trigger polling, waveform block transfer);
  - [scopeprotocols/SiglentBINImportFilter.cpp]: the capture-file importer
    and its digital bit-unpack kernel.

  Machine integers are [Z] with the wrap-around written out, byte buffers
  are [list Z], [std::map] caches are [gmap], and the object state of the
  driver is threaded explicitly through every member function. *)

From Stdlib Require Import ZArith String List Bool Lia.
From Stdlib Require Import Floats.SpecFloat.
From stdpp Require Import base option list gmap strings pretty.

Local Open Scope Z_scope.

(** ** Machine integers and byte buffers *)

Module Cint.

Definition uint32_of (z : Z) : Z := z mod 2 ^ 32.

Definition int32_of (z : Z) : Z :=
  let r := z mod 2 ^ 32 in if r <? 2 ^ 31 then r else r - 2 ^ 32.

Definition int64_of (z : Z) : Z :=
  let r := z mod 2 ^ 64 in if r <? 2 ^ 63 then r else r - 2 ^ 64.

(** [printf("%d", x)] with a [size_t] argument prints its low 32 bits as a
    signed number; ["%ld"] prints all 64 bits as a signed number. *)
Definition fmt_d (z : Z) : string := pretty (int32_of z).
Definition fmt_ld (z : Z) : string := pretty (int64_of z).

(** Store [bytes] into a buffer starting at index [off]. *)
Definition write_at (buf : list Z) (off : nat) (bytes : list Z) : list Z :=
  take off buf ++ bytes ++ drop (off + length bytes) buf.

(** Little-endian value of a run of bytes. *)
Definition le_uint (bs : list Z) : Z := fold_right (fun b acc => b + 256 * acc) 0 bs.

End Cint.

(** ** The driver object *)

Module Siglent.

Import Cint.

Inductive LogLevel := LogError | LogWarning | LogTrace.

(** The transport collaborator: queued commands in the order they were
    pushed, the replies the instrument gives to the coming queries, and the
    raw bytes waiting on the wire. *)
Record Transport := mkTransport {
  sent : list string;
  replies : list string;
  rx : list Z;
}.

Inductive TriggerMode :=
  | TRIGGER_MODE_RUN
  | TRIGGER_MODE_STOP
  | TRIGGER_MODE_TRIGGERED.

Record Scope := mkScope {
  m_analogChannelCount : Z;
  m_triggerArmed : bool;
  m_triggerOneShot : bool;
  m_triggerForced : bool;
  m_channelOffsets : gmap Z spec_float;
  m_channelsEnabled : gmap Z bool;
  m_sampleRateValid : bool;
  m_memoryDepthValid : bool;
  m_transport : Transport;
  m_log : list (LogLevel * string);
}.

Definition set_triggerArmed (b : bool) (s : Scope) : Scope :=
  mkScope (m_analogChannelCount s) b (m_triggerOneShot s) (m_triggerForced s)
    (m_channelOffsets s) (m_channelsEnabled s) (m_sampleRateValid s)
    (m_memoryDepthValid s) (m_transport s) (m_log s).

Definition set_triggerOneShot (b : bool) (s : Scope) : Scope :=
  mkScope (m_analogChannelCount s) (m_triggerArmed s) b (m_triggerForced s)
    (m_channelOffsets s) (m_channelsEnabled s) (m_sampleRateValid s)
    (m_memoryDepthValid s) (m_transport s) (m_log s).

Definition set_triggerForced (b : bool) (s : Scope) : Scope :=
  mkScope (m_analogChannelCount s) (m_triggerArmed s) (m_triggerOneShot s) b
    (m_channelOffsets s) (m_channelsEnabled s) (m_sampleRateValid s)
    (m_memoryDepthValid s) (m_transport s) (m_log s).

Definition set_channelOffsets (m : gmap Z spec_float) (s : Scope) : Scope :=
  mkScope (m_analogChannelCount s) (m_triggerArmed s) (m_triggerOneShot s)
    (m_triggerForced s) m (m_channelsEnabled s) (m_sampleRateValid s)
    (m_memoryDepthValid s) (m_transport s) (m_log s).

Definition set_channelsEnabled (m : gmap Z bool) (s : Scope) : Scope :=
  mkScope (m_analogChannelCount s) (m_triggerArmed s) (m_triggerOneShot s)
    (m_triggerForced s) (m_channelOffsets s) m (m_sampleRateValid s)
    (m_memoryDepthValid s) (m_transport s) (m_log s).

Definition set_sampleRateValid (b : bool) (s : Scope) : Scope :=
  mkScope (m_analogChannelCount s) (m_triggerArmed s) (m_triggerOneShot s)
    (m_triggerForced s) (m_channelOffsets s) (m_channelsEnabled s) b
    (m_memoryDepthValid s) (m_transport s) (m_log s).

Definition set_memoryDepthValid (b : bool) (s : Scope) : Scope :=
  mkScope (m_analogChannelCount s) (m_triggerArmed s) (m_triggerOneShot s)
    (m_triggerForced s) (m_channelOffsets s) (m_channelsEnabled s)
    (m_sampleRateValid s) b (m_transport s) (m_log s).

Definition set_transport (t : Transport) (s : Scope) : Scope :=
  mkScope (m_analogChannelCount s) (m_triggerArmed s) (m_triggerOneShot s)
    (m_triggerForced s) (m_channelOffsets s) (m_channelsEnabled s)
    (m_sampleRateValid s) (m_memoryDepthValid s) t (m_log s).

(** [LogError], [LogWarning], [LogTrace]: the message is recorded without
    its arguments and trailing newline. *)
Definition Log (lvl : LogLevel) (msg : string) (s : Scope) : Scope :=
  mkScope (m_analogChannelCount s) (m_triggerArmed s) (m_triggerOneShot s)
    (m_triggerForced s) (m_channelOffsets s) (m_channelsEnabled s)
    (m_sampleRateValid s) (m_memoryDepthValid s) (m_transport s)
    (m_log s ++ [(lvl, msg)]).

(** *** Transport primitives *)

(** [sendOnly]: push one formatted command to the queue. *)
Definition sendOnly (cmd : string) (s : Scope) : Scope :=
  let t := m_transport s in
  set_transport (mkTransport (sent t ++ [cmd]) (replies t) (rx t)) s.

(** [converse]: push one command and take the instrument's reply. *)
Definition converse (cmd : string) (s : Scope) : string * Scope :=
  let t := m_transport s in
  match replies t with
  | [] => (EmptyString, set_transport (mkTransport (sent t ++ [cmd]) [] (rx t)) s)
  | r :: rs => (r, set_transport (mkTransport (sent t ++ [cmd]) rs (rx t)) s)
  end.

(** [FlushCommandQueue] only forces the queued commands onto the wire; the
    order recorded in [sent] is unchanged. *)
Definition FlushCommandQueue (s : Scope) : Scope := s.

(** [ReadRawData(len, buf)]: the next [len] bytes of the wire (fewer when
    the wire runs dry). *)
Definition ReadRawData (len : Z) (s : Scope) : list Z * Scope :=
  let t := m_transport s in
  let n := Z.to_nat len in
  (take n (rx t), set_transport (mkTransport (sent t) (replies t) (drop n (rx t))) s).

(** *** Channel enable cache *)

(** The cache is a [std::map<int, bool>]; a [size_t] index is converted to
    the [int] key. *)
Definition key_of (i : Z) : Z := int32_of i.

(** [m_channelsEnabled[k]]: [operator[]] inserts a value-initialised
    ([false]) entry when the key is absent. *)
Definition channelsEnabled_at (k : Z) (s : Scope) : bool * Scope :=
  match m_channelsEnabled s !! k with
  | Some b => (b, s)
  | None => (false, set_channelsEnabled (<[k := false]> (m_channelsEnabled s)) s)
  end.

(** [IsInterleaving]: both conjunctions are short-circuit [&&]. *)
Definition IsInterleaving (s : Scope) : bool * Scope :=
  let '(e0, s) := channelsEnabled_at 0 s in
  let '(both01, s) := if e0 then channelsEnabled_at 1 s else (false, s) in
  if both01 then (false, s)
  else
    let '(e3, s) := channelsEnabled_at 3 s in
    let '(both34, s) := if e3 then channelsEnabled_at 4 s else (false, s) in
    if both34 then (false, s) else (true, s).

(** [reply.find("OFF") != 0] *)
Definition starts_with_OFF (reply : string) : bool :=
  String.prefix "OFF" reply.

Definition IsChannelEnabled (i : Z) (s : Scope) : bool * Scope :=
  match m_channelsEnabled s !! key_of i with
  | Some _ => channelsEnabled_at (key_of i) s
  | None =>
      let s :=
        if i <? m_analogChannelCount s then
          let '(reply, s) := converse (":CHANNEL" +:+ fmt_d (i + 1) +:+ ":SWITCH?") s in
          set_channelsEnabled
            (<[key_of i := negb (starts_with_OFF reply)]> (m_channelsEnabled s)) s
        else s in
      channelsEnabled_at (key_of i) s
  end.

Definition invalidate_rate_and_depth (s : Scope) : Scope :=
  set_sampleRateValid false (set_memoryDepthValid false s).

Definition EnableChannel (i : Z) (s : Scope) : Scope :=
  let '(wasInterleaving, s) := IsInterleaving s in
  let s :=
    if i <? m_analogChannelCount s
    then sendOnly (":CHANNEL" +:+ fmt_d (i + 1) +:+ ":SWITCH ON") s
    else Log LogError "Unsupported channel type" s in
  let s := set_channelsEnabled (<[key_of i := true]> (m_channelsEnabled s)) s in
  let '(nowInterleaving, s) := IsInterleaving s in
  if negb (Bool.eqb nowInterleaving wasInterleaving)
  then invalidate_rate_and_depth s
  else s.

Definition DisableChannel (i : Z) (s : Scope) : Scope :=
  let '(wasInterleaving, s) := IsInterleaving s in
  let s := set_channelsEnabled (<[key_of i := false]> (m_channelsEnabled s)) s in
  let s :=
    if i <? m_analogChannelCount s
    then sendOnly (":CHANNEL" +:+ fmt_d (i + 1) +:+ ":SWITCH OFF") s
    else s in
  let '(nowInterleaving, s) := IsInterleaving s in
  if negb (Bool.eqb nowInterleaving wasInterleaving)
  then invalidate_rate_and_depth s
  else s.

(** *** Trigger state machine *)

Definition IsTriggerArmed (s : Scope) : bool := m_triggerArmed s.

Definition PollTrigger (s : Scope) : TriggerMode * Scope :=
  if m_triggerForced s then
    (* the force trigger completed, return the sample set *)
    (TRIGGER_MODE_TRIGGERED, set_triggerArmed false (set_triggerForced false s))
  else
    let '(sinr, s) := converse ":TRIGGER:STATUS?" s in
    if String.eqb sinr "Arm" || String.eqb sinr "Ready" then
      (TRIGGER_MODE_RUN, set_triggerArmed true s)
    else if String.eqb sinr "Stop" then
      if m_triggerArmed s then
        (TRIGGER_MODE_TRIGGERED,
         if m_triggerOneShot s then set_triggerArmed false s else s)
      else (TRIGGER_MODE_STOP, s)
    else (TRIGGER_MODE_RUN, s).




Definition ForceTrigger (s : Scope) : Scope :=
  if m_triggerForced s then s
  else
    let s := set_triggerForced true s in
    let s := sendOnly ":TRIGGER:MODE FTRIG" s in
    let s := FlushCommandQueue s in
    set_triggerOneShot true (set_triggerArmed true s).

(** [n] successive polls, reports in order. *)
Fixpoint poll_many (n : nat) (s : Scope) : list TriggerMode * Scope :=
  match n with
  | O => ([], s)
  | S n' =>
      let '(r, s) := PollTrigger s in
      let '(rs, s) := poll_many n' s in
      (r :: rs, s)
  end.

Definition is_triggered (m : TriggerMode) : bool :=
  match m with TRIGGER_MODE_TRIGGERED => true | _ => false end.

(** *** Waveform block transfer *)

Definition bytes_of_string (s : string) : list Z :=
  map (fun a => Z.of_N (Ascii.N_of_ascii a)) (list_ascii_of_string s).

(** [strncmp(a, b, n) == 0]; a list that ends stands for the terminating
    NUL of a string literal. *)
Fixpoint strncmp_eq (a b : list Z) (n : nat) : bool :=
  match n with
  | O => true
  | S n' =>
      let ca := hd 0 a in
      let cb := hd 0 b in
      if ca =? cb then
        if ca =? 0 then true else strncmp_eq (tl a) (tl b) n'
      else false
  end.

Definition isspace (c : Z) : bool := (c =? 32) || ((9 <=? c) && (c <=? 13)).
Definition isdigit (c : Z) : bool := (48 <=? c) && (c <=? 57).

Fixpoint atoi_digits (acc : Z) (s : list Z) : Z :=
  match s with
  | c :: s' => if isdigit c then atoi_digits (10 * acc + (c - 48)) s' else acc
  | [] => acc
  end.

(** [atoi]: optional white space, optional sign, then decimal digits up to
    the first other character (the NUL terminator included). *)
Fixpoint atoi (s : list Z) : Z :=
  match s with
  | c :: s' =>
      if isspace c then atoi s'
      else if c =? 45 then - atoi_digits 0 s'
      else if c =? 43 then atoi_digits 0 s'
      else atoi_digits 0 s
  | [] => 0
  end.

(** The header test of [ReadWaveformBlock]: the 7-byte prefix and, for a
    recognised shape, the reads that leave the 9-byte decimal field at the
    front of [packetSizeSequence]; [None] for an invalid length format.
    [packetSizeSequence] is the 17-byte stack buffer as the function finds
    it (not initialised by the code). *)
Definition read_length_field (packetSizeSequence : list Z) (s : Scope)
    : option (list Z) * Scope :=
  let '(b, s) := ReadRawData 7 s in
  let buf := write_at packetSizeSequence 0 b in
  if strncmp_eq buf (bytes_of_string "DESC,#9") 7
     || strncmp_eq buf (bytes_of_string "DAT2,#9") 7 then
    let '(b, s) := ReadRawData 9 s in
    (Some (write_at buf 0 b), s)
  else if strncmp_eq (drop 2 buf) (bytes_of_string ":WF D") 5 then
    (* the front end junk, then the number *)
    let '(b, s) := ReadRawData 6 s in
    let buf := write_at buf 0 b in
    let '(b, s) := ReadRawData 9 s in
    (Some (write_at buf 0 b), s)
  else if strncmp_eq buf (bytes_of_string "#9") 2 then
    (* [memmove] the five digits down, read the last four *)
    let buf := write_at buf 0 (take 5 (drop 2 buf)) in
    let '(b, s) := ReadRawData 4 s in
    (Some (write_at buf 5 b), s)
  else (None, s).

(** [ReadWaveformBlock(maxsize, data, hdSizeWorkaround)]: the returned
    [int] and the bytes stored into [data]. *)
Definition ReadWaveformBlock (packetSizeSequence : list Z) (maxsize : Z)
    (hdSizeWorkaround : bool) (s : Scope) : (Z * list Z) * Scope :=
  match read_length_field packetSizeSequence s with
  | (None, s) =>
      ((0, []), Log LogError "ReadWaveformBlock: invalid length format" s)
  | (Some buf, s) =>
      let buf := <[9%nat := 0]> buf in
      let s := Log LogTrace "INITIAL PACKET" s in
      let getLength := uint32_of (atoi buf) in
      let len := getLength in
      let len := if hdSizeWorkaround then uint32_of (len * 2) else len in
      let len := Z.min len maxsize in
      let '(data, s) := ReadRawData len s in
      if hdSizeWorkaround
      then ((int32_of (uint32_of (getLength * 2)), data), s)
      else ((int32_of getLength, data), s)
  end.

(** *** Vertical offset *)

Section VerticalOffset.

(** [printf("%1.2E", x)] and [sscanf(reply, "%f", &x)] of the C library. *)
Variable fmt_1_2E : spec_float -> string.
Variable sscanf_f : string -> spec_float.

Definition GetChannelOffset (i stream : Z) (s : Scope) : spec_float * Scope :=
  if m_analogChannelCount s <? i then (S754_zero false, s)
  else
    match m_channelOffsets s !! i with
    | Some v => (v, s)
    | None =>
        let '(reply, s) :=
          converse (":CHANNEL" +:+ fmt_ld (i + 1) +:+ ":OFFSET?") s in
        let offset := sscanf_f reply in
        (offset, set_channelOffsets (<[i := offset]> (m_channelOffsets s)) s)
    end.

Definition SetChannelOffset (i stream : Z) (offset : spec_float) (s : Scope) : Scope :=
  if m_analogChannelCount s <? i then s
  else
    let s :=
      sendOnly (":CHANNEL" +:+ fmt_ld (i + 1) +:+ ":OFFSET " +:+ fmt_1_2E offset) s in
    set_channelOffsets (<[i := offset]> (m_channelOffsets s)) s.

End VerticalOffset.

(** Sibling accessors guard with [>=]: [CanEnableChannel] is
    [i < m_analogChannelCount]. *)
Definition CanEnableChannel (i : Z) (s : Scope) : bool := i <? m_analogChannelCount s.

End Siglent.

(** ** The capture-file importer *)

Module BINImport.

Import Cint.

(** *** Raw memory and counted loops *)

(** [m[a] = v] on memory addressed by integers. *)
Definition store {A} (m : Z -> A) (a : Z) (v : A) : Z -> A :=
  fun x => if x =? a then v else m x.

(** [for (i = start; ...; i += step) body], [n] iterations. *)
Fixpoint for_loop {S} (n : nat) (start step : Z) (body : Z -> S -> S) (s : S) : S :=
  match n with
  | O => s
  | S n' => for_loop n' (start + step) step body (body start s)
  end.

(** *** Scalar bit unpack *)

(** [pout[8*i + j] = (pin[i] >> j) & 0x1] for one byte [i]. *)
Definition unpack_byte (pout : Z) (data : Z -> Z) (pin : Z) (i : Z)
    (mem : Z -> bool) : Z -> bool :=
  for_loop 8 0 1
    (fun j mem =>
       store mem (pout + (8 * i + j))
         (negb (Z.land (Z.shiftr (data (pin + i)) j) 1 =? 0)))
    mem.

Definition ConvertDigitalSamplesGeneric (mem : Z -> bool) (pout : Z)
    (data : Z -> Z) (pin : Z) (count : Z) : Z -> bool :=
  for_loop (Z.to_nat count) 0 1 (unpack_byte pout data pin) mem.

(** *** AVX2 bit unpack *)

(** A 256-bit register as its 32 byte lanes, lane 0 first. *)
Definition m256i := list Z.

Definition le_bytes (n : nat) (v : Z) : list Z :=
  map (fun k => Z.land (Z.shiftr v (8 * Z.of_nat k)) 255) (seq 0 n).

Definition _mm256_set1_epi64x (a : Z) : m256i :=
  le_bytes 8 a ++ le_bytes 8 a ++ le_bytes 8 a ++ le_bytes 8 a.

Definition _mm256_set1_epi8 (a : Z) : m256i := repeat (Z.land a 255) 32.

(** The intrinsic takes lane 31 first and lane 0 last. *)
Definition _mm256_set_epi8 (e31_to_e0 : list Z) : m256i := rev e31_to_e0.

Definition _mm256_and_si256 (a b : m256i) : m256i := zip_with Z.land a b.

Definition _mm256_cmpeq_epi8 (a b : m256i) : m256i :=
  zip_with (fun x y => if x =? y then 255 else 0) a b.

(** Unaligned store of the 32 lanes into [bool] cells; a cell holding a
    non-zero byte reads as [true]. *)
Fixpoint _mm256_storeu_si256 (mem : Z -> bool) (addr : Z) (v : m256i) : Z -> bool :=
  match v with
  | [] => mem
  | b :: v' => _mm256_storeu_si256 (store mem addr (negb (b =? 0))) (addr + 1) v'
  end.

Definition avx2_block (pout : Z) (data : Z -> Z) (pin : Z) (k : Z)
    (mem : Z -> bool) : Z -> bool :=
  let bitmask := _mm256_set1_epi64x 0x8040201008040201 in
  let ones := _mm256_set1_epi8 1 in
  let block0 := data (pin + k) in
  let block1 := data (pin + (k + 1)) in
  let block2 := data (pin + (k + 2)) in
  let block3 := data (pin + (k + 3)) in
  let bc_samps :=
    _mm256_set_epi8
      (repeat block3 8 ++ repeat block2 8 ++ repeat block1 8 ++ repeat block0 8) in
  let result := _mm256_and_si256 bc_samps bitmask in
  let result := _mm256_cmpeq_epi8 result bitmask in
  let result := _mm256_and_si256 result ones in
  (* [k*8] is computed in [unsigned int] *)
  _mm256_storeu_si256 mem (pout + uint32_of (k * 8)) result.

Definition ConvertDigitalSamplesAVX2 (mem : Z -> bool) (pout : Z)
    (data : Z -> Z) (pin : Z) (count : Z) : Z -> bool :=
  (* [unsigned int end = count - (count % 4)] *)
  let end_ := uint32_of (count - count mod 4) in
  let mem := for_loop (Z.to_nat (end_ / 4)) 0 4 (avx2_block pout data pin) mem in
  (* the extras the SIMD loop did not get *)
  for_loop (Z.to_nat (count - end_)) end_ 1 (unpack_byte pout data pin) mem.

(** *** Dispatcher *)

Section Dispatch.

(** Run-time facts about the host: the CPU flag and the OpenMP pool size. *)
Variable g_hasAvx2 : bool.
Variable omp_get_max_threads : Z.

Definition kernel : (Z -> bool) -> Z -> (Z -> Z) -> Z -> Z -> Z -> bool :=
  if g_hasAvx2 then ConvertDigitalSamplesAVX2 else ConvertDigitalSamplesGeneric.

(** One iteration of the [omp parallel for]. *)
Definition dispatch_block (pout : Z) (data : Z -> Z) (pin : Z) (count : Z)
    (blocksize lastblock : Z) (i : Z) (mem : Z -> bool) : Z -> bool :=
  let nsamp := if i =? lastblock then count - i * blocksize else blocksize in
  let off := i * blocksize in
  kernel mem (pout + off) data (pin + off) nsamp.

(** The iterations of the parallel loop are run in index order. *)
Definition ConvertDigitalSamples (mem : Z -> bool) (pout : Z)
    (data : Z -> Z) (pin : Z) (count : Z) : Z -> bool :=
  if 1000000 / 8 <? count then
    let numblocks := omp_get_max_threads in
    let lastblock := numblocks - 1 in
    let blocksize := count / numblocks in
    let blocksize := blocksize - blocksize mod 4 in
    for_loop (Z.to_nat numblocks) 0 1
      (dispatch_block pout data pin count blocksize lastblock) mem
  else kernel mem pout data pin count.

End Dispatch.

(** *** File decoder *)

Inductive StreamType := STREAM_TYPE_ANALOG | STREAM_TYPE_DIGITAL.

(** [f.c_str() + p]: bytes past the end of the file read as 0 here. *)
Definition byte_at (f : list Z) (p : Z) : Z := nth (Z.to_nat p) f 0.

(** [std::string::copy(dst, n, pos)]: throws [std::out_of_range] ([None])
    when [pos] is past the end, else copies what is there. *)
Definition string_copy (dst f : list Z) (n pos : nat) : option (list Z) :=
  if (length f <? pos)%nat then None
  else Some (write_at dst 0 (take n (drop pos f))).

(** Fields of the packed structs ([#pragma pack(push, 1)]); the offsets
    follow the member order and sizes of [FileHeader] and [WaveHeader]. *)
Definition field (hdr : list Z) (off n : nat) : list Z := take n (drop off hdr).
Definition get_u32 (hdr : list Z) (off : nat) : Z := le_uint (field hdr off 4).
Definition get_i32 (hdr : list Z) (off : nat) : Z := int32_of (get_u32 hdr off).
Definition get_i8 (hdr : list Z) (off : nat) : Z :=
  let b := le_uint (field hdr off 1) in if b <? 128 then b else b - 256.

Definition sizeof_FileHeader : nat := 4.
Definition sizeof_WaveHeader : nat := 1020.

Definition fh_version (fh : list Z) : Z := get_u32 fh 0.
Definition wh_ch_en (wh : list Z) (i : nat) : Z := get_i32 wh (0 + 4 * i).
Definition wh_digital_en (wh : list Z) : Z := get_i32 wh 336.
Definition wh_d_ch_en (wh : list Z) (i : nat) : Z := get_i32 wh (340 + 4 * i).
Definition wh_wave_length (wh : list Z) : Z := get_u32 wh 484.
Definition wh_d_wave_length (wh : list Z) : Z := get_u32 wh 528.
Definition wh_data_width (wh : list Z) : Z := get_i8 wh 604.
Definition wh_ch_codes_per_div (wh : list Z) (i : nat) : Z := get_i32 wh (616 + 4 * i).
Definition wh_math_en (wh : list Z) (i : nat) : Z := get_i32 wh (632 + 4 * i).
Definition wh_math_wave_length (wh : list Z) (i : nat) : Z := get_u32 wh (968 + 4 * i).
Definition wh_math_codes_per_div (wh : list Z) : Z := get_i32 wh 1016.

(** IEEE binary64 ([double]) and binary32 ([float]) values with the
    arithmetic the decoder does on them, and the per-sample conversions
    [convert8] and [convert16] of the two sample widths. *)
Record FloatOps := mkFloatOps {
  double : Type;
  float : Type;
  double_of_bytes : list Z -> double;
  dmul : double -> double -> double;
  ddiv : double -> double -> double;
  dadd : double -> double -> double;
  double_of_int : Z -> double;
  float_of_double : double -> float;
  round_to_int64 : double -> Z;
  FS_PER_SECOND : double;
  convert8 : float -> float -> Z -> float;
  convert16 : float -> float -> Z -> float;
}.

(** Run-time facts about the host: the CPU flag, the OpenMP pool size, and
    what a sample buffer holds right after [Resize]. *)
Record Host := mkHost {
  host_hasAvx2 : bool;
  host_max_threads : Z;
  fresh_samples : Z -> bool;
}.

Inductive Samples (F : FloatOps) :=
  | AnalogSamples (l : list (float F))
  | DigitalSamples (l : list bool).

Arguments AnalogSamples {F} l.
Arguments DigitalSamples {F} l.

Record Stream (F : FloatOps) := mkStream {
  st_name : string;
  st_type : StreamType;
  st_timescale : Z;
  st_samples : Samples F;
}.

Arguments mkStream {F} _ _ _ _.
Arguments st_name {F} _.
Arguments st_type {F} _.
Arguments st_timescale {F} _.
Arguments st_samples {F} _.

Record Filter (F : FloatOps) := mkFilter {
  m_streams : list (Stream F);
  m_log : list (Siglent.LogLevel * string);
}.

Arguments mkFilter {F} _ _.
Arguments m_streams {F} _.
Arguments m_log {F} _.

Inductive Outcome (F : FloatOps) :=
  | Returned (flt : Filter F)
  | Threw_out_of_range (flt : Filter F).

Arguments Returned {F} flt.
Arguments Threw_out_of_range {F} flt.

Section FileCodec.

Variable F : FloatOps.
Variable H : Host.

(** Modelled from the spec: [Oscilloscope::ConvertUnsigned8BitSamples] lives
    in a translation unit that is not at hand.  Decoding is a pure function
    applied to each raw code with the gain and offset it is given; the
    arithmetic of one sample is [convert8]. *)
Definition ConvertUnsigned8BitSamples (f : list Z) (pin : Z)
    (gain offset : float F) (count : Z) : list (float F) :=
  map (fun j => convert8 F gain offset (byte_at f (pin + j))) (seqZ 0 count).

(** Modelled from the spec: [Oscilloscope::ConvertUnsigned16BitSamples], as
    above, on little-endian 16-bit codes. *)
Definition ConvertUnsigned16BitSamples (f : list Z) (pin : Z)
    (gain offset : float F) (count : Z) : list (float F) :=
  map (fun j => convert16 F gain offset
                  (byte_at f (pin + 2 * j) + 256 * byte_at f (pin + 2 * j + 1)))
      (seqZ 0 count).

Definition wh_ch_v_gain (wh : list Z) (i : nat) : double F :=
  double_of_bytes F (field wh (16 + 40 * i) 8).
Definition wh_ch_v_offset (wh : list Z) (i : nat) : double F :=
  double_of_bytes F (field wh (176 + 40 * i) 8).
Definition wh_s_rate (wh : list Z) : double F := double_of_bytes F (field wh 488 8).
Definition wh_d_s_rate (wh : list Z) : double F := double_of_bytes F (field wh 532 8).
Definition wh_ch_probe (wh : list Z) (i : nat) : double F :=
  double_of_bytes F (field wh (572 + 8 * i) 8).
Definition wh_math_v_gain (wh : list Z) (i : nat) : double F :=
  double_of_bytes F (field wh (648 + 40 * i) 8).
Definition wh_math_v_offset (wh : list Z) (i : nat) : double F :=
  double_of_bytes F (field wh (808 + 40 * i) 8).
Definition wh_math_s_interval (wh : list Z) (i : nat) : double F :=
  double_of_bytes F (field wh (984 + 8 * i) 8).

Definition ClearStreams (flt : Filter F) : Filter F := mkFilter [] (m_log flt).

Definition AddStream (st : Stream F) (flt : Filter F) : Filter F :=
  mkFilter (m_streams flt ++ [st]) (m_log flt).

Definition LogError (msg : string) (flt : Filter F) : Filter F :=
  mkFilter (m_streams flt) (m_log flt ++ [(Siglent.LogError, msg)]).

(** [data_width], [center_code] *)
Definition data_width_of (wh : list Z) : Z := uint32_of (wh_data_width wh + 1).
Definition center_code_of (data_width : Z) : Z :=
  int32_of (Z.shiftl 1 (uint32_of (8 * data_width - 1)) - 1).

(** The sample conversion shared by the analog and math loops: the samples
    and the new [fpos]. *)
Definition convert_payload (f : list Z) (fpos : Z) (data_width : Z)
    (v_gain v_offset : double F) (count : Z) : list (float F) * Z :=
  let gain := float_of_double F v_gain in
  let offset :=
    float_of_double F
      (dadd F (dmul F v_gain (double_of_int F (center_code_of data_width))) v_offset) in
  if data_width =? 2 then
    (ConvertUnsigned16BitSamples f fpos gain offset count, uint32_of (fpos + 2 * count))
  else
    (ConvertUnsigned8BitSamples f fpos gain offset count, uint32_of (fpos + count)).

Definition ch_v_gain_of (wh : list Z) (n : nat) : double F :=
  ddiv F (dmul F (wh_ch_v_gain wh n) (wh_ch_probe wh n))
         (double_of_int F (wh_ch_codes_per_div wh n)).

Definition analog_channel (f wh : list Z) (i : Z) (st : Z * Filter F) : Z * Filter F :=
  let '(fpos, flt) := st in
  let n := Z.to_nat i in
  if wh_ch_en wh n =? 1 then
    let v_gain := ch_v_gain_of wh n in
    let '(samples, fpos') :=
      convert_payload f fpos (data_width_of wh) v_gain (wh_ch_v_offset wh n)
        (wh_wave_length wh) in
    (fpos',
     AddStream
       (mkStream ("C" +:+ pretty (i + 1)) STREAM_TYPE_ANALOG
          (round_to_int64 F (ddiv F (FS_PER_SECOND F) (wh_s_rate wh)))
          (AnalogSamples samples)) flt)
  else st.

Definition math_channel (f wh : list Z) (i : Z) (st : Z * Filter F) : Z * Filter F :=
  let '(fpos, flt) := st in
  let n := Z.to_nat i in
  if wh_math_en wh n =? 1 then
    let v_gain :=
      ddiv F (wh_math_v_gain wh n) (double_of_int F (wh_math_codes_per_div wh)) in
    let '(samples, fpos') :=
      convert_payload f fpos (data_width_of wh) v_gain (wh_math_v_offset wh n)
        (wh_math_wave_length wh n) in
    (fpos',
     AddStream
       (mkStream ("F" +:+ pretty (i + 1)) STREAM_TYPE_ANALOG
          (round_to_int64 F (dmul F (wh_math_s_interval wh n) (FS_PER_SECOND F)))
          (AnalogSamples samples)) flt)
  else st.

Definition digital_channel (f wh : list Z) (i : Z) (st : Z * Filter F) : Z * Filter F :=
  let '(fpos, flt) := st in
  let n := Z.to_nat i in
  if wh_d_ch_en wh n =? 1 then
    let len := wh_d_wave_length wh in
    let out :=
      ConvertDigitalSamples (host_hasAvx2 H) (host_max_threads H)
        (fresh_samples H) 0 (byte_at f) fpos (len / 8) in
    (uint32_of (fpos + len / 8),
     AddStream
       (mkStream ("D" +:+ pretty i) STREAM_TYPE_DIGITAL
          (round_to_int64 F (ddiv F (FS_PER_SECOND F) (wh_d_s_rate wh)))
          (DigitalSamples (map out (seqZ 0 len)))) flt)
  else st.

(** The three payload loops of [OnFileNameChanged], from the position
    [fpos] the version switch chose. *)
Definition decode_payload (f wh : list Z) (fpos : Z) (flt : Filter F) : Filter F :=
  let st := (fpos, flt) in
  let st := for_loop 4 0 1 (analog_channel f wh) st in
  let st := for_loop 4 0 1 (math_channel f wh) st in
  let st :=
    if negb (wh_digital_en wh =? 0)
    then for_loop 16 0 1 (digital_channel f wh) st
    else st in
  snd st.

(** [OnFileNameChanged].  [fh0] and [wh0] are the two header structs as the
    function finds them on its stack (not initialised by the code);
    [ReadFile] is the file system.  Debug logging is left out. *)
Definition OnFileNameChanged (fh0 wh0 : list Z) (fname : string)
    (ReadFile : string -> list Z) (flt : Filter F) : Outcome F :=
  let flt := ClearStreams flt in
  if String.eqb fname "" then Returned flt
  else
    let f := ReadFile fname in
    let fpos := 0 in
    match string_copy fh0 f sizeof_FileHeader (Z.to_nat fpos) with
    | None => Threw_out_of_range flt
    | Some fh =>
        let fpos := fpos + Z.of_nat sizeof_FileHeader in
        let version := fh_version fh in
        if negb ((version =? 2) || (version =? 4)) then
          Returned
            (LogError ("Unsupported version (" +:+ fmt_d version +:+ ") in file header") flt)
        else
          let fpos := if version =? 4 then fpos + 4 else fpos in
          match string_copy wh0 f sizeof_WaveHeader (Z.to_nat fpos) with
          | None => Threw_out_of_range flt
          | Some wh =>
              let fpos := if version =? 2 then 0x800 else 0x1000 in
              Returned (decode_payload f wh fpos flt)
          end
    end.

End FileCodec.

End BINImport.

(** ** Reading the enable cache *)

Module CacheSpec.

Import Siglent.

(** What the cache says about channel [k]; an absent entry reads as
    disabled once [operator[]] has touched it. *)
Definition enabled_in (s : Scope) (k : Z) : bool :=
  default false (m_channelsEnabled s !! k).

(** Everything but the enable cache agrees. *)
Definition same_but_enable_cache (s s' : Scope) : Prop :=
  m_analogChannelCount s' = m_analogChannelCount s
  /\ m_triggerArmed s' = m_triggerArmed s
  /\ m_triggerOneShot s' = m_triggerOneShot s
  /\ m_triggerForced s' = m_triggerForced s
  /\ m_channelOffsets s' = m_channelOffsets s
  /\ m_sampleRateValid s' = m_sampleRateValid s
  /\ m_memoryDepthValid s' = m_memoryDepthValid s
  /\ m_transport s' = m_transport s
  /\ m_log s' = m_log s.

(** The keys that one call of [IsInterleaving] evaluates [operator[]] on,
    given the short-circuit conjunctions. *)
Definition reads_key (s : Scope) (k : Z) : bool :=
  if k =? 0 then true
  else if k =? 1 then enabled_in s 0
  else if k =? 3 then negb (enabled_in s 0 && enabled_in s 1)
  else if k =? 4 then negb (enabled_in s 0 && enabled_in s 1) && enabled_in s 3
  else false.

(** The pairing rule as the interface documents it: pairs {0,1} and {2,3}. *)
Definition interleaving_pairs_01_23 (s : Scope) : bool :=
  negb ((enabled_in s 0 && enabled_in s 1) || (enabled_in s 2 && enabled_in s 3)).

(** The claim that every absent key among 0, 1, 3, 4 gets a [false] entry
    that later answers [IsChannelEnabled] from the cache. *)
Definition inserts_every_absent_key (s : Scope) : Prop :=
  let s' := snd (IsInterleaving s) in
  m_transport s' = m_transport s
  /\ forall k, In k [0; 1; 3; 4] ->
       m_channelsEnabled s !! k = None ->
       m_channelsEnabled s' !! k = Some false
       /\ IsChannelEnabled k s' = (false, s').

(** The two validity flags that depend on interleaving. *)
Definition rate_depth_flags (s : Scope) : bool * bool :=
  (m_sampleRateValid s, m_memoryDepthValid s).

(** Two concrete driver states. *)
Definition idle_transport : Transport := mkTransport [] ["ON"; "Stop"]%string [].

Definition scope_cache_empty : Scope :=
  mkScope 4 false false false ∅ ∅ true true idle_transport [].

Definition scope_ch3_ch4_on : Scope :=
  mkScope 4 false false false ∅
    (<[0 := false]> (<[1 := false]> (<[2 := true]> (<[3 := true]> ∅))))
    true true idle_transport [].

End CacheSpec.

(** ** The polling rule as specified *)

Module TriggerSpec.

Import Siglent.

Record TriggerState := mkTriggerState {
  armed : bool;
  oneShot : bool;
  forced : bool;
}.

Definition trigger_state (s : Scope) : TriggerState :=
  mkTriggerState (m_triggerArmed s) (m_triggerOneShot s) (m_triggerForced s).

(** The rule of the design document, on the three flags and the status
    string the instrument would report: the report, the next flags, and
    whether the instrument was asked. *)
Definition poll_rule (st : TriggerState) (status : string)
    : TriggerMode * TriggerState * bool :=
  if forced st then
    (TRIGGER_MODE_TRIGGERED, mkTriggerState false (oneShot st) false, false)
  else if bool_decide (status = "Arm" \/ status = "Ready") then
    (TRIGGER_MODE_RUN, mkTriggerState true (oneShot st) false, true)
  else if bool_decide (status = "Stop") then
    if armed st then
      if oneShot st
      then (TRIGGER_MODE_TRIGGERED, mkTriggerState false true false, true)
      else (TRIGGER_MODE_TRIGGERED, mkTriggerState true false false, true)
    else (TRIGGER_MODE_STOP, st, true)
  else (TRIGGER_MODE_RUN, st, true).

(** The reply the instrument gives to the next query. *)
Definition next_reply (s : Scope) : string :=
  hd EmptyString (replies (m_transport s)).

Definition count_triggered (reports : list TriggerMode) : nat :=
  length (List.filter is_triggered reports).

(** The instrument never reports that it armed itself again. *)
Definition never_rearms (s : Scope) : Prop :=
  Forall (fun r => r <> "Arm" /\ r <> "Ready")%string (replies (m_transport s)).

Definition scope_stopped : Scope :=
  mkScope 4 false false false ∅ ∅ true true
    (mkTransport [] ["Stop"; "Stop"; "Run"]%string []) [].

End TriggerSpec.

(** ** The block header as it appears on the wire *)

Module BlockSpec.

Import Siglent.

(** Value of a run of ASCII decimal digits. *)
Definition decimal (ds : list Z) : Z :=
  fold_left (fun acc c => 10 * acc + (c - 48)) ds 0.

Definition ascii_digits (ds : list Z) : Prop :=
  Forall (fun c => 48 <= c <= 57) ds.

(** The four header shapes.  The forced-trigger shape has two leading
    bytes before [":WF D"] and six more bytes before the digits. *)
Inductive HeaderShape :=
  | TagDESC
  | TagDAT2
  | ForcedWF (a b : Z) (junk : list Z)
  | Bare.

Definition header_bytes (h : HeaderShape) (ds : list Z) : list Z :=
  match h with
  | TagDESC => bytes_of_string "DESC,#9" ++ ds
  | TagDAT2 => bytes_of_string "DAT2,#9" ++ ds
  | ForcedWF a b junk => [a; b] ++ bytes_of_string ":WF D" ++ junk ++ ds
  | Bare => bytes_of_string "#9" ++ ds
  end.

Definition well_formed (h : HeaderShape) : Prop :=
  match h with
  | ForcedWF _ _ junk => length junk = 6%nat
  | _ => True
  end.

(** A 7-byte prefix that is none of the four shapes. *)
Definition unrecognised (p : list Z) : Prop :=
  p <> bytes_of_string "DESC,#9"
  /\ p <> bytes_of_string "DAT2,#9"
  /\ take 5 (drop 2 p) <> bytes_of_string ":WF D"
  /\ take 2 p <> bytes_of_string "#9".

(** The driver with [bytes] pending on the wire. *)
Definition on_wire (bytes : list Z) (s : Scope) : Scope :=
  set_transport
    (mkTransport (sent (m_transport s)) (replies (m_transport s)) bytes) s.

Definition hd_factor (hdSizeWorkaround : bool) : Z :=
  if hdSizeWorkaround then 2 else 1.

Definition five_million : list Z := bytes_of_string "005000000".

Definition scope_idle : Scope :=
  mkScope 4 false false false ∅ ∅ true true (mkTransport [] [] []) [].

End BlockSpec.

(** ** A four-channel instrument *)

Module OffsetSpec.

Import Siglent.

(** Analog channels are indices 0 to 3; the instrument answers the next
    query with ["1.5"]. *)
Definition scope_four_channels : Scope :=
  mkScope 4 false false false ∅ ∅ true true
    (mkTransport [] ["1.5"]%string []) [].

End OffsetSpec.

(** ** What unpacking means *)

Module UnpackSpec.

Import BINImport.

(** Sample [a] of the output as the packed input defines it. *)
Definition bit_of (pout : Z) (data : Z -> Z) (pin : Z) (a : Z) : bool :=
  Z.testbit (data (pin + (a - pout) / 8)) ((a - pout) mod 8).

(** Bytes [lo] (included) to [hi] (excluded) unpacked over [mem]. *)
Definition unpacked (mem : Z -> bool) (pout : Z) (data : Z -> Z) (pin : Z)
    (lo hi : Z) (a : Z) : bool :=
  if (pout + 8 * lo <=? a) && (a <? pout + 8 * hi)
  then bit_of pout data pin a
  else mem a.

(** Output memory cleared, input of all-ones bytes. *)
Definition cleared : Z -> bool := fun _ => false.
Definition all_ones : Z -> Z := fun _ => 255.

End UnpackSpec.

(** ** Streams of a decoded capture file *)

Module FileSpec.

Import Cint BINImport.

(** A payload loop only ever appends streams. *)
Definition keeps {F} (l : list (Stream F)) (st : Z * Filter F) : Prop :=
  exists more, m_streams (snd st) = l ++ more.

(** The stream of analog channel [i] as [analog_channel] builds it when the
    payload position is [fpos]. *)
Definition analog_stream (F : FloatOps) (f wh : list Z) (fpos : Z) (i : nat) : Stream F :=
  mkStream ("C" +:+ pretty (Z.of_nat i + 1)) STREAM_TYPE_ANALOG
    (round_to_int64 F (ddiv F (FS_PER_SECOND F) (wh_s_rate F wh)))
    (AnalogSamples
       (fst (convert_payload F f fpos (data_width_of wh) (ch_v_gain_of F wh i)
               (wh_ch_v_offset F wh i) (wh_wave_length wh)))).

(** The wave header as the decoder sees it when it sits at [pos]. *)
Definition wave_header_at (wh0 f : list Z) (pos : nat) : list Z :=
  write_at wh0 0 (take sizeof_WaveHeader (drop pos f)).

(** Integer stand-ins for the floating-point operations, a scalar
    single-threaded host, and two small files for concrete runs. *)
Definition integer_ops : FloatOps :=
  mkFloatOps Z Z le_uint Z.mul Z.div Z.add (fun z => z) (fun z => z) (fun z => z)
    1000000000000000
    (fun gain offset code => code * gain - offset)
    (fun gain offset code => code * gain - offset).

Definition scalar_host : Host := mkHost false 1 (fun _ => false).

Definition file_v3 : list Z := [3; 0; 0; 0].

(** Version 2, channel 1 enabled, two 8-bit samples 10 and 20 at 0x800. *)
Definition file_v2 : list Z :=
  [2; 0; 0; 0] ++ [1; 0; 0; 0] ++ repeat 0 480%nat ++ [2; 0; 0; 0]
  ++ repeat 0 1556%nat ++ [10; 20].

Definition one_file (f : list Z) : string -> list Z := fun _ => f.

Definition no_streams : Filter integer_ops := mkFilter [] [].

End FileSpec.

(** ** The rest of the driver *)

Module Driver.

Import Cint Siglent.

(** *** Arithmetic on [float] (binary32) and [double] (binary64) *)

Definition f32_mul : spec_float -> spec_float -> spec_float := SFmul 24 128.
Definition f32_div : spec_float -> spec_float -> spec_float := SFdiv 24 128.
Definition f32_of_Z (z : Z) : spec_float := binary_normalize 24 128 z 0 false.
Definition f64_mul : spec_float -> spec_float -> spec_float := SFmul 53 1024.
Definition f64_div : spec_float -> spec_float -> spec_float := SFdiv 53 1024.
Definition f64_of_Z (z : Z) : spec_float := binary_normalize 53 1024 z 0 false.

(** [static_cast<int64_t>(x)]: truncation toward zero; a value that does not
    fit (or is not finite) gives the x86 "integer indefinite" value. *)
Definition int64_of_double (x : spec_float) : Z :=
  match x with
  | S754_zero _ => 0
  | S754_finite sign m e =>
      let mag := if 0 <=? e then Z.pos m * 2 ^ e else Z.pos m / 2 ^ (- e) in
      let v := if sign then - mag else mag in
      if (- 2 ^ 63 <=? v) && (v <? 2 ^ 63) then v else - 2 ^ 63
  | _ => - 2 ^ 63
  end.

(** [round(x)] (halfway cases away from zero) followed by the conversion to
    [int64_t]. *)
Definition round_to_int64 (x : spec_float) : Z :=
  match x with
  | S754_zero _ => 0
  | S754_finite sign m e =>
      let mag :=
        if 0 <=? e then Z.pos m * 2 ^ e
        else (2 * Z.pos m + 2 ^ (- e)) / (2 * 2 ^ (- e)) in
      let v := if sign then - mag else mag in
      if (- 2 ^ 63 <=? v) && (v <? 2 ^ 63) then v else - 2 ^ 63
  | _ => - 2 ^ 63
  end.

(** *** State beyond [Scope] *)

Inductive CouplingType :=
  | COUPLE_DC_1M
  | COUPLE_AC_1M
  | COUPLE_DC_50
  | COUPLE_AC_50
  | COUPLE_GND
  | COUPLE_SYNTHETIC.

Inductive EdgeType := EDGE_RISING | EDGE_FALLING | EDGE_ANY.

(** The trigger object [m_trigger] points to: level, edge and input channel. *)
Record EdgeTrigger := mkEdgeTrigger {
  et_level : spec_float;
  et_type : EdgeType;
  et_input : option Z;
}.

Record Osc := mkOsc {
  scope : Scope;
  m_sampleRate : Z;
  m_memoryDepth : Z;
  m_triggerOffsetValid : bool;
  m_channelVoltageRanges : gmap Z spec_float;
  m_channelDeskew : gmap Z Z;
  m_probeIsActive : gmap Z bool;
  m_trigger : option EdgeTrigger;
}.

Definition set_scope (s : Scope) (o : Osc) : Osc :=
  mkOsc s (m_sampleRate o) (m_memoryDepth o) (m_triggerOffsetValid o)
    (m_channelVoltageRanges o) (m_channelDeskew o) (m_probeIsActive o) (m_trigger o).

Definition set_sampleRate (r : Z) (o : Osc) : Osc :=
  mkOsc (scope o) r (m_memoryDepth o) (m_triggerOffsetValid o)
    (m_channelVoltageRanges o) (m_channelDeskew o) (m_probeIsActive o) (m_trigger o).

Definition set_memoryDepth (d : Z) (o : Osc) : Osc :=
  mkOsc (scope o) (m_sampleRate o) d (m_triggerOffsetValid o)
    (m_channelVoltageRanges o) (m_channelDeskew o) (m_probeIsActive o) (m_trigger o).

Definition set_channelVoltageRanges (m : gmap Z spec_float) (o : Osc) : Osc :=
  mkOsc (scope o) (m_sampleRate o) (m_memoryDepth o) (m_triggerOffsetValid o)
    m (m_channelDeskew o) (m_probeIsActive o) (m_trigger o).

Definition set_channelDeskew (m : gmap Z Z) (o : Osc) : Osc :=
  mkOsc (scope o) (m_sampleRate o) (m_memoryDepth o) (m_triggerOffsetValid o)
    (m_channelVoltageRanges o) m (m_probeIsActive o) (m_trigger o).

Definition set_probeIsActive (m : gmap Z bool) (o : Osc) : Osc :=
  mkOsc (scope o) (m_sampleRate o) (m_memoryDepth o) (m_triggerOffsetValid o)
    (m_channelVoltageRanges o) (m_channelDeskew o) m (m_trigger o).

(** [sendOnly], [converse] and the log on the larger state. *)
Definition send (cmd : string) (o : Osc) : Osc := set_scope (sendOnly cmd (scope o)) o.

Definition ask (cmd : string) (o : Osc) : string * Osc :=
  let '(reply, s) := converse cmd (scope o) in (reply, set_scope s o).

Definition log (lvl : LogLevel) (msg : string) (o : Osc) : Osc :=
  set_scope (Log lvl msg (scope o)) o.

Definition channel_count (o : Osc) : Z := m_analogChannelCount (scope o).

(** *** Cache flush *)

(** [FlushConfigCache].  The cached display names live in the channel
    objects, which are not part of this state. *)
Definition FlushConfigCache (o : Osc) : Osc :=
  let s := scope o in
  let s := set_channelOffsets ∅ s in
  let s := set_channelsEnabled ∅ s in
  let s := set_sampleRateValid false s in
  let s := set_memoryDepthValid false s in
  mkOsc s (m_sampleRate o) (m_memoryDepth o) false ∅ ∅ ∅ None.

(** *** Bulk enable check *)

(** The indices [i < m_analogChannelCount] without a cache entry, as the
    [int]s pushed to [uncached]. *)
Definition uncached_channels (s : Scope) : list Z :=
  map key_of
    (List.filter
       (fun i => match m_channelsEnabled s !! key_of i with
                 | Some _ => false
                 | None => true
                 end)
       (seqZ 0 (m_analogChannelCount s))).

Definition bulk_check_one (i : Z) (s : Scope) : Scope :=
  let '(reply, s) := converse (":CHANNEL" +:+ fmt_d (i + 1) +:+ ":SWITCH?") s in
  if String.eqb reply "OFF" then
    set_channelsEnabled (<[i := false]> (m_channelsEnabled s)) s
  else if String.eqb reply "ON" then
    set_channelsEnabled (<[i := true]> (m_channelsEnabled s)) s
  else Log LogWarning "BulkCheckChannelEnableState: Unrecognised reply" s.

Definition BulkCheckChannelEnableState (s : Scope) : Scope :=
  fold_left (fun s i => bulk_check_one i s) (uncached_channels s) s.

(** *** Bandwidth limit and inversion *)

Definition GetChannelBandwidthLimiters (i : Z) : list Z := [0; 20].

Definition GetChannelBandwidthLimit (i : Z) (s : Scope) : Z * Scope :=
  let '(reply, s) := converse (":CHANNEL" +:+ fmt_d (i + 1) +:+ ":BWLIMIT?") s in
  if String.eqb reply "FULL" then (0, s)
  else if String.eqb reply "20M" then (20, s)
  else
    (0, Log LogWarning "SiglentMinOscilloscope::GetChannelCoupling got invalid bwlimit" s).

Definition SetChannelBandwidthLimit (i limit_mhz : Z) (s : Scope) : Scope :=
  if limit_mhz =? 0 then
    sendOnly (":CHANNEL" +:+ fmt_d (i + 1) +:+ ":BWLIMIT FULL") s
  else if limit_mhz =? 20 then
    sendOnly (":CHANNEL" +:+ fmt_d (i + 1) +:+ ":BWLIMIT 20M") s
  else if limit_mhz =? 200 then
    sendOnly (":CHANNEL" +:+ fmt_d (i + 1) +:+ ":BWLIMIT 200M") s
  else Log LogWarning "SiglentMinOscilloscope::invalid bwlimit set request" s.

Definition CanInvert (i : Z) (s : Scope) : bool := i <? m_analogChannelCount s.

Definition Invert (i : Z) (invert : bool) (s : Scope) : Scope :=
  if m_analogChannelCount s <=? i then s
  else
    sendOnly (":CHANNEL" +:+ fmt_d (i + 1) +:+ ":INVERT "
              +:+ (if invert then "ON" else "OFF")) s.

(** *** Sample rate and memory depth tables *)

Definition GetSampleRatesNonInterleaved : list Z :=
  [10 * 1000; 20 * 1000; 50 * 1000; 100 * 1000; 200 * 1000; 500 * 1000;
   1 * 1000 * 1000; 2 * 1000 * 1000; 5 * 1000 * 1000; 10 * 1000 * 1000;
   20 * 1000 * 1000; 50 * 1000 * 1000; 100 * 1000 * 1000; 200 * 1000 * 1000;
   500 * 1000 * 1000; 1 * 1000 * 1000 * 1000].

Definition uint64_of (z : Z) : Z := z mod 2 ^ 64.

Definition GetSampleRatesInterleaved : list Z :=
  map (fun r => uint64_of (r * 2)) GetSampleRatesNonInterleaved.

Definition GetSampleDepthsNonInterleaved : list Z :=
  [10 * 1000; 100 * 1000; 1000 * 1000; 10 * 1000 * 1000].

Definition GetSampleDepthsInterleaved : list Z :=
  map (fun d => uint64_of (d * 2)) GetSampleDepthsNonInterleaved.

(** [SetInterleaving]: always hardware managed. *)
Definition SetInterleaving (combine : bool) (s : Scope) : bool := false.

(** [GetInterleaveConflicts], as pairs of channel indices. *)
Definition GetInterleaveConflicts (s : Scope) : list (Z * Z) :=
  if 2 <? m_analogChannelCount s then [(0, 1); (2, 3)] else [(0, 1)].

Section Accessors.

(** C library and scopehal services that are not part of the driver:
    [printf] of a [double] with ["%1.2E"] and ["%.4f"], [sscanf] with ["%f"]
    and ["%lf"], [Unit(UNIT_SAMPLEDEPTH).ParseString], [Trim], and the
    constants [FS_PER_SECOND] and [SECONDS_PER_FS]. *)
Variable fmt_1_2E : spec_float -> string.
Variable fmt_4f : spec_float -> string.
Variable sscanf_f : string -> spec_float.
Variable sscanf_lf : string -> spec_float.
Variable ParseSampleDepth : string -> spec_float.
Variable Trim : string -> string.
Variable FS_PER_SECOND : spec_float.
Variable SECONDS_PER_FS : spec_float.

Definition IsInverted (i : Z) (s : Scope) : bool * Scope :=
  if m_analogChannelCount s <=? i then (false, s)
  else
    let '(reply, s) := converse (":CHANNEL" +:+ fmt_d (i + 1) +:+ ":INVERT?") s in
    (String.eqb (Trim reply) "ON", s).

(** *** Timebase *)

Definition GetSampleRate (o : Osc) : Z * Osc :=
  if m_sampleRateValid (scope o) then (uint64_of (m_sampleRate o), o)
  else
    let '(reply, o) := ask ":ACQUIRE:SRATE?" o in
    let o := set_sampleRate (int64_of_double (sscanf_lf reply)) o in
    let o := set_scope (set_sampleRateValid true (scope o)) o in
    (uint64_of (m_sampleRate o), o).

Definition GetSampleDepth (o : Osc) : Z * Osc :=
  if m_memoryDepthValid (scope o) then (uint64_of (m_memoryDepth o), o)
  else
    let '(reply, o) := ask ":ACQUIRE:MDEPTH?" o in
    let o := set_memoryDepth (int64_of_double (ParseSampleDepth reply)) o in
    let o := set_scope (set_memoryDepthValid true (scope o)) o in
    (uint64_of (m_memoryDepth o), o).

Definition SetSampleRate (rate : Z) (o : Osc) : Osc :=
  let o := set_sampleRate (int64_of rate) o in
  let o := set_scope (set_sampleRateValid false (scope o)) o in
  let o := set_scope (set_memoryDepthValid false (scope o)) o in
  let '(depth, o) := GetSampleDepth o in
  let sampletime := f64_div (f64_of_Z depth) (f64_of_Z rate) in
  let scale := f64_div sampletime (f64_of_Z 10) in
  let o := send (":TIMEBASE:SCALE " +:+ fmt_1_2E scale) o in
  set_scope (set_memoryDepthValid false (scope o)) o.

(** The [switch] of [SetSampleDepth]: the command for a supported depth. *)
Definition depth_command (depth : Z) : option string :=
  if depth =? 10000 then Some "ACQUIRE:MDEPTH 10k"
  else if depth =? 20000 then Some "ACQUIRE:MDEPTH 20k"
  else if depth =? 100000 then Some "ACQUIRE:MDEPTH 100k"
  else if depth =? 200000 then Some "ACQUIRE:MDEPTH 200k"
  else if depth =? 1000000 then Some "ACQUIRE:MDEPTH 1M"
  else if depth =? 2000000 then Some "ACQUIRE:MDEPTH 2M"
  else if depth =? 10000000 then Some "ACQUIRE:MDEPTH 10M"
  else None.

Definition SetSampleDepth (depth : Z) (o : Osc) : Osc :=
  let '(rate, o) := GetSampleRate o in
  let o := send "TRIG_MODE AUTO" o in
  let o :=
    match depth_command depth with
    | Some cmd => send cmd o
    | None => log LogError "Invalid memory depth for channel" o
    end in
  let o :=
    if IsTriggerArmed (scope o)
    then send "TRIG_MODE SINGLE" o
    else send "TRIG_MODE STOP" o in
  let o := set_scope (set_memoryDepthValid false (scope o)) o in
  SetSampleRate rate o.

(** *** Deskew *)

Definition SetDeskewForChannel (channel skew : Z) (o : Osc) : Osc :=
  if channel_count o <=? channel then o
  else
    let o :=
      send (":CHANNEL" +:+ fmt_ld channel +:+ ":SKEW "
            +:+ fmt_1_2E (f64_mul (f64_of_Z skew) SECONDS_PER_FS)) o in
    set_channelDeskew (<[channel := skew]> (m_channelDeskew o)) o.

Definition GetDeskewForChannel (channel : Z) (o : Osc) : Z * Osc :=
  if channel_count o <=? channel then (0, o)
  else
    match m_channelDeskew o !! channel with
    | Some skew => (skew, o)
    | None =>
        let '(reply, o) :=
          ask (":CHANNEL" +:+ fmt_ld (channel + 1) +:+ ":SKEW?") o in
        let skew := sscanf_f reply in
        let skew_ps := round_to_int64 (f64_mul skew FS_PER_SECOND) in
        (skew_ps, set_channelDeskew (<[channel := skew_ps]> (m_channelDeskew o)) o)
    end.

(** *** Voltage range *)

Definition GetChannelVoltageRange (i stream : Z) (o : Osc) : spec_float * Osc :=
  if channel_count o <? i then (f32_of_Z 1, o)
  else
    match m_channelVoltageRanges o !! i with
    | Some v => (v, o)
    | None =>
        let '(reply, o) := ask (":CHANNEL" +:+ fmt_d (i + 1) +:+ ":SCALE?") o in
        let volts_per_div := sscanf_f reply in
        let v := f32_mul volts_per_div (f32_of_Z 8) in
        (v, set_channelVoltageRanges (<[i := v]> (m_channelVoltageRanges o)) o)
    end.

Definition SetChannelVoltageRange (i stream : Z) (range : spec_float) (o : Osc) : Osc :=
  let vdiv := f32_div range (f32_of_Z 8) in
  let o := set_channelVoltageRanges (<[i := range]> (m_channelVoltageRanges o)) o in
  send (":CHANNEL" +:+ fmt_ld (i + 1) +:+ ":SCALE " +:+ fmt_4f vdiv) o.

(** *** Coupling and attenuation *)

Definition GetAvailableCouplings (i : Z) : list CouplingType :=
  [COUPLE_DC_1M; COUPLE_AC_1M; COUPLE_DC_50; COUPLE_AC_50; COUPLE_GND].

Definition GetChannelCoupling (i : Z) (o : Osc) : CouplingType * Osc :=
  let o := set_probeIsActive (<[i := false]> (m_probeIsActive o)) o in
  let '(r1, o) := ask (":CHANNEL" +:+ fmt_d (i + 1) +:+ ":COUPLING?") o in
  let replyType := Trim (String.substring 0 2 r1) in
  let '(r2, o) := ask (":CHANNEL" +:+ fmt_d (i + 1) +:+ ":IMPEDANCE?") o in
  let replyImp := Trim (String.substring 0 3 r2) in
  if String.eqb replyType "AC" then
    (if String.prefix "FIF" replyImp then COUPLE_AC_50 else COUPLE_AC_1M, o)
  else if String.eqb replyType "DC" then
    (if String.prefix "FIF" replyImp then COUPLE_DC_50 else COUPLE_DC_1M, o)
  else if String.eqb replyType "GN" then (COUPLE_GND, o)
  else
    (COUPLE_SYNTHETIC,
     log LogWarning "SiglentMinOscilloscope::GetChannelCoupling got invalid coupling" o).

(** [m_probeIsActive[i]] with the default insertion of [operator[]]. *)
Definition probeIsActive_at (i : Z) (o : Osc) : bool * Osc :=
  match m_probeIsActive o !! i with
  | Some b => (b, o)
  | None => (false, set_probeIsActive (<[i := false]> (m_probeIsActive o)) o)
  end.

Definition SetChannelCoupling (i : Z) (type : CouplingType) (o : Osc) : Osc :=
  if channel_count o <=? i then o
  else
    let '(_, o) := GetChannelCoupling i o in
    let '(active, o) := probeIsActive_at i o in
    if active then o
    else
      let ch := ":CHANNEL" +:+ fmt_d (i + 1) in
      match type with
      | COUPLE_AC_1M => send (ch +:+ ":IMPEDANCE ONEMEG") (send (ch +:+ ":COUPLING AC") o)
      | COUPLE_DC_1M => send (ch +:+ ":IMPEDANCE ONEMEG") (send (ch +:+ ":COUPLING DC") o)
      | COUPLE_DC_50 => send (ch +:+ ":IMPEDANCE FIFTY") (send (ch +:+ ":COUPLING DC") o)
      | COUPLE_AC_50 => send (ch +:+ ":IMPEDANCE FIFTY") (send (ch +:+ ":COUPLING AC") o)
      | _ => send (ch +:+ ":COUPLING GND") o
      end.

Definition GetChannelAttenuation (i : Z) (o : Osc) : spec_float * Osc :=
  let '(reply, o) := ask (":CHANNEL" +:+ fmt_d (i + 1) +:+ ":PROBE?") o in
  (sscanf_lf reply, o).

Definition SetChannelAttenuation (i : Z) (atten : spec_float) (o : Osc) : Osc :=
  let '(_, o) := GetChannelCoupling i o in
  let '(active, o) := probeIsActive_at i o in
  if active then o
  else send (":CHANNEL" +:+ fmt_d (i + 1) +:+ ":PROBE VALUE," +:+ fmt_1_2E atten) o.

End Accessors.

End Driver.

(** ** Commands queued by one call *)

Module DriverSpec.

Import Cint Siglent Driver.

(** The commands a call added to the queue of the transport. *)
Definition queued_since (o o' : Osc) : list string :=
  drop (length (sent (m_transport (scope o)))) (sent (m_transport (scope o'))).

Definition switch_query (i : Z) : string := ":CHANNEL" +:+ fmt_d (i + 1) +:+ ":SWITCH?".

(** The two replies [BulkCheckChannelEnableState] recognises. *)
Definition on_or_off (r : string) : Prop := r = "ON"%string \/ r = "OFF"%string.

(** A four-channel instrument with nothing cached that will answer [rs],
    the driver state around it, and stand-ins for the C library. *)
Definition scope_replying (rs : list string) : Scope :=
  mkScope 4 false false false ∅ ∅ false false (mkTransport [] rs []) [].

Definition osc_of (s : Scope) : Osc := mkOsc s 0 0 false ∅ ∅ ∅ None.

Definition print_nothing : spec_float -> string := fun _ => EmptyString.
Definition scan_zero : string -> spec_float := fun _ => S754_zero false.
Definition trim_nothing : string -> string := fun s => s.

End DriverSpec.

(** ** Streams of a decoded file, by name and by sample *)

Module PayloadSpec.

Import Cint BINImport.

(** The indices below [n] whose enable field is 1. *)
Definition enabled_indices (en : nat -> Z) (n : Z) : list Z :=
  List.filter (fun i => en (Z.to_nat i) =? 1) (seqZ 0 n).

(** Stream names in file order: analog, math, then digital (when the
    digital section is switched on). *)
Definition stream_names (wh : list Z) : list string :=
  map (fun i => "C" +:+ pretty (i + 1)) (enabled_indices (wh_ch_en wh) 4)
  ++ map (fun i => "F" +:+ pretty (i + 1)) (enabled_indices (wh_math_en wh) 4)
  ++ (if wh_digital_en wh =? 0 then []
      else map (fun i => "D" +:+ pretty i) (enabled_indices (wh_d_ch_en wh) 16)).

(** Sample [a] of a digital stream of [len] samples packed at [fpos]: the
    whole bytes are unpacked, the remainder is what the buffer held. *)
Definition digital_sample (H : Host) (f : list Z) (fpos len a : Z) : bool :=
  if a <? 8 * (len / 8)
  then Z.testbit (byte_at f (fpos + a / 8)) (a mod 8)
  else fresh_samples H a.

(** Bytes per analog sample as the decoder chooses them, and the number of
    enabled analog channels in front of channel [i]. *)
Definition sample_bytes (wh : list Z) : Z := if data_width_of wh =? 2 then 2 else 1.

Definition enabled_before (en : nat -> Z) (i : nat) : nat :=
  length (enabled_indices en (Z.of_nat i)).

(** A wave header with digital channel 0 enabled and 12 digital samples. *)
Definition wh_digital : list Z :=
  repeat 0 340%nat ++ [1; 0; 0; 0] ++ repeat 0 184%nat ++ [12; 0; 0; 0]
  ++ repeat 0 488%nat.

End PayloadSpec.

(** ** Counted loops *)

Section Loops.

Import BINImport.

(** A property every iteration preserves survives the loop. *)
Lemma for_loop_frame {S} (P : S -> Prop) (body : Z -> S -> S) n :
  forall start s,
  (forall i s, start <= i < start + Z.of_nat n -> P s -> P (body i s)) ->
  P s -> P (for_loop n start 1 body s).
Proof.
  induction n as [|n IH]; intros start s Hb Hs; [exact Hs|].
  cbn [for_loop]. apply IH.
  - intros i s' Hi. apply Hb. lia.
  - apply Hb; [lia | exact Hs].
Qed.

End Loops.

(** ** Properties of the enable cache *)

Section EnableCache.

Import Siglent CacheSpec.

Lemma same_but_enable_cache_refl s : same_but_enable_cache s s.
Proof. repeat split. Qed.

Lemma same_but_enable_cache_trans s1 s2 s3 :
  same_but_enable_cache s1 s2 -> same_but_enable_cache s2 s3 ->
  same_but_enable_cache s1 s3.
Proof.
  unfold same_but_enable_cache.
  intros (?&?&?&?&?&?&?&?&?) (?&?&?&?&?&?&?&?&?).
  repeat split; congruence.
Qed.

Lemma channelsEnabled_at_value k s :
  fst (channelsEnabled_at k s) = enabled_in s k.
Proof.
  unfold channelsEnabled_at, enabled_in.
  destruct (m_channelsEnabled s !! k); reflexivity.
Qed.

Lemma channelsEnabled_at_frame k s :
  same_but_enable_cache s (snd (channelsEnabled_at k s)).
Proof.
  unfold channelsEnabled_at.
  destruct (m_channelsEnabled s !! k); repeat split.
Qed.

Lemma channelsEnabled_at_lookup k j s :
  m_channelsEnabled (snd (channelsEnabled_at k s)) !! j =
  if decide (k = j)
  then Some (enabled_in s k)
  else m_channelsEnabled s !! j.
Proof.
  unfold channelsEnabled_at, enabled_in.
  destruct (m_channelsEnabled s !! k) eqn:E; simpl.
  - case_decide; subst; auto.
  - rewrite lookup_insert. reflexivity.
Qed.

Lemma channelsEnabled_at_enabled k j s :
  enabled_in (snd (channelsEnabled_at k s)) j = enabled_in s j.
Proof.
  unfold enabled_in at 1. rewrite channelsEnabled_at_lookup.
  case_decide; subst; reflexivity.
Qed.

(** What [IsInterleaving] returns, in terms of the cache it is given. *)
Lemma IsInterleaving_value s :
  fst (IsInterleaving s) =
  negb ((enabled_in s 0 && enabled_in s 1) || (enabled_in s 3 && enabled_in s 4)).
Proof.
  unfold IsInterleaving.
  destruct (channelsEnabled_at 0 s) as [e0 s1] eqn:E0.
  pose proof (channelsEnabled_at_value 0 s) as V0. rewrite E0 in V0. simpl in V0.
  pose proof (channelsEnabled_at_enabled 0 1 s) as K01. rewrite E0 in K01; simpl in K01.
  pose proof (channelsEnabled_at_enabled 0 3 s) as K03. rewrite E0 in K03; simpl in K03.
  pose proof (channelsEnabled_at_enabled 0 4 s) as K04. rewrite E0 in K04; simpl in K04.
  rewrite <- V0, <- K01, <- K03, <- K04. clear V0 K01 K03 K04 E0.
  destruct e0; simpl.
  - destruct (channelsEnabled_at 1 s1) as [e1 s2] eqn:E1.
    pose proof (channelsEnabled_at_value 1 s1) as V1. rewrite E1 in V1. simpl in V1.
    pose proof (channelsEnabled_at_enabled 1 3 s1) as K13. rewrite E1 in K13; simpl in K13.
    pose proof (channelsEnabled_at_enabled 1 4 s1) as K14. rewrite E1 in K14; simpl in K14.
    rewrite <- V1, <- K13, <- K14. clear V1 K13 K14 E1.
    destruct e1; simpl; [reflexivity|].
    destruct (channelsEnabled_at 3 s2) as [e3 s3] eqn:E3.
    pose proof (channelsEnabled_at_value 3 s2) as V3. rewrite E3 in V3. simpl in V3.
    pose proof (channelsEnabled_at_enabled 3 4 s2) as K34. rewrite E3 in K34; simpl in K34.
    rewrite <- V3, <- K34. clear V3 K34 E3.
    destruct e3; simpl; [|reflexivity].
    rewrite <- (channelsEnabled_at_value 4 s3).
    destruct (channelsEnabled_at 4 s3) as [[] ?]; reflexivity.
  - destruct (channelsEnabled_at 3 s1) as [e3 s3] eqn:E3.
    pose proof (channelsEnabled_at_value 3 s1) as V3. rewrite E3 in V3. simpl in V3.
    pose proof (channelsEnabled_at_enabled 3 4 s1) as K34. rewrite E3 in K34; simpl in K34.
    rewrite <- V3, <- K34. clear V3 K34 E3.
    destruct e3; simpl; [|reflexivity].
    rewrite <- (channelsEnabled_at_value 4 s3).
    destruct (channelsEnabled_at 4 s3) as [[] ?]; reflexivity.
Qed.

(** The state [IsInterleaving] leaves behind. *)
Lemma IsInterleaving_state s :
  snd (IsInterleaving s) =
  let s1 := snd (channelsEnabled_at 0 s) in
  let s2 := if enabled_in s 0 then snd (channelsEnabled_at 1 s1) else s1 in
  if enabled_in s 0 && enabled_in s 1 then s2
  else
    let s3 := snd (channelsEnabled_at 3 s2) in
    if enabled_in s 3 then snd (channelsEnabled_at 4 s3) else s3.
Proof.
  unfold IsInterleaving. cbv zeta.
  rewrite <- (channelsEnabled_at_value 0 s).
  rewrite <- (channelsEnabled_at_enabled 0 1 s).
  rewrite <- (channelsEnabled_at_enabled 0 3 s).
  destruct (channelsEnabled_at 0 s) as [e0 s1]. simpl.
  destruct e0; simpl.
  - rewrite <- (channelsEnabled_at_value 1 s1).
    rewrite <- (channelsEnabled_at_enabled 1 3 s1).
    destruct (channelsEnabled_at 1 s1) as [e1 s2]. simpl.
    destruct e1; simpl; [reflexivity|].
    rewrite <- (channelsEnabled_at_value 3 s2).
    destruct (channelsEnabled_at 3 s2) as [e3 s3]. simpl.
    destruct e3; simpl; [|reflexivity].
    destruct (channelsEnabled_at 4 s3) as [[] ?]; reflexivity.
  - rewrite <- (channelsEnabled_at_value 3 s1).
    destruct (channelsEnabled_at 3 s1) as [e3 s3]. simpl.
    destruct e3; simpl; [|reflexivity].
    destruct (channelsEnabled_at 4 s3) as [[] ?]; reflexivity.
Qed.

Lemma IsInterleaving_frame s :
  same_but_enable_cache s (snd (IsInterleaving s)).
Proof.
  rewrite IsInterleaving_state. cbv zeta.
  pose proof channelsEnabled_at_frame as F.
  pose proof same_but_enable_cache_trans as T.
  pose proof same_but_enable_cache_refl as R.
  destruct (enabled_in s 0), (enabled_in s 1), (enabled_in s 3); simpl; eauto 8.
Qed.

Lemma IsInterleaving_enabled s j :
  enabled_in (snd (IsInterleaving s)) j = enabled_in s j.
Proof.
  rewrite IsInterleaving_state. cbv zeta.
  destruct (enabled_in s 0), (enabled_in s 1), (enabled_in s 3); simpl;
    rewrite ?channelsEnabled_at_enabled; reflexivity.
Qed.

(** Which entries one call creates. *)
Lemma IsInterleaving_lookup s k :
  m_channelsEnabled (snd (IsInterleaving s)) !! k =
  if reads_key s k then Some (enabled_in s k) else m_channelsEnabled s !! k.
Proof.
  rewrite IsInterleaving_state. cbv zeta. unfold reads_key.
  destruct (enabled_in s 0) eqn:E0, (enabled_in s 1) eqn:E1,
           (enabled_in s 3) eqn:E3; simpl;
    rewrite ?channelsEnabled_at_lookup, ?channelsEnabled_at_enabled;
    repeat case_decide; subst; simpl; try reflexivity; try congruence;
    repeat (match goal with
            | |- context [?a =? ?b] =>
                destruct (Z.eqb_spec a b); try lia; try congruence
            end); simpl; try reflexivity; try congruence.
Qed.

Lemma IsChannelEnabled_cached i b s :
  m_channelsEnabled s !! key_of i = Some b ->
  IsChannelEnabled i s = (b, s).
Proof.
  intros H. unfold IsChannelEnabled, channelsEnabled_at. rewrite H. reflexivity.
Qed.

Lemma IsInterleaving_value_ext s s' :
  (forall j, enabled_in s j = enabled_in s' j) ->
  fst (IsInterleaving s) = fst (IsInterleaving s').
Proof. intros H. rewrite !IsInterleaving_value, !H. reflexivity. Qed.

Lemma IsInterleaving_flags s :
  rate_depth_flags (snd (IsInterleaving s)) = rate_depth_flags s.
Proof.
  destruct (IsInterleaving_frame s) as (_&_&_&_&_&Hr&Hd&_).
  unfold rate_depth_flags. rewrite Hr, Hd. reflexivity.
Qed.

(** The tail shared by [EnableChannel] and [DisableChannel]: compare the
    interleaving state again and drop the two flags when it moved. *)
Lemma recheck_interleaving was s :
  let r :=
    let '(nowInterleaving, s) := IsInterleaving s in
    if negb (Bool.eqb nowInterleaving was)
    then invalidate_rate_and_depth s else s in
  rate_depth_flags r =
  if Bool.eqb (fst (IsInterleaving r)) was
  then rate_depth_flags s else (false, false).
Proof.
  cbv zeta.
  pose proof (IsInterleaving_flags s) as Hf.
  pose proof (IsInterleaving_enabled s) as He.
  destruct (IsInterleaving s) as [now s4] eqn:E. simpl in Hf, He.
  assert (Hnow : now = fst (IsInterleaving s)) by (rewrite E; reflexivity).
  destruct (Bool.eqb now was) eqn:Eq; simpl.
  - rewrite (IsInterleaving_value_ext s4 s He), <- Hnow, Eq. exact Hf.
  - rewrite (IsInterleaving_value_ext (invalidate_rate_and_depth s4) s)
      by (intros j; rewrite <- He; reflexivity).
    rewrite <- Hnow, Eq. reflexivity.
Qed.

(** C1.  With channels 2 and 3 both enabled (and 0, 1, 4 disabled) the
    documented pairing {0,1} / {2,3} says interleaving is off, yet
    [IsInterleaving] answers [true]: it keys its second test on 3 and 4. *)
Theorem IsInterleaving_ignores_pair_2_3 :
  enabled_in scope_ch3_ch4_on 2 = true
  /\ enabled_in scope_ch3_ch4_on 3 = true
  /\ interleaving_pairs_01_23 scope_ch3_ch4_on = false
  /\ fst (IsInterleaving scope_ch3_ch4_on) = true.
Proof. repeat split; vm_compute; reflexivity. Qed.

(** C8.  [EnableChannel] and [DisableChannel] clear the sample-rate and
    memory-depth validity flags exactly when [IsInterleaving] answers
    differently after the change than before it; otherwise both flags keep
    their values. *)
Theorem enable_disable_invalidate_iff_interleaving_moves (i : Z) (s : Scope) :
  let before := fst (IsInterleaving s) in
  rate_depth_flags (EnableChannel i s) =
    (if Bool.eqb (fst (IsInterleaving (EnableChannel i s))) before
     then rate_depth_flags s else (false, false))
  /\ rate_depth_flags (DisableChannel i s) =
    (if Bool.eqb (fst (IsInterleaving (DisableChannel i s))) before
     then rate_depth_flags s else (false, false)).
Proof.
  cbv zeta. split.
  - unfold EnableChannel.
    pose proof (IsInterleaving_flags s) as Hf.
    destruct (IsInterleaving s) as [was s1]. simpl in Hf |- *.
    match goal with
    | |- context [IsInterleaving ?x] =>
        pose proof (recheck_interleaving was x) as R; cbv zeta in R;
        assert (Hx : rate_depth_flags x = rate_depth_flags s)
    end.
    { rewrite <- Hf. destruct (i <? m_analogChannelCount s1); reflexivity. }
    rewrite Hx in R. exact R.
  - unfold DisableChannel.
    pose proof (IsInterleaving_flags s) as Hf.
    destruct (IsInterleaving s) as [was s1]. simpl in Hf |- *.
    match goal with
    | |- context [IsInterleaving ?x] =>
        pose proof (recheck_interleaving was x) as R; cbv zeta in R;
        assert (Hx : rate_depth_flags x = rate_depth_flags s)
    end.
    { rewrite <- Hf. simpl.
      destruct (i <? m_analogChannelCount s1); reflexivity. }
    rewrite Hx in R. exact R.
Qed.

Lemma reads_key_domain s k : reads_key s k = true -> key_of k = k.
Proof.
  unfold reads_key.
  repeat (match goal with
          | |- context [?a =? ?b] => destruct (Z.eqb_spec a b); subst
          end); try reflexivity; discriminate.
Qed.

(** C10 as first stated does not hold: on an empty cache the first
    conjunction stops at key 0, so key 1 gets no entry. *)
Lemma IsInterleaving_skips_key_1 : ~ inserts_every_absent_key scope_cache_empty.
Proof.
  intros [_ H].
  destruct (H 1) as [H1 _]; [simpl; auto | reflexivity |].
  vm_compute in H1. discriminate.
Qed.

(** C10, amended.  [IsInterleaving] leaves the transport alone, yet it
    writes the enable cache: every key among 0, 1, 3, 4 that its
    short-circuit tests reach and that had no entry gets a [false] entry,
    and [IsChannelEnabled] then answers [false] from the cache with the
    state (so the transport) unchanged; a key the tests do not reach stays
    without entry. *)
Theorem IsInterleaving_default_insertion (s : Scope) :
  let s' := snd (IsInterleaving s) in
  m_transport s' = m_transport s
  /\ forall k, m_channelsEnabled s !! k = None ->
       if reads_key s k
       then m_channelsEnabled s' !! k = Some false
            /\ IsChannelEnabled k s' = (false, s')
       else m_channelsEnabled s' !! k = None.
Proof.
  cbv zeta. split.
  - destruct (IsInterleaving_frame s) as (_&_&_&_&_&_&_&Ht&_). exact Ht.
  - intros k Hk. pose proof (IsInterleaving_lookup s k) as L.
    destruct (reads_key s k) eqn:R.
    + assert (L' : m_channelsEnabled (snd (IsInterleaving s)) !! k = Some false).
      { rewrite L. unfold enabled_in. rewrite Hk. reflexivity. }
      split; [exact L'|].
      apply IsChannelEnabled_cached. rewrite (reads_key_domain s k R). exact L'.
    + rewrite L. exact Hk.
Qed.

Lemma IsInterleaving_default_insertion_witness :
  m_channelsEnabled (snd (IsInterleaving scope_cache_empty)) !! 3 = Some false
  /\ m_channelsEnabled (snd (IsInterleaving scope_cache_empty)) !! 4 = None.
Proof.
  destruct (IsInterleaving_default_insertion scope_cache_empty) as [_ H].
  split.
  - apply (H 3 eq_refl).
  - apply (H 4 eq_refl).
Defined.

End EnableCache.

(** ** Properties of the trigger state machine *)

Section Trigger.

Import Siglent TriggerSpec.

Lemma converse_trigger_flags cmd s :
  trigger_state (snd (converse cmd s)) = trigger_state s.
Proof. unfold converse. destruct (replies (m_transport s)); reflexivity. Qed.

Lemma converse_reply cmd s : fst (converse cmd s) = next_reply s.
Proof.
  unfold converse, next_reply. destruct (replies (m_transport s)); reflexivity.
Qed.

Lemma converse_replies cmd s :
  replies (m_transport (snd (converse cmd s))) = tl (replies (m_transport s)).
Proof. unfold converse. destruct (replies (m_transport s)); reflexivity. Qed.

(** [PollTrigger] refines the specified rule. *)
Lemma PollTrigger_follows_rule s :
  let '(report, st', queried) := poll_rule (trigger_state s) (next_reply s) in
  fst (PollTrigger s) = report
  /\ trigger_state (snd (PollTrigger s)) = st'
  /\ m_transport (snd (PollTrigger s)) =
     if queried then m_transport (snd (converse ":TRIGGER:STATUS?" s))
     else m_transport s.
Proof.
  unfold PollTrigger, poll_rule.
  destruct s as [n a o f offs en sr md t lg]; simpl.
  destruct f; simpl; [repeat split|].
  unfold converse, next_reply; simpl.
  destruct t as [snt [|r rs] bytes]; simpl.
  - repeat split.
  - destruct (String.eqb_spec r "Arm") as [->|HA]; simpl; [repeat split|].
    destruct (String.eqb_spec r "Ready") as [->|HR]; simpl; [repeat split|].
    rewrite bool_decide_eq_false_2 by (intros [?|?]; congruence).
    destruct (String.eqb_spec r "Stop") as [->|HS]; simpl.
    + destruct a, o; repeat split.
    + rewrite bool_decide_eq_false_2 by congruence. repeat split.
Qed.

Lemma ForceTrigger_pending s : m_triggerForced (ForceTrigger s) = true.
Proof. unfold ForceTrigger. destruct (m_triggerForced s) eqn:E; [exact E|reflexivity]. Qed.

Lemma ForceTrigger_replies s :
  replies (m_transport (ForceTrigger s)) = replies (m_transport s).
Proof. unfold ForceTrigger. destruct (m_triggerForced s); reflexivity. Qed.

(** Once disarmed and with nothing pending, polls do not report TRIGGERED
    until the instrument reports a new arm. *)
Lemma poll_many_quiet n : forall s,
  m_triggerForced s = false -> m_triggerArmed s = false -> never_rearms s ->
  count_triggered (fst (poll_many n s)) = 0%nat.
Proof.
  induction n as [|n IH]; intros s Hf Ha Hr; [reflexivity|].
  simpl.
  pose proof (PollTrigger_follows_rule s) as R.
  unfold poll_rule, trigger_state in R. rewrite Hf, Ha in R. simpl in R.
  assert (Hnext : next_reply s <> "Arm"%string /\ next_reply s <> "Ready"%string).
  { unfold next_reply, never_rearms in *.
    destruct (replies (m_transport s)); simpl; [split; discriminate|].
    inversion Hr; assumption. }
  rewrite bool_decide_eq_false_2 in R by tauto.
  assert (Hr' : never_rearms (snd (PollTrigger s))
                /\ m_triggerForced (snd (PollTrigger s)) = false
                /\ m_triggerArmed (snd (PollTrigger s)) = false
                /\ is_triggered (fst (PollTrigger s)) = false).
  { destruct (bool_decide (next_reply s = "Stop"%string));
      destruct R as (R1 & R2 & R3); rewrite R1;
      (split; [unfold never_rearms in *; rewrite R3, converse_replies;
               destruct (replies (m_transport s)); simpl;
               [constructor | inversion Hr; assumption]|]);
      injection R2 as -> _ ->; auto. }
  destruct Hr' as (H1 & H2 & H3 & H4).
  destruct (PollTrigger s) as [r s1]; simpl in *.
  specialize (IH s1 H2 H3 H1).
  destruct (poll_many n s1) as [rs s2]; simpl in *.
  unfold count_triggered in *. simpl. rewrite H4. exact IH.
Qed.

(** C4.  [PollTrigger] follows the specified transition rule in every
    state: a pending force is consumed without a query, clearing the
    pending and armed flags and reporting TRIGGERED; otherwise the status
    reply decides as specified.  After [ForceTrigger] the next poll reports
    TRIGGERED, and as long as the instrument does not report a new arm it
    is the only poll that does. *)
Theorem PollTrigger_transition_rule (s : Scope) :
  (let '(report, st', queried) := poll_rule (trigger_state s) (next_reply s) in
   fst (PollTrigger s) = report
   /\ trigger_state (snd (PollTrigger s)) = st'
   /\ m_transport (snd (PollTrigger s)) =
      if queried then m_transport (snd (converse ":TRIGGER:STATUS?" s))
      else m_transport s)
  /\ (fst (PollTrigger (ForceTrigger s)) = TRIGGER_MODE_TRIGGERED
      /\ m_triggerForced (snd (PollTrigger (ForceTrigger s))) = false
      /\ m_transport (snd (PollTrigger (ForceTrigger s))) = m_transport (ForceTrigger s))
  /\ (forall n, never_rearms s ->
      count_triggered (fst (poll_many (S n) (ForceTrigger s))) = 1%nat).
Proof.
  split; [exact (PollTrigger_follows_rule s)|].
  assert (P : PollTrigger (ForceTrigger s) =
              (TRIGGER_MODE_TRIGGERED,
               set_triggerArmed false (set_triggerForced false (ForceTrigger s)))).
  { unfold PollTrigger. rewrite ForceTrigger_pending. reflexivity. }
  split.
  - rewrite P. repeat split.
  - intros n Hr. simpl. rewrite P.
    pose proof (poll_many_quiet n
      (set_triggerArmed false (set_triggerForced false (ForceTrigger s)))
      eq_refl eq_refl) as Q.
    destruct (poll_many n _) as [rs s2]; simpl in *.
    unfold count_triggered in *. simpl. rewrite Q; [reflexivity|].
    unfold never_rearms in *. simpl. rewrite ForceTrigger_replies. exact Hr.
Qed.

Lemma PollTrigger_transition_rule_witness :
  never_rearms scope_stopped
  /\ count_triggered (fst (poll_many 4 (ForceTrigger scope_stopped))) = 1%nat.
Proof.
  assert (H : never_rearms scope_stopped).
  { unfold never_rearms, scope_stopped; simpl.
    repeat constructor; discriminate. }
  split; [exact H|].
  destruct (PollTrigger_transition_rule scope_stopped) as (_ & _ & C).
  exact (C 3%nat H).
Defined.

End Trigger.


(** ** Properties of the waveform block transfer *)

Section WaveformBlock.

Import Cint Siglent BlockSpec.

Lemma isdigit_ascii c : 48 <= c <= 57 -> isdigit c = true.
Proof. unfold isdigit. intros H. apply andb_true_intro; split; lia. Qed.

Lemma digit_not_space_or_sign c :
  48 <= c <= 57 -> isspace c = false /\ (c =? 45) = false /\ (c =? 43) = false.
Proof. unfold isspace. intros H. repeat split; lia. Qed.

Lemma atoi_digits_app ds : forall acc rest,
  ascii_digits ds ->
  atoi_digits acc (ds ++ rest) =
  atoi_digits (fold_left (fun acc c => 10 * acc + (c - 48)) ds acc) rest.
Proof.
  induction ds as [|d ds IH]; intros acc rest Hd; [reflexivity|].
  inversion Hd as [|? ? Hd1 Hd2]; subst.
  simpl. rewrite (isdigit_ascii d Hd1). apply IH, Hd2.
Qed.

Lemma atoi_digits_terminator acc tail :
  atoi_digits acc (<[0%nat := 0]> tail) = acc.
Proof. destruct tail; reflexivity. Qed.

(** [atoi] on the buffer once the NUL is stored at index 9. *)
Lemma atoi_field ds tail :
  length ds = 9%nat -> ascii_digits ds ->
  atoi (<[9%nat := 0]> (ds ++ tail)) = decimal ds.
Proof.
  intros Hl Hd.
  rewrite insert_app_r_alt by lia. rewrite Hl. simpl Nat.sub.
  destruct ds as [|d ds]; [discriminate|].
  inversion Hd as [|? ? Hd1 Hd2]; subst.
  destruct (digit_not_space_or_sign d Hd1) as (E1 & E2 & E3).
  cbn [app atoi]. rewrite E1, E2, E3.
  change (d :: ds ++ <[0%nat:=0]> tail) with ((d :: ds) ++ <[0%nat:=0]> tail).
  rewrite atoi_digits_app by exact Hd.
  apply atoi_digits_terminator.
Qed.

Lemma decimal_bound ds :
  length ds = 9%nat -> ascii_digits ds -> 0 <= decimal ds < 10 ^ 9.
Proof.
  intros Hl Hd.
  do 9 (destruct ds as [|? ds]; [discriminate|]).
  destruct ds; [|discriminate]. clear Hl.
  unfold ascii_digits in Hd.
  repeat match goal with
         | H : Forall _ (_ :: _) |- _ => inversion H; clear H; subst
         end.
  unfold decimal. simpl. lia.
Qed.

Ltac eqb_cases :=
  repeat (match goal with
          | |- context [Z.eqb ?a ?b] =>
              destruct (Z.eqb_spec a b); subst; simpl; try lia
          end).

Ltac literal_bytes :=
  repeat match goal with
         | |- context [bytes_of_string ?x] =>
             let v := eval vm_compute in (bytes_of_string x) in
             change (bytes_of_string x) with v
         end.

Ltac run_header :=
  unfold read_length_field, ReadRawData, on_wire, write_at, header_bytes;
  literal_bytes;
  change (Z.to_nat 7) with 7%nat; change (Z.to_nat 9) with 9%nat;
  change (Z.to_nat 6) with 6%nat; change (Z.to_nat 4) with 4%nat;
  simpl.

Lemma read_length_field_recognised h ds payload buf0 s :
  well_formed h -> length ds = 9%nat -> ascii_digits ds ->
  exists tail,
    read_length_field buf0 (on_wire (header_bytes h ds ++ payload) s) =
    (Some (ds ++ tail), on_wire payload s).
Proof.
  intros Hw Hl Hd.
  do 9 (destruct ds as [|? ds]; [discriminate|]).
  destruct ds; [|discriminate]. clear Hl.
  unfold ascii_digits in Hd.
  repeat match goal with
         | H : Forall _ (_ :: _) |- _ => inversion H; clear H; subst
         end.
  destruct h as [| |a b junk|]; simpl in Hw.
  - run_header. eexists. reflexivity.
  - run_header. eexists. reflexivity.
  - do 6 (destruct junk as [|? junk]; [discriminate|]).
    destruct junk; [|discriminate].
    run_header.
    eqb_cases; eexists; reflexivity.
  - run_header.
    eqb_cases; eexists; reflexivity.
Qed.

Lemma read_length_field_unrecognised p rest buf0 s :
  length p = 7%nat -> unrecognised p ->
  read_length_field buf0 (on_wire (p ++ rest) s) = (None, on_wire rest s).
Proof.
  intros Hl (H1 & H2 & H3 & H4).
  do 7 (destruct p as [|? p]; [discriminate|]).
  destruct p; [|discriminate]. clear Hl.
  revert H1 H2 H3 H4. literal_bytes. simpl. intros H1 H2 H3 H4.
  run_header.
  eqb_cases; try reflexivity; exfalso; auto.
Qed.

Lemma ReadWaveformBlock_recognised h ds payload buf0 maxsize w s :
  well_formed h -> length ds = 9%nat -> ascii_digits ds ->
  ReadWaveformBlock buf0 maxsize w (on_wire (header_bytes h ds ++ payload) s) =
  (let n := Z.min (decimal ds * hd_factor w) maxsize in
   ((decimal ds * hd_factor w, take (Z.to_nat n) payload),
    Log LogTrace "INITIAL PACKET" (on_wire (drop (Z.to_nat n) payload) s))).
Proof.
  intros Hw Hl Hd.
  destruct (read_length_field_recognised h ds payload buf0 s Hw Hl Hd) as [tail E].
  pose proof (decimal_bound ds Hl Hd) as B.
  unfold ReadWaveformBlock. rewrite E. cbv zeta.
  rewrite (atoi_field ds tail Hl Hd).
  assert (U1 : uint32_of (decimal ds) = decimal ds)
    by (unfold uint32_of; apply Z.mod_small; lia).
  assert (U2 : uint32_of (decimal ds * 2) = decimal ds * 2)
    by (unfold uint32_of; apply Z.mod_small; lia).
  assert (I1 : int32_of (decimal ds) = decimal ds).
  { unfold int32_of. rewrite Z.mod_small by lia.
    destruct (Z.ltb_spec (decimal ds) (2 ^ 31)); lia. }
  assert (I2 : int32_of (decimal ds * 2) = decimal ds * 2).
  { unfold int32_of. rewrite Z.mod_small by lia.
    destruct (Z.ltb_spec (decimal ds * 2) (2 ^ 31)); lia. }
  rewrite U1, U2, I1, I2.
  unfold hd_factor, ReadRawData, on_wire, Log.
  destruct w; simpl; rewrite ?Z.mul_1_r; reflexivity.
Qed.

(** C2.  For a block whose 9-digit length field declares [L] bytes, the
    data read stores the next [min (L * k) maxsize] bytes of the wire into
    the destination ([k] is 2 under the size workaround, else 1), and the
    value returned is [L * k], whatever [maxsize] is. *)
Theorem ReadWaveformBlock_clamps_read_not_result
    (h : HeaderShape) (ds payload buf0 : list Z) (maxsize : Z) (w : bool) (s : Scope) :
  well_formed h -> length ds = 9%nat -> ascii_digits ds ->
  0 <= maxsize < 2 ^ 32 ->
  let L := decimal ds in
  let n := Z.min (L * hd_factor w) maxsize in
  let r := ReadWaveformBlock buf0 maxsize w
             (on_wire (header_bytes h ds ++ payload) s) in
  fst (fst r) = L * hd_factor w
  /\ snd (fst r) = take (Z.to_nat n) payload
  /\ rx (m_transport (snd r)) = drop (Z.to_nat n) payload
  /\ (n <= Z.of_nat (length payload) -> Z.of_nat (length (snd (fst r))) = n).
Proof.
  intros Hw Hl Hd Hm. cbv zeta.
  rewrite (ReadWaveformBlock_recognised h ds payload buf0 maxsize w s Hw Hl Hd).
  cbv zeta. simpl. repeat split.
  intros Hn. rewrite length_take.
  pose proof (decimal_bound ds Hl Hd) as B.
  assert (0 <= hd_factor w) by (destruct w; simpl; lia).
  lia.
Qed.

Lemma ReadWaveformBlock_clamps_read_not_result_witness :
  fst (fst (ReadWaveformBlock [] 2 true
              (on_wire (header_bytes TagDAT2 five_million ++ [1; 2; 3]) scope_idle)))
  = 10000000
  /\ snd (fst (ReadWaveformBlock [] 2 true
              (on_wire (header_bytes TagDAT2 five_million ++ [1; 2; 3]) scope_idle)))
  = [1; 2].
Proof.
  assert (Hd : ascii_digits five_million).
  { unfold ascii_digits, five_million. vm_compute bytes_of_string.
    repeat constructor; lia. }
  destruct (ReadWaveformBlock_clamps_read_not_result
              TagDAT2 five_million [1; 2; 3] [] 2 true scope_idle
              I eq_refl Hd ltac:(lia)) as (H1 & H2 & _).
  split; [exact H1 | exact H2].
Defined.

(** The clamp example of the design document: 5,000,000 declared, room for
    1,000,000. *)
Example ReadWaveformBlock_five_million payload buf0 s :
  fst (ReadWaveformBlock buf0 1000000 false
         (on_wire (header_bytes TagDAT2 five_million ++ payload) s))
  = (5000000, take (Z.to_nat 1000000) payload)
  /\ fst (ReadWaveformBlock buf0 1000000 true
         (on_wire (header_bytes TagDAT2 five_million ++ payload) s))
  = (10000000, take (Z.to_nat 1000000) payload).
Proof.
  assert (Hd : ascii_digits five_million).
  { unfold ascii_digits, five_million. vm_compute bytes_of_string.
    repeat constructor; lia. }
  assert (Hv : decimal five_million = 5000000) by (vm_compute; reflexivity).
  rewrite !(ReadWaveformBlock_recognised TagDAT2 five_million payload buf0 _ _ s
              I eq_refl Hd).
  cbv zeta. rewrite Hv. unfold hd_factor, fst.
  replace (Z.min (5000000 * 1) 1000000) with 1000000 by lia.
  replace (Z.min (5000000 * 2) 1000000) with 1000000 by lia.
  split; reflexivity.
Qed.

(** C3.  The four recognised header shapes give the same declared length
    for the same nine ASCII digits; a 7-byte prefix of no recognised shape
    makes [ReadWaveformBlock] log an error and return 0, with just those 7
    bytes taken from the wire. *)
Theorem ReadWaveformBlock_header_shapes
    (buf0 : list Z) (maxsize : Z) (w : bool) (s : Scope) :
  (forall h h' ds payload payload',
      well_formed h -> well_formed h' -> length ds = 9%nat -> ascii_digits ds ->
      fst (fst (ReadWaveformBlock buf0 maxsize w
                  (on_wire (header_bytes h ds ++ payload) s)))
      = decimal ds * hd_factor w
      /\ fst (fst (ReadWaveformBlock buf0 maxsize w
                     (on_wire (header_bytes h' ds ++ payload') s)))
      = fst (fst (ReadWaveformBlock buf0 maxsize w
                     (on_wire (header_bytes h ds ++ payload) s))))
  /\ (forall p rest,
      length p = 7%nat -> unrecognised p ->
      ReadWaveformBlock buf0 maxsize w (on_wire (p ++ rest) s)
      = ((0, []),
         Log LogError "ReadWaveformBlock: invalid length format"
           (on_wire rest s))).
Proof.
  split.
  - intros h h' ds payload payload' Hw Hw' Hl Hd.
    rewrite !ReadWaveformBlock_recognised by assumption.
    split; reflexivity.
  - intros p rest Hl Hu.
    unfold ReadWaveformBlock.
    rewrite (read_length_field_unrecognised p rest buf0 s Hl Hu).
    reflexivity.
Qed.

Lemma ReadWaveformBlock_header_shapes_witness :
  fst (fst (ReadWaveformBlock [] 100 false
              (on_wire (header_bytes (ForcedWF 1 2 [3; 4; 5; 6; 7; 8]) five_million
                        ++ [9]) scope_idle)))
  = fst (fst (ReadWaveformBlock [] 100 false
              (on_wire (header_bytes Bare five_million ++ []) scope_idle)))
  /\ ReadWaveformBlock [] 100 false
       (on_wire (bytes_of_string "HELLO!!" ++ [1; 2]) scope_idle)
     = ((0, []),
        Log LogError "ReadWaveformBlock: invalid length format"
          (on_wire [1; 2] scope_idle)).
Proof.
  assert (Hd : ascii_digits five_million).
  { unfold ascii_digits, five_million. vm_compute bytes_of_string.
    repeat constructor; lia. }
  assert (Hu : unrecognised (bytes_of_string "HELLO!!")).
  { unfold unrecognised. vm_compute. repeat split; discriminate. }
  destruct (ReadWaveformBlock_header_shapes [] 100 false scope_idle) as [A B].
  split.
  - exact (proj2 (A Bare (ForcedWF 1 2 [3; 4; 5; 6; 7; 8]) five_million [] [9]
                    I eq_refl eq_refl Hd)).
  - exact (B (bytes_of_string "HELLO!!") [1; 2] eq_refl Hu).
Defined.

End WaveformBlock.

(** ** Properties of the vertical offset accessors *)

Section VerticalOffsetGuard.

Import Siglent OffsetSpec.

Variable fmt_1_2E : spec_float -> string.
Variable sscanf_f : string -> spec_float.

(** Past the channel count both accessors leave the driver alone. *)
Lemma offset_ignored_above_count i stream v s :
  m_analogChannelCount s < i ->
  SetChannelOffset fmt_1_2E i stream v s = s
  /\ GetChannelOffset sscanf_f i stream s = (S754_zero false, s).
Proof.
  intros H. unfold SetChannelOffset, GetChannelOffset.
  destruct (Z.ltb_spec (m_analogChannelCount s) i); [split; reflexivity | lia].
Qed.

(** C9.  Index 4 is not an analog channel of a four-channel instrument
    ([CanEnableChannel] refuses it), yet the guard [i > count] of the offset
    accessors lets it through: [SetChannelOffset] queues a command for
    channel 5 and caches the value, [GetChannelOffset] asks the instrument
    and caches the reply instead of answering 0. *)
Theorem offset_guard_admits_index_equal_to_count (v : spec_float) :
  CanEnableChannel 4 scope_four_channels = false
  /\ sent (m_transport (SetChannelOffset fmt_1_2E 4 0 v scope_four_channels))
     = [":CHANNEL5:OFFSET " +:+ fmt_1_2E v]
  /\ m_channelOffsets (SetChannelOffset fmt_1_2E 4 0 v scope_four_channels) !! 4
     = Some v
  /\ fst (GetChannelOffset sscanf_f 4 0 scope_four_channels) = sscanf_f "1.5"
  /\ sent (m_transport (snd (GetChannelOffset sscanf_f 4 0 scope_four_channels)))
     = [":CHANNEL5:OFFSET?"%string]
  /\ m_channelOffsets (snd (GetChannelOffset sscanf_f 4 0 scope_four_channels)) !! 4
     = Some (sscanf_f "1.5").
Proof.
  unfold SetChannelOffset, GetChannelOffset.
  repeat split; reflexivity.
Qed.

End VerticalOffsetGuard.

(** ** Properties of the digital bit unpack *)

Section BitUnpack.

Import Cint BINImport UnpackSpec.

Lemma shift_and_one b j : 0 <= j ->
  negb (Z.land (Z.shiftr b j) 1 =? 0) = Z.testbit b j.
Proof.
  intros Hj.
  change 1 with (Z.ones 1). rewrite Z.land_ones by lia.
  change (2 ^ 1) with 2. rewrite <- Z.bit0_mod.
  rewrite Z.shiftr_spec by lia. rewrite Z.add_0_l.
  destruct (Z.testbit b j); reflexivity.
Qed.

Lemma unpack_byte_spec pout data pin i mem a :
  unpack_byte pout data pin i mem a =
  unpacked mem pout data pin i (i + 1) a.
Proof.
  unfold unpack_byte, unpacked, bit_of. cbn [for_loop]. unfold store.
  rewrite !shift_and_one by lia.
  repeat match goal with
         | |- context [a =? ?x] => destruct (Z.eqb_spec a x)
         end;
    (destruct (Z.leb_spec (pout + 8 * i) a), (Z.ltb_spec a (pout + 8 * (i + 1)));
     cbn [andb]; try lia; try reflexivity).
  all: subst a; f_equal; [f_equal|]; Z.div_mod_to_equations; lia.
Qed.

Lemma unpack_loop_spec pout data pin n : forall start mem a,
  for_loop n start 1 (unpack_byte pout data pin) mem a =
  unpacked mem pout data pin start (start + Z.of_nat n) a.
Proof.
  induction n as [|n IH]; intros start mem a.
  - cbn [for_loop]. unfold unpacked.
    destruct (Z.leb_spec (pout + 8 * start) a),
             (Z.ltb_spec a (pout + 8 * (start + Z.of_nat 0))); cbn [andb];
      try reflexivity; lia.
  - cbn [for_loop]. rewrite IH. unfold unpacked at 1.
    rewrite unpack_byte_spec. unfold unpacked.
    destruct (Z.leb_spec (pout + 8 * (start + 1)) a),
             (Z.ltb_spec a (pout + 8 * (start + 1 + Z.of_nat n))),
             (Z.leb_spec (pout + 8 * start) a),
             (Z.ltb_spec a (pout + 8 * (start + 1))),
             (Z.ltb_spec a (pout + 8 * (start + Z.of_nat (S n))));
      cbn [andb]; try reflexivity; lia.
Qed.

Lemma ConvertDigitalSamplesGeneric_spec mem pout data pin count a :
  0 <= count ->
  ConvertDigitalSamplesGeneric mem pout data pin count a =
  unpacked mem pout data pin 0 count a.
Proof.
  intros H. unfold ConvertDigitalSamplesGeneric.
  rewrite unpack_loop_spec. rewrite Z2Nat.id by lia. reflexivity.
Qed.

Lemma lane_bit b j : 0 <= j ->
  negb (Z.land (if Z.land b (2 ^ j) =? 2 ^ j then 255 else 0) 1 =? 0)
  = Z.testbit b j.
Proof.
  intros Hj.
  assert (E : Z.land b (2 ^ j) = if Z.testbit b j then 2 ^ j else 0).
  { apply Z.bits_inj'. intros n Hn.
    rewrite Z.land_spec, Z.pow2_bits_eqb by lia.
    destruct (Z.eqb_spec j n) as [->|Hne].
    - destruct (Z.testbit b n); cbn [andb].
      + rewrite Z.pow2_bits_true by lia. reflexivity.
      + rewrite Z.bits_0. reflexivity.
    - rewrite andb_false_r.
      destruct (Z.testbit b j).
      + rewrite Z.pow2_bits_false by lia. reflexivity.
      + rewrite Z.bits_0. reflexivity. }
  rewrite E.
  assert (0 < 2 ^ j) by (apply Z.pow_pos_nonneg; lia).
  destruct (Z.testbit b j).
  - rewrite Z.eqb_refl. reflexivity.
  - destruct (Z.eqb_spec 0 (2 ^ j)); [lia|reflexivity].
Qed.

Lemma storeu_spec v : forall mem addr a,
  _mm256_storeu_si256 mem addr v a =
  if (addr <=? a) && (a <? addr + Z.of_nat (length v))
  then negb (nth (Z.to_nat (a - addr)) v 0 =? 0)
  else mem a.
Proof.
  induction v as [|b v IH]; intros mem addr a.
  - cbn [_mm256_storeu_si256 length].
    destruct (Z.leb_spec addr a), (Z.ltb_spec a (addr + Z.of_nat 0));
      cbn [andb]; try reflexivity; lia.
  - cbn [_mm256_storeu_si256]. rewrite IH. unfold store.
    cbn [length].
    destruct (Z.leb_spec (addr + 1) a),
             (Z.ltb_spec a (addr + 1 + Z.of_nat (length v))),
             (Z.leb_spec addr a),
             (Z.ltb_spec a (addr + Z.of_nat (S (length v))));
      cbn [andb]; try lia.
    + replace (Z.to_nat (a - addr)) with (S (Z.to_nat (a - (addr + 1)))) by lia.
      reflexivity.
    + destruct (Z.eqb_spec a addr); [lia|reflexivity].
    + destruct (Z.eqb_spec a addr); [|lia]. subst.
      replace (Z.to_nat (addr - addr)) with O by lia. reflexivity.
    + destruct (Z.eqb_spec a addr); [lia|reflexivity].
Qed.

Lemma bit_of_at pout data pin k q j :
  0 <= j < 8 ->
  bit_of pout data pin (pout + 8 * k + (8 * q + j)) =
  Z.testbit (data (pin + (k + q))) j.
Proof.
  intros Hj. unfold bit_of.
  replace ((pout + 8 * k + (8 * q + j) - pout) / 8) with (k + q)
    by (Z.div_mod_to_equations; lia).
  replace ((pout + 8 * k + (8 * q + j) - pout) mod 8) with j
    by (Z.div_mod_to_equations; lia).
  reflexivity.
Qed.

Ltac lane_case pout data pin k :=
  match goal with
  | |- context [bit_of pout data pin (pout + 8 * k + Z.of_nat ?m)] =>
      let q := eval vm_compute in (Z.of_nat m / 8) in
      let j := eval vm_compute in (Z.of_nat m mod 8) in
      change (Z.of_nat m) with (8 * q + j);
      rewrite (bit_of_at pout data pin k q j) by lia;
      rewrite ?Z.add_0_r;
      cbn [nth];
      exact (lane_bit _ j ltac:(lia))
  end.

Lemma avx2_block_spec pout data pin k mem a :
  0 <= k -> 8 * k < 2 ^ 32 ->
  avx2_block pout data pin k mem a =
  unpacked mem pout data pin k (k + 4) a.
Proof.
  intros Hk Hk'. unfold avx2_block.
  replace (uint32_of (k * 8)) with (8 * k)
    by (unfold uint32_of; rewrite Z.mod_small; lia).
  rewrite storeu_spec.
  match goal with
  | |- context [_mm256_set1_epi64x ?c] =>
      let v := eval vm_compute in (_mm256_set1_epi64x c) in
      change (_mm256_set1_epi64x c) with v
  end.
  match goal with
  | |- context [_mm256_set1_epi8 ?c] =>
      let v := eval vm_compute in (_mm256_set1_epi8 c) in
      change (_mm256_set1_epi8 c) with v
  end.
  unfold _mm256_set_epi8, _mm256_and_si256, _mm256_cmpeq_epi8.
  cbn [repeat app rev zip_with length].
  unfold unpacked.
  change (Z.of_nat 32) with 32.
  destruct (Z.leb_spec (pout + 8 * k) a), (Z.ltb_spec a (pout + 8 * k + 32)),
           (Z.ltb_spec a (pout + 8 * (k + 4)));
    cbn [andb]; try reflexivity; try lia.
  remember (Z.to_nat (a - (pout + 8 * k))) as n eqn:En.
  assert (Ha : a = pout + 8 * k + Z.of_nat n) by lia.
  assert (Hn : (n < 32)%nat) by lia.
  clear En H H0 H1. subst a.
  do 32 (destruct n as [|n]; [lane_case pout data pin k|]).
  lia.
Qed.

Lemma simd_loop_spec pout data pin n : forall k0 mem a,
  0 <= k0 -> 8 * (k0 + 4 * Z.of_nat n) <= 2 ^ 32 ->
  for_loop n k0 4 (avx2_block pout data pin) mem a =
  unpacked mem pout data pin k0 (k0 + 4 * Z.of_nat n) a.
Proof.
  induction n as [|n IH]; intros k0 mem a Hk Hb.
  - cbn [for_loop]. unfold unpacked.
    destruct (Z.leb_spec (pout + 8 * k0) a),
             (Z.ltb_spec a (pout + 8 * (k0 + 4 * Z.of_nat 0))); cbn [andb];
      try reflexivity; lia.
  - cbn [for_loop]. rewrite IH by lia. unfold unpacked at 1.
    rewrite avx2_block_spec by lia. unfold unpacked.
    destruct (Z.leb_spec (pout + 8 * (k0 + 4)) a),
             (Z.ltb_spec a (pout + 8 * (k0 + 4 + 4 * Z.of_nat n))),
             (Z.leb_spec (pout + 8 * k0) a),
             (Z.ltb_spec a (pout + 8 * (k0 + 4))),
             (Z.ltb_spec a (pout + 8 * (k0 + 4 * Z.of_nat (S n))));
      cbn [andb]; try reflexivity; lia.
Qed.

Lemma ConvertDigitalSamplesAVX2_spec mem pout data pin count a :
  0 <= count <= 2 ^ 29 ->
  ConvertDigitalSamplesAVX2 mem pout data pin count a =
  unpacked mem pout data pin 0 count a.
Proof.
  intros Hc. unfold ConvertDigitalSamplesAVX2. cbv zeta.
  assert (He : uint32_of (count - count mod 4) = count - count mod 4).
  { unfold uint32_of. apply Z.mod_small. Z.div_mod_to_equations. lia. }
  rewrite He. set (e := count - count mod 4).
  assert (He4 : 4 * (e / 4) = e) by (subst e; Z.div_mod_to_equations; lia).
  assert (Hee : 0 <= e <= count) by (subst e; Z.div_mod_to_equations; lia).
  rewrite unpack_loop_spec.
  unfold unpacked at 1.
  rewrite simd_loop_spec by (rewrite ?Z2Nat.id by (Z.div_mod_to_equations; lia); lia).
  rewrite !Z2Nat.id by (Z.div_mod_to_equations; lia).
  rewrite Z.add_0_l, He4. unfold unpacked.
  destruct (Z.leb_spec (pout + 8 * e) a),
           (Z.ltb_spec a (pout + 8 * (e + (count - e)))),
           (Z.leb_spec (pout + 8 * 0) a),
           (Z.ltb_spec a (pout + 8 * e)),
           (Z.ltb_spec a (pout + 8 * count));
    cbn [andb]; try reflexivity; lia.
Qed.

Lemma kernel_spec g mem pout data pin count a :
  0 <= count <= 2 ^ 29 ->
  kernel g mem pout data pin count a = unpacked mem pout data pin 0 count a.
Proof.
  intros Hc. unfold kernel. destruct g.
  - apply ConvertDigitalSamplesAVX2_spec, Hc.
  - apply ConvertDigitalSamplesGeneric_spec. lia.
Qed.

(** Outside the samples of its [count] bytes a kernel leaves memory alone. *)
Lemma kernel_frame g mem pout data pin count a :
  0 <= count <= 2 ^ 29 ->
  a < pout \/ pout + 8 * count <= a ->
  kernel g mem pout data pin count a = mem a.
Proof.
  intros Hc Ha. rewrite kernel_spec by exact Hc. unfold unpacked.
  destruct (Z.leb_spec (pout + 8 * 0) a), (Z.ltb_spec a (pout + 8 * count));
    cbn [andb]; try reflexivity; lia.
Qed.


Lemma dispatcher_misses_last_sample g threads mem pout data pin count :
  1000000 / 8 < count <= 2 ^ 29 -> 2 <= threads -> 4 * threads <= count ->
  ConvertDigitalSamples g threads mem pout data pin count (pout + 8 * count - 1)
  = mem (pout + 8 * count - 1).
Proof.
  intros Hc Ht Htc. unfold ConvertDigitalSamples.
  destruct (Z.ltb_spec (1000000 / 8) count) as [_|]; [|lia]. cbv zeta.
  set (bs := count / threads - (count / threads) mod 4).
  assert (Hq : 4 <= count / threads) by (apply Z.div_le_lower_bound; lia).
  assert (Hq' : threads * (count / threads) <= count)
    by (apply Z.mul_div_le; lia).
  assert (Hbs : 1 <= bs <= count / threads)
    by (subst bs; Z.div_mod_to_equations; lia).
  assert (Hn : threads * bs <= count) by nia.
  apply (for_loop_frame
           (fun m => m (pout + 8 * count - 1) = mem (pout + 8 * count - 1))).
  - intros i m Hi Hm. rewrite Z2Nat.id in Hi by lia.
    unfold dispatch_block. cbv zeta.
    rewrite kernel_frame; [exact Hm | |].
    + destruct (Z.eqb_spec i (threads - 1)); nia.
    + right. destruct (Z.eqb_spec i (threads - 1)); nia.
  - reflexivity.
Qed.

(** The scalar path computes [out[8*i + j] = (in[i] >> j) & 1]. *)
Lemma ConvertDigitalSamplesGeneric_unpacks mem pout data pin count i j :
  0 <= i < count -> 0 <= j < 8 ->
  ConvertDigitalSamplesGeneric mem pout data pin count (pout + (8 * i + j))
  = negb (Z.land (Z.shiftr (data (pin + i)) j) 1 =? 0).
Proof.
  intros Hi Hj.
  rewrite ConvertDigitalSamplesGeneric_spec by lia. unfold unpacked.
  destruct (Z.leb_spec (pout + 8 * 0) (pout + (8 * i + j))),
           (Z.ltb_spec (pout + (8 * i + j)) (pout + 8 * count));
    cbn [andb]; try lia.
  rewrite shift_and_one by lia.
  replace (pout + (8 * i + j)) with (pout + 8 * 0 + (8 * i + j)) by lia.
  rewrite bit_of_at by lia. reflexivity.
Qed.

(** The AVX2 path and the scalar path store the same samples, for every
    count the importer can pass (it passes a 32-bit length divided by 8). *)
Lemma ConvertDigitalSamplesAVX2_agrees mem pout data pin count a :
  0 <= count <= 2 ^ 29 ->
  ConvertDigitalSamplesAVX2 mem pout data pin count a
  = ConvertDigitalSamplesGeneric mem pout data pin count a.
Proof.
  intros Hc.
  rewrite ConvertDigitalSamplesAVX2_spec by exact Hc.
  rewrite ConvertDigitalSamplesGeneric_spec by lia. reflexivity.
Qed.

(** Up to the threshold the dispatcher is the single-threaded kernel. *)
Lemma ConvertDigitalSamples_small g threads mem pout data pin count a :
  0 <= count <= 1000000 / 8 ->
  ConvertDigitalSamples g threads mem pout data pin count a
  = ConvertDigitalSamplesGeneric mem pout data pin count a.
Proof.
  intros Hc. unfold ConvertDigitalSamples.
  destruct (Z.ltb_spec (1000000 / 8) count) as [|_]; [lia|].
  assert (1000000 / 8 = 125000) by reflexivity.
  rewrite kernel_spec by lia.
  rewrite ConvertDigitalSamplesGeneric_spec by lia. reflexivity.
Qed.

(** C7.  125001 bytes of all-ones input, output memory cleared, two OpenMP
    threads: the scalar path sets sample 1000007 (bit 7 of byte 125000), as
    the unpack rule demands, and the dispatcher leaves it cleared, with
    either kernel.  Block 1 is handed [pout + off], not [pout + 8 * off]. *)
Theorem ConvertDigitalSamples_misplaces_blocks (g : bool) :
  Z.testbit (all_ones 125000) 7 = true
  /\ ConvertDigitalSamplesGeneric cleared 0 all_ones 0 125001 1000007 = true
  /\ ConvertDigitalSamplesAVX2 cleared 0 all_ones 0 125001 1000007 = true
  /\ ConvertDigitalSamples g 2 cleared 0 all_ones 0 125001 1000007 = false.
Proof.
  assert (T : 1000000 / 8 = 125000) by reflexivity.
  assert (P : 2 ^ 29 = 536870912) by reflexivity.
  assert (G : ConvertDigitalSamplesGeneric cleared 0 all_ones 0 125001 1000007 = true).
  { exact (ConvertDigitalSamplesGeneric_unpacks cleared 0 all_ones 0 125001 125000 7
             ltac:(lia) ltac:(lia)). }
  split; [reflexivity|]. split; [exact G|]. split.
  - rewrite ConvertDigitalSamplesAVX2_agrees by lia. exact G.
  - exact (dispatcher_misses_last_sample g 2 cleared 0 all_ones 0 125001
             ltac:(lia) ltac:(lia) ltac:(lia)).
Qed.

End BitUnpack.

(** ** Properties of the file decoder *)

Section FileVersion.

Import Cint BINImport FileSpec.

Variable F : FloatOps.
Variable H : Host.

(** The version field as the decoder sees it once the file has four bytes. *)
Lemma version_field fh0 f :
  (4 <= length f)%nat ->
  string_copy fh0 f sizeof_FileHeader (Z.to_nat 0) =
    Some (take 4 f ++ drop 4 fh0)
  /\ fh_version (take 4 f ++ drop 4 fh0) = le_uint (take 4 f).
Proof.
  intros Hl. split.
  - unfold string_copy, write_at, sizeof_FileHeader.
    change (Z.to_nat 0) with 0%nat.
    change (take 0 fh0) with (@nil Z). change (drop 0 f) with f.
    cbn [Nat.ltb Nat.leb app].
    rewrite length_take, Nat.min_l by lia. reflexivity.
  - unfold fh_version, get_u32, field.
    change (drop 0 (take 4 f ++ drop 4 fh0)) with (take 4 f ++ drop 4 fh0).
    rewrite take_app_length' by (rewrite length_take; lia). reflexivity.
Qed.

Lemma wave_header_copy wh0 f pos :
  (pos <= length f)%nat ->
  string_copy wh0 f sizeof_WaveHeader pos =
    Some (write_at wh0 0 (take sizeof_WaveHeader (drop pos f))).
Proof.
  intros Hl. unfold string_copy.
  destruct (Nat.ltb_spec (length f) pos); [lia | reflexivity].
Qed.

Lemma OnFileNameChanged_unsupported fh0 wh0 fname ReadFile (flt : Filter F) :
  fname <> ""%string -> (4 <= length (ReadFile fname))%nat ->
  le_uint (take 4 (ReadFile fname)) <> 2 ->
  le_uint (take 4 (ReadFile fname)) <> 4 ->
  OnFileNameChanged F H fh0 wh0 fname ReadFile flt =
  Returned
    (mkFilter []
       (m_log flt ++
        [(Siglent.LogError,
          "Unsupported version (" +:+ fmt_d (le_uint (take 4 (ReadFile fname)))
          +:+ ") in file header")])).
Proof.
  intros Hn Hl H2 H4. unfold OnFileNameChanged. cbv zeta.
  destruct (String.eqb_spec fname ""); [contradiction|].
  destruct (version_field fh0 (ReadFile fname) Hl) as [E1 E2].
  rewrite E1, E2.
  destruct (Z.eqb_spec (le_uint (take 4 (ReadFile fname))) 2); [contradiction|].
  destruct (Z.eqb_spec (le_uint (take 4 (ReadFile fname))) 4); [contradiction|].
  reflexivity.
Qed.

Lemma OnFileNameChanged_supported fh0 wh0 fname ReadFile (flt : Filter F) :
  fname <> ""%string -> (4 <= length (ReadFile fname))%nat ->
  let f := ReadFile fname in
  let version := le_uint (take 4 f) in
  (version = 2 ->
   OnFileNameChanged F H fh0 wh0 fname ReadFile flt =
   Returned (decode_payload F H f
               (wave_header_at wh0 f 4)
               0x800 (ClearStreams F flt)))
  /\ (version = 4 -> (8 <= length f)%nat ->
   OnFileNameChanged F H fh0 wh0 fname ReadFile flt =
   Returned (decode_payload F H f
               (wave_header_at wh0 f 8)
               0x1000 (ClearStreams F flt))).
Proof.
  intros Hn Hl. cbv zeta.
  destruct (version_field fh0 (ReadFile fname) Hl) as [E1 E2].
  split.
  - intros Hv. unfold OnFileNameChanged. cbv zeta.
    destruct (String.eqb_spec fname ""); [contradiction|].
    rewrite E1, E2, Hv. cbn [Z.eqb Pos.eqb orb negb].
    change (Z.to_nat (0 + Z.of_nat sizeof_FileHeader)) with 4%nat.
    rewrite wave_header_copy by lia. reflexivity.
  - intros Hv Hl8. unfold OnFileNameChanged. cbv zeta.
    destruct (String.eqb_spec fname ""); [contradiction|].
    rewrite E1, E2, Hv. cbn [Z.eqb Pos.eqb orb negb].
    change (Z.to_nat (0 + Z.of_nat sizeof_FileHeader + 4)) with 8%nat.
    rewrite wave_header_copy by lia. reflexivity.
Qed.


Lemma analog_channel_keeps f wh i st l :
  keeps l st -> keeps l (analog_channel F f wh i st).
Proof.
  intros [more E]. unfold analog_channel. destruct st as [fpos flt].
  destruct (wh_ch_en wh (Z.to_nat i) =? 1); [|exists more; exact E].
  destruct (convert_payload F f fpos _ _ _ _) as [samples fpos'].
  eexists. cbn [snd AddStream m_streams] in *. rewrite E, <- app_assoc. reflexivity.
Qed.

Lemma math_channel_keeps f wh i st l :
  keeps l st -> keeps l (math_channel F f wh i st).
Proof.
  intros [more E]. unfold math_channel. destruct st as [fpos flt].
  destruct (wh_math_en wh (Z.to_nat i) =? 1); [|exists more; exact E].
  destruct (convert_payload F f fpos _ _ _ _) as [samples fpos'].
  eexists. cbn [snd AddStream m_streams] in *. rewrite E, <- app_assoc. reflexivity.
Qed.

Lemma digital_channel_keeps f wh i st l :
  keeps l st -> keeps l (digital_channel F H f wh i st).
Proof.
  intros [more E]. unfold digital_channel. destruct st as [fpos flt].
  destruct (wh_d_ch_en wh (Z.to_nat i) =? 1); [|exists more; exact E].
  eexists. cbn [snd AddStream m_streams] in *. rewrite E, <- app_assoc. reflexivity.
Qed.

Lemma later_loops_keep f wh st l :
  keeps l st ->
  keeps l
    (let st := for_loop 4 0 1 (math_channel F f wh) st in
     if negb (wh_digital_en wh =? 0)
     then for_loop 16 0 1 (digital_channel F H f wh) st
     else st).
Proof.
  intros K. cbv zeta.
  assert (K' : keeps l (for_loop 4 0 1 (math_channel F f wh) st)).
  { apply (for_loop_frame (keeps l)); [|exact K].
    intros i s _. apply math_channel_keeps. }
  destruct (negb (wh_digital_en wh =? 0)); [|exact K'].
  apply (for_loop_frame (keeps l)); [|exact K'].
  intros i s _. apply digital_channel_keeps.
Qed.

Lemma analog_channel_enabled f wh fpos flt (i : nat) :
  wh_ch_en wh i = 1 ->
  keeps (m_streams flt ++ [analog_stream F f wh fpos i])
    (analog_channel F f wh (Z.of_nat i) (fpos, flt)).
Proof.
  intros E. unfold analog_channel, analog_stream. rewrite Nat2Z.id, E.
  cbn [Z.eqb Pos.eqb].
  destruct (convert_payload F f fpos _ _ _ _) as [samples fpos'].
  exists []. cbn [snd fst AddStream m_streams]. rewrite app_nil_r. reflexivity.
Qed.

Lemma analog_channel_disabled f wh st (i : nat) :
  wh_ch_en wh i <> 1 -> analog_channel F f wh (Z.of_nat i) st = st.
Proof.
  intros E. unfold analog_channel. destruct st as [fpos flt].
  rewrite Nat2Z.id. destruct (Z.eqb_spec (wh_ch_en wh i) 1); [contradiction|].
  reflexivity.
Qed.

Lemma first_enabled_channel_reads_at_fpos f wh fpos flt (i : nat) :
  (i < 4)%nat -> wh_ch_en wh i = 1 ->
  (forall j, (j < i)%nat -> wh_ch_en wh j <> 1) ->
  m_streams (decode_payload F H f wh fpos flt) !! length (m_streams flt)
  = Some (analog_stream F f wh fpos i).
Proof.
  intros Hi En Dis.
  assert (K : keeps (m_streams flt ++ [analog_stream F f wh fpos i])
                (for_loop 4 0 1 (analog_channel F f wh) (fpos, flt))).
  { change (for_loop 4 0 1 (analog_channel F f wh) (fpos, flt))
      with (analog_channel F f wh (Z.of_nat 3)
              (analog_channel F f wh (Z.of_nat 2)
                 (analog_channel F f wh (Z.of_nat 1)
                    (analog_channel F f wh (Z.of_nat 0) (fpos, flt))))).
    destruct i as [|[|[|[|i]]]]; try lia.
    - do 3 apply analog_channel_keeps. apply analog_channel_enabled, En.
    - rewrite (analog_channel_disabled f wh _ 0) by (apply Dis; lia).
      do 2 apply analog_channel_keeps. apply analog_channel_enabled, En.
    - rewrite (analog_channel_disabled f wh _ 0) by (apply Dis; lia).
      rewrite (analog_channel_disabled f wh _ 1) by (apply Dis; lia).
      apply analog_channel_keeps. apply analog_channel_enabled, En.
    - rewrite (analog_channel_disabled f wh _ 0) by (apply Dis; lia).
      rewrite (analog_channel_disabled f wh _ 1) by (apply Dis; lia).
      rewrite (analog_channel_disabled f wh _ 2) by (apply Dis; lia).
      apply analog_channel_enabled, En. }
  destruct (later_loops_keep f wh _ _ K) as [more E].
  unfold decode_payload. cbv zeta in E |- *. rewrite E.
  rewrite <- app_assoc. apply list_lookup_middle. reflexivity.
Qed.


(** Where the samples of a stream come from. *)
Lemma convert_payload_sources f fpos dw v_gain v_offset count k :
  0 <= k < count ->
  fst (convert_payload F f fpos dw v_gain v_offset count) !! Z.to_nat k
  = Some
      (let gain := float_of_double F v_gain in
       let offset :=
         float_of_double F
           (dadd F (dmul F v_gain (double_of_int F (center_code_of dw))) v_offset) in
       if dw =? 2
       then convert16 F gain offset
              (byte_at f (fpos + 2 * k) + 256 * byte_at f (fpos + 2 * k + 1))
       else convert8 F gain offset (byte_at f (fpos + k))).
Proof.
  intros Hk. unfold convert_payload. cbv zeta.
  destruct (dw =? 2); cbn [fst];
    unfold ConvertUnsigned16BitSamples, ConvertUnsigned8BitSamples;
    rewrite list_lookup_fmap, lookup_seqZ_lt by lia;
    cbn [fmap option_fmap option_map]; rewrite Z2Nat.id by lia; reflexivity.
Qed.

(** The centre code of the two sample widths, and the sample count of an
    analog stream. *)
Lemma center_code_widths : center_code_of 1 = 127 /\ center_code_of 2 = 32767.
Proof. split; reflexivity. Qed.

Lemma convert_payload_count f fpos dw v_gain v_offset count :
  length (fst (convert_payload F f fpos dw v_gain v_offset count)) = Z.to_nat count.
Proof.
  unfold convert_payload. cbv zeta.
  destruct (dw =? 2); cbn [fst];
    unfold ConvertUnsigned16BitSamples, ConvertUnsigned8BitSamples;
    rewrite length_map, length_seqZ; reflexivity.
Qed.

(** C6.  A capture file whose version field is neither 2 nor 4 makes the
    decoder log an error and return with no stream; for version 2 the
    payload loops start at offset 0x800 and for version 4 at 0x1000, and the
    first enabled analog channel takes its raw codes from that offset on. *)
Theorem OnFileNameChanged_version_gate
    (fh0 wh0 : list Z) (fname : string) (ReadFile : string -> list Z)
    (flt : Filter F) :
  fname <> ""%string -> (4 <= length (ReadFile fname))%nat ->
  let f := ReadFile fname in
  let version := le_uint (take 4 f) in
  (version <> 2 -> version <> 4 ->
   OnFileNameChanged F H fh0 wh0 fname ReadFile flt =
   Returned
     (mkFilter []
        (m_log flt ++
         [(Siglent.LogError,
           "Unsupported version (" +:+ fmt_d version +:+ ") in file header")])))
  /\ (version = 2 ->
      OnFileNameChanged F H fh0 wh0 fname ReadFile flt =
      Returned (decode_payload F H f (wave_header_at wh0 f 4) 0x800 (ClearStreams F flt)))
  /\ (version = 4 -> (8 <= length f)%nat ->
      OnFileNameChanged F H fh0 wh0 fname ReadFile flt =
      Returned (decode_payload F H f (wave_header_at wh0 f 8) 0x1000 (ClearStreams F flt)))
  /\ (forall wh fpos (i : nat),
      (i < 4)%nat -> wh_ch_en wh i = 1 ->
      (forall j, (j < i)%nat -> wh_ch_en wh j <> 1) ->
      m_streams (decode_payload F H f wh fpos (ClearStreams F flt)) !! 0%nat
      = Some (analog_stream F f wh fpos i)
      /\ forall k, 0 <= k < wh_wave_length wh -> data_width_of wh <> 2 ->
         exists gain offset,
           match st_samples (analog_stream F f wh fpos i) with
           | AnalogSamples l =>
               l !! Z.to_nat k = Some (convert8 F gain offset (byte_at f (fpos + k)))
           | DigitalSamples _ => False
           end).
Proof.
  intros Hn Hl. cbv zeta.
  split; [intros; apply OnFileNameChanged_unsupported; assumption|].
  destruct (OnFileNameChanged_supported fh0 wh0 fname ReadFile flt Hn Hl) as [A B].
  split; [exact A|]. split; [exact B|].
  intros wh fpos i Hi En Dis. split.
  - exact (first_enabled_channel_reads_at_fpos (ReadFile fname) wh fpos
             (ClearStreams F flt) i Hi En Dis).
  - intros k Hk Hw. unfold analog_stream. cbn [st_samples].
    rewrite convert_payload_sources by exact Hk. cbv zeta.
    destruct (Z.eqb_spec (data_width_of wh) 2); [contradiction|].
    eexists _, _. reflexivity.
Qed.

End FileVersion.

Section FileVersionRuns.

Import Cint BINImport FileSpec.

Lemma OnFileNameChanged_version_gate_witness :
  OnFileNameChanged integer_ops scalar_host [] [] "v3.bin" (one_file file_v3) no_streams
  = Returned
      (mkFilter [] [(Siglent.LogError, "Unsupported version (3) in file header"%string)])
  /\ OnFileNameChanged integer_ops scalar_host [] [] "v2.bin" (one_file file_v2) no_streams
     = Returned
         (decode_payload integer_ops scalar_host file_v2
            (wave_header_at [] file_v2 4) 0x800 no_streams)
  /\ m_streams
       (decode_payload integer_ops scalar_host file_v2
          (wave_header_at [] file_v2 4) 0x800 no_streams) !! 0%nat
     = Some (analog_stream integer_ops file_v2 (wave_header_at [] file_v2 4) 0x800 0).
Proof.
  assert (N3 : "v3.bin"%string <> ""%string) by discriminate.
  assert (N2 : "v2.bin"%string <> ""%string) by discriminate.
  assert (L3 : (4 <= length (one_file file_v3 "v3.bin"))%nat) by (vm_compute; lia).
  assert (L2 : (4 <= length (one_file file_v2 "v2.bin"))%nat)
    by (unfold one_file, file_v2; rewrite !length_app; simpl; lia).
  destruct (OnFileNameChanged_version_gate integer_ops scalar_host [] []
              "v3.bin" (one_file file_v3) no_streams N3 L3) as (A & _).
  destruct (OnFileNameChanged_version_gate integer_ops scalar_host [] []
              "v2.bin" (one_file file_v2) no_streams N2 L2) as (_ & B & _ & C).
  split; [|split].
  - apply A; vm_compute; discriminate.
  - apply B. reflexivity.
  - apply (C (wave_header_at [] file_v2 4) 0x800 0%nat);
      [lia | vm_compute; reflexivity | intros j Hj; lia].
Defined.

End FileVersionRuns.

(** * The rest of the driver and of the importer *)

(** ** Cached channel state, trigger modes and block reads *)

Section CachedChannelState.

Import Cint Siglent CacheSpec TriggerSpec BlockSpec.

Lemma invalidate_cache s :
  m_channelsEnabled (invalidate_rate_and_depth s) = m_channelsEnabled s.
Proof. reflexivity. Qed.

Lemma IsInterleaving_keeps_entry s k b :
  m_channelsEnabled s !! k = Some b ->
  m_channelsEnabled (snd (IsInterleaving s)) !! k = Some b.
Proof.
  intros E. rewrite IsInterleaving_lookup.
  destruct (reads_key s k); [|exact E].
  unfold enabled_in. rewrite E. reflexivity.
Qed.

Lemma EnableChannel_entry i s :
  m_channelsEnabled (EnableChannel i s) !! key_of i = Some true.
Proof.
  unfold EnableChannel.
  destruct (IsInterleaving s) as [was s1].
  match goal with
  | |- context [IsInterleaving ?x] =>
      pose proof (IsInterleaving_keeps_entry x (key_of i) true) as K;
      destruct (IsInterleaving x) as [now s4]
  end.
  simpl in K. rewrite lookup_insert_eq in K. specialize (K eq_refl).
  destruct (negb (Bool.eqb now was)); exact K.
Qed.

Lemma DisableChannel_entry i s :
  m_channelsEnabled (DisableChannel i s) !! key_of i = Some false.
Proof.
  unfold DisableChannel.
  destruct (IsInterleaving s) as [was s1].
  match goal with
  | |- context [IsInterleaving ?x] =>
      pose proof (IsInterleaving_keeps_entry x (key_of i) false) as K;
      destruct (IsInterleaving x) as [now s4]
  end.
  assert (K' : m_channelsEnabled s4 !! key_of i = Some false).
  { apply K. destruct (i <? m_analogChannelCount _); simpl; apply lookup_insert_eq. }
  destruct (negb (Bool.eqb now was)); exact K'.
Qed.

(** X1.  After EnableChannel(i) a call of IsChannelEnabled(i) answers true,
    and after DisableChannel(i) false, from the cache: the state is
    unchanged and the instrument is not asked. This holds for every index,
    also one that is no analog channel. *)
Theorem enable_state_is_served_from_cache (i : Z) (s : Scope) :
  IsChannelEnabled i (EnableChannel i s) = (true, EnableChannel i s)
  /\ IsChannelEnabled i (DisableChannel i s) = (false, DisableChannel i s).
Proof.
  split; apply IsChannelEnabled_cached.
  - apply EnableChannel_entry.
  - apply DisableChannel_entry.
Qed.

Lemma IsChannelEnabled_miss i s :
  m_channelsEnabled s !! key_of i = None ->
  i < m_analogChannelCount s ->
  IsChannelEnabled i s =
  (let '(reply, s1) := converse (":CHANNEL" +:+ fmt_d (i + 1) +:+ ":SWITCH?") s in
   let b := negb (starts_with_OFF reply) in
   (b, set_channelsEnabled (<[key_of i := b]> (m_channelsEnabled s1)) s1)).
Proof.
  intros Hm Hi. unfold IsChannelEnabled. rewrite Hm.
  destruct (Z.ltb_spec i (m_analogChannelCount s)) as [_|]; [|lia].
  destruct (converse _ s) as [reply s1]. cbv zeta.
  unfold channelsEnabled_at. simpl. rewrite lookup_insert_eq. reflexivity.
Qed.

(** X2.  For an analog channel without a cache entry IsChannelEnabled sends
    one :CHANNELn:SWITCH? query, consumes one reply, reports enabled unless
    the reply starts with OFF, and a second call returns the same answer
    without touching the state. *)
Theorem IsChannelEnabled_miss_asks_once (i : Z) (s : Scope) :
  m_channelsEnabled s !! key_of i = None ->
  i < m_analogChannelCount s ->
  let r := IsChannelEnabled i s in
  fst r = negb (starts_with_OFF (next_reply s))
  /\ sent (m_transport (snd r)) =
     sent (m_transport s) ++ [":CHANNEL" +:+ fmt_d (i + 1) +:+ ":SWITCH?"]
  /\ replies (m_transport (snd r)) = tl (replies (m_transport s))
  /\ IsChannelEnabled i (snd r) = r.
Proof.
  intros Hm Hi. cbv zeta. rewrite (IsChannelEnabled_miss i s Hm Hi).
  unfold converse, next_reply.
  destruct (replies (m_transport s)) as [|r rs]; cbv zeta; simpl;
    (repeat split; try reflexivity);
    apply IsChannelEnabled_cached; simpl; apply lookup_insert_eq.
Qed.


Section OffsetCache.

Variable fmt_1_2E : spec_float -> string.
Variable sscanf_f : string -> spec_float.

(** X4.  SetChannelOffset followed by GetChannelOffset on an admitted index
    returns the value that was set, from the cache: the set queues one
    OFFSET command, the get queues nothing and changes nothing. *)
Theorem offset_set_then_get (i stream stream' : Z) (v : spec_float) (s : Scope) :
  i <= m_analogChannelCount s ->
  let s' := SetChannelOffset fmt_1_2E i stream v s in
  GetChannelOffset sscanf_f i stream' s' = (v, s')
  /\ sent (m_transport s') =
     sent (m_transport s) ++
     [":CHANNEL" +:+ fmt_ld (i + 1) +:+ ":OFFSET " +:+ fmt_1_2E v]
  /\ replies (m_transport s') = replies (m_transport s).
Proof.
  intros Hi. cbv zeta. unfold SetChannelOffset, GetChannelOffset.
  destruct (Z.ltb_spec (m_analogChannelCount s) i); [lia|].
  simpl. destruct (Z.ltb_spec (m_analogChannelCount s) i); [lia|].
  rewrite lookup_insert_eq. repeat split.
Qed.

Lemma GetChannelOffset_miss i stream s :
  i <= m_analogChannelCount s ->
  m_channelOffsets s !! i = None ->
  GetChannelOffset sscanf_f i stream s =
  (let '(reply, s1) := converse (":CHANNEL" +:+ fmt_ld (i + 1) +:+ ":OFFSET?") s in
   (sscanf_f reply,
    set_channelOffsets (<[i := sscanf_f reply]> (m_channelOffsets s1)) s1)).
Proof.
  intros Hi Hm. unfold GetChannelOffset.
  destruct (Z.ltb_spec (m_analogChannelCount s) i); [lia|].
  rewrite Hm. reflexivity.
Qed.

Lemma GetChannelOffset_hit i stream v s :
  i <= m_analogChannelCount s ->
  m_channelOffsets s !! i = Some v ->
  GetChannelOffset sscanf_f i stream s = (v, s).
Proof.
  intros Hi Hm. unfold GetChannelOffset.
  destruct (Z.ltb_spec (m_analogChannelCount s) i); [lia|].
  rewrite Hm. reflexivity.
Qed.

(** X5.  On a cache miss GetChannelOffset sends one :CHANNELn:OFFSET? query,
    returns the parsed reply, and a second call returns the same value
    without touching the state. *)
Theorem offset_miss_asks_once (i stream stream' : Z) (s : Scope) :
  i <= m_analogChannelCount s ->
  m_channelOffsets s !! i = None ->
  let r := GetChannelOffset sscanf_f i stream s in
  fst r = sscanf_f (next_reply s)
  /\ sent (m_transport (snd r)) =
     sent (m_transport s) ++ [":CHANNEL" +:+ fmt_ld (i + 1) +:+ ":OFFSET?"]
  /\ GetChannelOffset sscanf_f i stream' (snd r) = r.
Proof.
  intros Hi Hm. cbv zeta. rewrite (GetChannelOffset_miss i stream s Hi Hm).
  unfold converse, next_reply.
  destruct (replies (m_transport s)) as [|r rs]; simpl;
    (repeat split);
    apply GetChannelOffset_hit; simpl; auto; apply lookup_insert_eq.
Qed.

End OffsetCache.






(** X7.  A second ForceTrigger before the next poll does nothing; a first
    one queues the FTRIG command; and once a poll has consumed the forced
    trigger, ForceTrigger queues the command again. *)
Theorem ForceTrigger_one_outstanding (s : Scope) :
  ForceTrigger (ForceTrigger s) = ForceTrigger s
  /\ (m_triggerForced s = false ->
      sent (m_transport (ForceTrigger s)) =
      sent (m_transport s) ++ [":TRIGGER:MODE FTRIG"%string])
  /\ sent (m_transport (ForceTrigger (snd (PollTrigger (ForceTrigger s))))) =
     sent (m_transport (ForceTrigger s)) ++ [":TRIGGER:MODE FTRIG"%string].
Proof.
  split; [|split].
  - unfold ForceTrigger at 1. rewrite ForceTrigger_pending. reflexivity.
  - intros Hf. unfold ForceTrigger. rewrite Hf. reflexivity.
  - unfold PollTrigger. rewrite ForceTrigger_pending. reflexivity.
Qed.

Lemma read_length_field_consumes buf0 s :
  exists k,
    m_transport (snd (read_length_field buf0 s)) =
    mkTransport (sent (m_transport s)) (replies (m_transport s))
      (drop k (rx (m_transport s)))
    /\ m_log (snd (read_length_field buf0 s)) = m_log s.
Proof.
  unfold read_length_field, ReadRawData.
  cbv zeta.
  repeat match goal with
         | |- context [if ?c then _ else _] => destruct c
         end; cbn [snd m_transport set_transport sent replies rx m_log];
    rewrite ?drop_drop; eexists; split; reflexivity.
Qed.

(** X8.  ReadWaveformBlock never stores more than maxsize bytes, whatever
    the header on the wire says; it sends no command and consumes no reply,
    and the bytes it returns followed by what is left on the wire are a
    suffix of the wire as it was. *)
Theorem ReadWaveformBlock_stays_within_buffer
    (buf0 : list Z) (maxsize : Z) (w : bool) (s : Scope) :
  0 <= maxsize ->
  let r := ReadWaveformBlock buf0 maxsize w s in
  Z.of_nat (length (snd (fst r))) <= maxsize
  /\ sent (m_transport (snd r)) = sent (m_transport s)
  /\ replies (m_transport (snd r)) = replies (m_transport s)
  /\ exists k, snd (fst r) ++ rx (m_transport (snd r)) = drop k (rx (m_transport s)).
Proof.
  intros Hm. cbv zeta. unfold ReadWaveformBlock.
  destruct (read_length_field_consumes buf0 s) as (k & Ht & _).
  destruct (read_length_field buf0 s) as [[buf|] s1]; cbn [snd] in Ht.
  - cbv zeta. unfold ReadRawData.
    cbn [m_transport Log set_transport].
    set (len := Z.min _ maxsize).
    assert (Hlen : len <= maxsize) by (subst len; lia).
    destruct w; cbn [fst snd m_transport sent replies rx set_transport];
      rewrite Ht; cbn [sent replies rx]; rewrite take_drop;
      (repeat split; [rewrite length_take; lia | eexists; reflexivity]).
  - cbn [fst snd length m_transport Log]. rewrite Ht. cbn [sent replies rx].
    repeat split; [lia|]. exists k. reflexivity.
Qed.

End CachedChannelState.

(** ** Channel and timebase accessors *)

Section DriverAccessors.

Import Cint Siglent CacheSpec TriggerSpec BlockSpec Driver DriverSpec.

(** X9.  Each limit that GetChannelBandwidthLimiters advertises is set with
    one BWLIMIT command, and an instrument that answers the query with the
    word that was sent makes GetChannelBandwidthLimit return that limit,
    without a log entry. *)
Theorem bandwidth_limiters_round_trip (i l : Z) (s : Scope) :
  In l (GetChannelBandwidthLimiters i) ->
  exists word,
    SetChannelBandwidthLimit i l s =
      sendOnly (":CHANNEL" +:+ fmt_d (i + 1) +:+ ":BWLIMIT " +:+ word) s
    /\ forall s', next_reply s' = word ->
         fst (GetChannelBandwidthLimit i s') = l
         /\ m_log (snd (GetChannelBandwidthLimit i s')) = m_log s'.
Proof.
  intros [<-|[<-|[]]].
  - exists "FULL"%string. split; [reflexivity|].
    intros s' Hr. unfold GetChannelBandwidthLimit.
    rewrite <- (converse_reply (":CHANNEL" +:+ fmt_d (i + 1) +:+ ":BWLIMIT?") s') in Hr.
    destruct (converse _ s') as [r s1] eqn:E. simpl in Hr. subst r. simpl.
    split; [reflexivity|].
    unfold converse in E. destruct (replies (m_transport s')); inversion E; reflexivity.
  - exists "20M"%string. split; [reflexivity|].
    intros s' Hr. unfold GetChannelBandwidthLimit.
    rewrite <- (converse_reply (":CHANNEL" +:+ fmt_d (i + 1) +:+ ":BWLIMIT?") s') in Hr.
    destruct (converse _ s') as [r s1] eqn:E. simpl in Hr. subst r. simpl.
    split; [reflexivity|].
    unfold converse in E. destruct (replies (m_transport s')); inversion E; reflexivity.
Qed.

(** X10.  GetChannelBandwidthLimit only ever returns an advertised limit.
    The set accepts 200 MHz and sends 200M, but a 200M reply is read back as
    0 with a warning. *)
Theorem bandwidth_limit_read_is_advertised (i : Z) (s : Scope) :
  In (fst (GetChannelBandwidthLimit i s)) (GetChannelBandwidthLimiters i)
  /\ (next_reply s = "200M"%string ->
      fst (GetChannelBandwidthLimit i s) = 0
      /\ m_log (snd (GetChannelBandwidthLimit i s)) =
         m_log s ++
         [(LogWarning,
           "SiglentMinOscilloscope::GetChannelCoupling got invalid bwlimit"%string)])
  /\ SetChannelBandwidthLimit i 200 s =
     sendOnly (":CHANNEL" +:+ fmt_d (i + 1) +:+ ":BWLIMIT 200M") s.
Proof.
  split; [|split].
  - unfold GetChannelBandwidthLimit.
    destruct (converse _ s) as [r s1].
    destruct (String.eqb r "FULL"); [simpl; auto|].
    destruct (String.eqb r "20M"); simpl; auto.
  - intros Hr. unfold GetChannelBandwidthLimit.
    rewrite <- (converse_reply (":CHANNEL" +:+ fmt_d (i + 1) +:+ ":BWLIMIT?") s) in Hr.
    destruct (converse _ s) as [r s1] eqn:E. simpl in Hr. subst r. simpl.
    split; [reflexivity|].
    unfold converse in E. destruct (replies (m_transport s)); inversion E; reflexivity.
  - reflexivity.
Qed.

Lemma converse_spec cmd s :
  converse cmd s =
  (next_reply s,
   set_transport
     (mkTransport (sent (m_transport s) ++ [cmd]) (tl (replies (m_transport s)))
        (rx (m_transport s))) s).
Proof.
  unfold converse, next_reply. destruct (replies (m_transport s)); reflexivity.
Qed.

Lemma ask_spec cmd o :
  ask cmd o = (next_reply (scope o), set_scope (snd (converse cmd (scope o))) o).
Proof. unfold ask. rewrite converse_spec. reflexivity. Qed.

Section AccessorProofs.

Variable fmt_1_2E : spec_float -> string.
Variable fmt_4f : spec_float -> string.
Variable sscanf_f : string -> spec_float.
Variable sscanf_lf : string -> spec_float.
Variable ParseSampleDepth : string -> spec_float.
Variable Trim : string -> string.
Variable FS_PER_SECOND : spec_float.
Variable SECONDS_PER_FS : spec_float.

(** X11.  Where CanInvert is false, Invert does nothing and IsInverted is
    false with no traffic; where it is true, Invert sends ON or OFF and an
    instrument answering with that word makes IsInverted return the value
    that was set. *)
Theorem invert_round_trip (i : Z) (b : bool) (s : Scope) :
  Trim "ON" = "ON"%string -> Trim "OFF" = "OFF"%string ->
  (CanInvert i s = false ->
   Invert i b s = s /\ IsInverted Trim i s = (false, s))
  /\ (CanInvert i s = true ->
      exists word,
        Invert i b s =
          sendOnly (":CHANNEL" +:+ fmt_d (i + 1) +:+ ":INVERT " +:+ word) s
        /\ forall s', m_analogChannelCount s' = m_analogChannelCount s ->
             next_reply s' = word -> fst (IsInverted Trim i s') = b).
Proof.
  intros Ton Toff. unfold CanInvert, Invert, IsInverted. split.
  - intros Hc. destruct (Z.ltb_spec i (m_analogChannelCount s)); [discriminate|].
    destruct (Z.leb_spec (m_analogChannelCount s) i); [split; reflexivity | lia].
  - intros Hc. destruct (Z.ltb_spec i (m_analogChannelCount s)); [|discriminate].
    destruct (Z.leb_spec (m_analogChannelCount s) i); [lia|].
    exists (if b then "ON" else "OFF")%string. split; [reflexivity|].
    intros s' Hn Hr. rewrite Hn.
    destruct (Z.leb_spec (m_analogChannelCount s) i); [lia|].
    rewrite converse_spec, Hr. simpl.
    destruct b; [rewrite Ton | rewrite Toff]; reflexivity.
Qed.

(** Timebase *)

Lemma GetSampleDepth_invalid o :
  m_memoryDepthValid (scope o) = false ->
  GetSampleDepth ParseSampleDepth o =
  (let d := int64_of_double (ParseSampleDepth (next_reply (scope o))) in
   (uint64_of d,
    set_scope
      (set_memoryDepthValid true (snd (converse ":ACQUIRE:MDEPTH?" (scope o))))
      (set_memoryDepth d o))).
Proof.
  intros Hv. unfold GetSampleDepth. rewrite Hv, ask_spec. reflexivity.
Qed.

Lemma converse_snd cmd s :
  snd (converse cmd s) =
  set_transport
    (mkTransport (sent (m_transport s) ++ [cmd]) (tl (replies (m_transport s)))
       (rx (m_transport s))) s.
Proof. rewrite converse_spec. reflexivity. Qed.

Lemma SetSampleRate_effects (rate : Z) (o : Osc) :
  let o' := SetSampleRate fmt_1_2E ParseSampleDepth rate o in
  m_sampleRateValid (scope o') = false
  /\ m_memoryDepthValid (scope o') = false
  /\ m_sampleRate o' = int64_of rate
  /\ m_memoryDepth o' = int64_of_double (ParseSampleDepth (next_reply (scope o)))
  /\ exists scale,
       sent (m_transport (scope o')) =
       sent (m_transport (scope o)) ++
       [":ACQUIRE:MDEPTH?"%string; (":TIMEBASE:SCALE " +:+ fmt_1_2E scale)%string]
  /\ replies (m_transport (scope o')) = tl (replies (m_transport (scope o))).
Proof.
  cbv zeta. unfold SetSampleRate.
  rewrite GetSampleDepth_invalid by reflexivity. cbv zeta.
  rewrite converse_snd. cbn. repeat split.
  eexists. rewrite <- app_assoc. cbn. split; reflexivity.
Qed.

Lemma GetSampleRate_invalid o :
  m_sampleRateValid (scope o) = false ->
  GetSampleRate sscanf_lf o =
  (let r := int64_of_double (sscanf_lf (next_reply (scope o))) in
   (uint64_of r,
    set_scope
      (set_sampleRateValid true (snd (converse ":ACQUIRE:SRATE?" (scope o))))
      (set_sampleRate r o))).
Proof.
  intros Hv. unfold GetSampleRate. rewrite Hv, ask_spec. reflexivity.
Qed.

(** X13.  GetSampleRate answers from the cache when it is valid; otherwise
    it sends one SRATE query, returns the parsed reply, and a second call
    returns the same without traffic. After SetSampleRate the cache is
    invalid, so the next read asks the instrument. *)
Theorem sample_rate_cache (o : Osc) :
  (m_sampleRateValid (scope o) = true ->
   GetSampleRate sscanf_lf o = (uint64_of (m_sampleRate o), o))
  /\ (m_sampleRateValid (scope o) = false ->
      let r := GetSampleRate sscanf_lf o in
      fst r = uint64_of (int64_of_double (sscanf_lf (next_reply (scope o))))
      /\ sent (m_transport (scope (snd r))) =
         sent (m_transport (scope o)) ++ [":ACQUIRE:SRATE?"%string]
      /\ GetSampleRate sscanf_lf (snd r) = r)
  /\ (forall rate,
      m_sampleRateValid
        (scope (SetSampleRate fmt_1_2E ParseSampleDepth rate o)) = false).
Proof.
  split; [|split].
  - intros Hv. unfold GetSampleRate. rewrite Hv. reflexivity.
  - intros Hv. cbv zeta. rewrite (GetSampleRate_invalid o Hv). cbv zeta.
    rewrite converse_snd. cbn. repeat split.
  - intros rate.
    exact (proj1 (SetSampleRate_effects rate o)).
Qed.

Lemma SetSampleRate_frame (rate : Z) (o : Osc) :
  m_log (scope (SetSampleRate fmt_1_2E ParseSampleDepth rate o)) = m_log (scope o)
  /\ trigger_state (scope (SetSampleRate fmt_1_2E ParseSampleDepth rate o))
     = trigger_state (scope o).
Proof.
  unfold SetSampleRate.
  rewrite GetSampleDepth_invalid by reflexivity. cbv zeta.
  rewrite converse_snd. split; reflexivity.
Qed.

(** X12.  SetSampleRate stores the rate but leaves both the rate and the
    depth cache invalid; it asks the instrument for the depth and sends one
    TIMEBASE:SCALE command computed from depth / rate / 10; the log and the
    trigger flags are untouched. *)
Theorem SetSampleRate_invalidates (rate : Z) (o : Osc) :
  let o' := SetSampleRate fmt_1_2E ParseSampleDepth rate o in
  let depth := int64_of_double (ParseSampleDepth (next_reply (scope o))) in
  m_sampleRateValid (scope o') = false
  /\ m_memoryDepthValid (scope o') = false
  /\ m_sampleRate o' = int64_of rate
  /\ m_memoryDepth o' = depth
  /\ queued_since o o' =
     [":ACQUIRE:MDEPTH?"%string;
      (":TIMEBASE:SCALE "
       +:+ fmt_1_2E
             (f64_div (f64_div (f64_of_Z (uint64_of depth)) (f64_of_Z rate))
                (f64_of_Z 10)))%string]
  /\ replies (m_transport (scope o')) = tl (replies (m_transport (scope o)))
  /\ m_log (scope o') = m_log (scope o)
  /\ trigger_state (scope o') = trigger_state (scope o).
Proof.
  cbv zeta. unfold SetSampleRate, queued_since.
  rewrite GetSampleDepth_invalid by reflexivity. cbv zeta.
  rewrite converse_snd. cbn. rewrite <- app_assoc, drop_app_length.
  repeat split.
Qed.

Lemma GetSampleRate_effects (o : Osc) :
  sent (m_transport (scope (snd (GetSampleRate sscanf_lf o)))) =
    sent (m_transport (scope o))
    ++ (if m_sampleRateValid (scope o) then [] else [":ACQUIRE:SRATE?"%string])
  /\ m_log (scope (snd (GetSampleRate sscanf_lf o))) = m_log (scope o)
  /\ trigger_state (scope (snd (GetSampleRate sscanf_lf o))) = trigger_state (scope o).
Proof.
  destruct (m_sampleRateValid (scope o)) eqn:Hv.
  - unfold GetSampleRate. rewrite Hv. cbn. rewrite app_nil_r. repeat split.
  - rewrite (GetSampleRate_invalid o Hv). cbv zeta. rewrite converse_snd.
    repeat split.
Qed.

(** The commands [SetSampleDepth] queues and what it logs. *)
Lemma SetSampleDepth_effects (depth : Z) (o : Osc) :
  let o' := SetSampleDepth fmt_1_2E sscanf_lf ParseSampleDepth depth o in
  (exists scale,
    sent (m_transport (scope o')) =
      sent (m_transport (scope o))
      ++ (if m_sampleRateValid (scope o) then [] else [":ACQUIRE:SRATE?"%string])
      ++ ["TRIG_MODE AUTO"%string]
      ++ match depth_command depth with Some cmd => [cmd] | None => [] end
      ++ [if m_triggerArmed (scope o) then "TRIG_MODE SINGLE"%string
          else "TRIG_MODE STOP"%string]
      ++ [":ACQUIRE:MDEPTH?"%string; (":TIMEBASE:SCALE " +:+ fmt_1_2E scale)%string])
  /\ m_log (scope o') =
     m_log (scope o)
     ++ match depth_command depth with
        | Some _ => []
        | None => [(LogError, "Invalid memory depth for channel"%string)]
        end
  /\ m_sampleRateValid (scope o') = false
  /\ m_memoryDepthValid (scope o') = false
  /\ m_sampleRate o' = int64_of (fst (GetSampleRate sscanf_lf o))
  /\ trigger_state (scope o') = trigger_state (scope o).
Proof.
  cbv zeta. unfold SetSampleDepth.
  destruct (GetSampleRate_effects o) as (S1 & L1 & T1).
  destruct (GetSampleRate sscanf_lf o) as [rate o1]. cbn [fst snd] in *.
  set (o2 := send "TRIG_MODE AUTO" o1).
  set (o3 := match depth_command depth with
             | Some cmd => send cmd o2
             | None => log LogError "Invalid memory depth for channel" o2
             end).
  set (o4 := if IsTriggerArmed (scope o3)
             then send "TRIG_MODE SINGLE" o3 else send "TRIG_MODE STOP" o3).
  set (o5 := set_scope (set_memoryDepthValid false (scope o4)) o4).
  assert (T3 : trigger_state (scope o3) = trigger_state (scope o)).
  { rewrite <- T1. subst o3 o2. destruct (depth_command depth); reflexivity. }
  assert (A3 : m_triggerArmed (scope o3) = m_triggerArmed (scope o))
    by (injection T3; auto).
  assert (S3 : sent (m_transport (scope o3)) =
               sent (m_transport (scope o1)) ++ ["TRIG_MODE AUTO"%string]
               ++ match depth_command depth with Some cmd => [cmd] | None => [] end).
  { subst o3 o2. destruct (depth_command depth); cbn;
      rewrite <- ?app_assoc, ?app_nil_r; reflexivity. }
  assert (L3 : m_log (scope o3) =
               m_log (scope o1)
               ++ match depth_command depth with
                  | Some _ => []
                  | None => [(LogError, "Invalid memory depth for channel"%string)]
                  end).
  { subst o3 o2. destruct (depth_command depth); cbn;
      rewrite ?app_nil_r; reflexivity. }
  assert (S5 : sent (m_transport (scope o5)) =
               sent (m_transport (scope o3))
               ++ [if m_triggerArmed (scope o) then "TRIG_MODE SINGLE"%string
                   else "TRIG_MODE STOP"%string]).
  { subst o5 o4. unfold IsTriggerArmed. rewrite A3.
    destruct (m_triggerArmed (scope o)); reflexivity. }
  assert (L5 : m_log (scope o5) = m_log (scope o3)).
  { subst o5 o4. destruct (IsTriggerArmed (scope o3)); reflexivity. }
  assert (T5 : trigger_state (scope o5) = trigger_state (scope o3)).
  { subst o5 o4. destruct (IsTriggerArmed (scope o3)); reflexivity. }
  destruct (SetSampleRate_effects rate o5) as (A & B & C & D & sc & E & G).
  destruct (SetSampleRate_frame rate o5) as (Lf & Tf).
  cbv zeta in *.
  split; [|split; [|split; [|split; [|split]]]].
  - exists sc. rewrite E, S5, S3, S1. rewrite <- !app_assoc. reflexivity.
  - rewrite Lf, L5, L3, L1. reflexivity.
  - exact A.
  - exact B.
  - exact C.
  - rewrite Tf, T5, T3. reflexivity.
Qed.

(** X14.  SetSampleDepth accepts every depth of
    GetSampleDepthsNonInterleaved and every interleaved depth but 20 M: it
    queues the matching MDEPTH command and logs nothing. A depth it has no
    command for is logged as an error and no MDEPTH set command is queued;
    20 M is advertised by GetSampleDepthsInterleaved and is such a depth. *)
Theorem SetSampleDepth_advertised_depths (depth : Z) (o : Osc) :
  let o' := SetSampleDepth fmt_1_2E sscanf_lf ParseSampleDepth depth o in
  (In depth GetSampleDepthsNonInterleaved
   \/ (In depth GetSampleDepthsInterleaved /\ depth <> 20000000) ->
   m_log (scope o') = m_log (scope o)
   /\ exists cmd, depth_command depth = Some cmd /\ In cmd (queued_since o o'))
  /\ (depth_command depth = None ->
      m_log (scope o') =
        m_log (scope o) ++ [(LogError, "Invalid memory depth for channel"%string)]
      /\ forall cmd, In cmd (queued_since o o') ->
           String.prefix "ACQUIRE:MDEPTH " cmd = false)
  /\ In 20000000 GetSampleDepthsInterleaved
  /\ depth_command 20000000 = None.
Proof.
  cbv zeta.
  destruct (SetSampleDepth_effects depth o) as ((sc & E) & L & _).
  cbv zeta in *. unfold queued_since. rewrite E, drop_app_length.
  split; [|split; [|split]].
  - intros Hd.
    assert (Hc : exists cmd, depth_command depth = Some cmd).
    { destruct Hd as [Hd|[Hd Hne]].
      - simpl in Hd.
        repeat (destruct Hd as [<-|Hd]; [eexists; reflexivity|]). contradiction.
      - vm_compute in Hd.
        repeat (destruct Hd as [<-|Hd];
                [first [contradiction (Hne eq_refl) | eexists; reflexivity]|]).
        contradiction. }
    destruct Hc as [cmd Hc]. rewrite Hc in L |- *. rewrite app_nil_r in L.
    split; [exact L|]. exists cmd. split; [reflexivity|].
    destruct (m_sampleRateValid (scope o)); simpl; auto.
  - intros Hc. rewrite Hc in L |- *. split; [exact L|].
    intros cmd Hin.
    destruct (m_sampleRateValid (scope o)), (m_triggerArmed (scope o));
      simpl in Hin;
      repeat (destruct Hin as [<-|Hin]; [reflexivity|]); contradiction.
  - vm_compute. auto 10.
  - reflexivity.
Qed.

(** Deskew *)

(** X15.  On an analog channel SetDeskewForChannel queues one SKEW command,
    which names the channel by its zero-based index, and GetDeskewForChannel
    then returns the skew that was set from the cache. On any other index
    the set does nothing and the get returns 0. *)
Theorem deskew_set_then_get (channel skew : Z) (o : Osc) :
  let o' := SetDeskewForChannel fmt_1_2E SECONDS_PER_FS channel skew o in
  (channel < channel_count o ->
   GetDeskewForChannel sscanf_f FS_PER_SECOND channel o' = (skew, o')
   /\ queued_since o o' =
      [(":CHANNEL" +:+ fmt_ld channel +:+ ":SKEW "
        +:+ fmt_1_2E (f64_mul (f64_of_Z skew) SECONDS_PER_FS))%string])
  /\ (channel_count o <= channel ->
      o' = o /\ GetDeskewForChannel sscanf_f FS_PER_SECOND channel o = (0, o)).
Proof.
  cbv zeta. unfold SetDeskewForChannel, GetDeskewForChannel, queued_since. split.
  - intros Hc. destruct (Z.leb_spec (channel_count o) channel); [lia|].
    unfold channel_count in *. cbn.
    destruct (Z.leb_spec (m_analogChannelCount (scope o)) channel); [lia|].
    rewrite lookup_insert_eq. split; [reflexivity|].
    rewrite drop_app_length. reflexivity.
  - intros Hc. destruct (Z.leb_spec (channel_count o) channel); [|lia].
    split; reflexivity.
Qed.

Lemma GetDeskewForChannel_miss channel o :
  channel < channel_count o ->
  m_channelDeskew o !! channel = None ->
  GetDeskewForChannel sscanf_f FS_PER_SECOND channel o =
  (let skew_ps :=
     round_to_int64 (f64_mul (sscanf_f (next_reply (scope o))) FS_PER_SECOND) in
   (skew_ps,
    set_channelDeskew (<[channel := skew_ps]> (m_channelDeskew o))
      (set_scope
         (snd (converse (":CHANNEL" +:+ fmt_ld (channel + 1) +:+ ":SKEW?") (scope o)))
         o))).
Proof.
  intros Hc Hm. unfold GetDeskewForChannel.
  destruct (Z.leb_spec (channel_count o) channel); [lia|].
  rewrite Hm, ask_spec. reflexivity.
Qed.

Lemma GetDeskewForChannel_hit channel skew o :
  channel < channel_count o ->
  m_channelDeskew o !! channel = Some skew ->
  GetDeskewForChannel sscanf_f FS_PER_SECOND channel o = (skew, o).
Proof.
  intros Hc Hm. unfold GetDeskewForChannel.
  destruct (Z.leb_spec (channel_count o) channel); [lia|].
  rewrite Hm. reflexivity.
Qed.

(** X16.  On a cache miss GetDeskewForChannel sends one SKEW query, which
    names the channel by its index plus one, returns the reply scaled to
    femtoseconds and rounded, and a second call returns the same without
    touching the state. *)
Theorem deskew_miss_asks_once (channel : Z) (o : Osc) :
  channel < channel_count o ->
  m_channelDeskew o !! channel = None ->
  let r := GetDeskewForChannel sscanf_f FS_PER_SECOND channel o in
  fst r = round_to_int64 (f64_mul (sscanf_f (next_reply (scope o))) FS_PER_SECOND)
  /\ queued_since o (snd r) =
     [(":CHANNEL" +:+ fmt_ld (channel + 1) +:+ ":SKEW?")%string]
  /\ GetDeskewForChannel sscanf_f FS_PER_SECOND channel (snd r) = r.
Proof.
  intros Hc Hm. cbv zeta. rewrite (GetDeskewForChannel_miss channel o Hc Hm).
  cbv zeta. rewrite converse_snd. cbn [fst snd]. split; [reflexivity|]. split.
  - unfold queued_since. cbn. rewrite drop_app_length. reflexivity.
  - apply GetDeskewForChannel_hit; [exact Hc|]. cbn. apply lookup_insert_eq.
Qed.

(** Voltage range *)

(** X17.  SetChannelVoltageRange has no index guard: it always caches the
    range and queues one SCALE command carrying range / 8.
    GetChannelVoltageRange returns the cached range for an index up to the
    channel count, and 1 for a larger index. *)
Theorem voltage_range_set_then_get (i stream stream' : Z) (range : spec_float) (o : Osc) :
  let o' := SetChannelVoltageRange fmt_4f i stream range o in
  queued_since o o' =
    [(":CHANNEL" +:+ fmt_ld (i + 1) +:+ ":SCALE "
      +:+ fmt_4f (f32_div range (f32_of_Z 8)))%string]
  /\ m_channelVoltageRanges o' !! i = Some range
  /\ (i <= channel_count o ->
      GetChannelVoltageRange sscanf_f i stream' o' = (range, o'))
  /\ (channel_count o < i ->
      GetChannelVoltageRange sscanf_f i stream' o' = (f32_of_Z 1, o')).
Proof.
  cbv zeta. unfold SetChannelVoltageRange, GetChannelVoltageRange, queued_since.
  unfold channel_count. cbn. rewrite drop_app_length, lookup_insert_eq.
  repeat split.
  - intros Hc. destruct (Z.ltb_spec (m_analogChannelCount (scope o)) i); [lia|].
    reflexivity.
  - intros Hc. destruct (Z.ltb_spec (m_analogChannelCount (scope o)) i); [|lia].
    reflexivity.
Qed.

Lemma GetChannelVoltageRange_miss i stream o :
  i <= channel_count o ->
  m_channelVoltageRanges o !! i = None ->
  GetChannelVoltageRange sscanf_f i stream o =
  (let v := f32_mul (sscanf_f (next_reply (scope o))) (f32_of_Z 8) in
   (v,
    set_channelVoltageRanges (<[i := v]> (m_channelVoltageRanges o))
      (set_scope
         (snd (converse (":CHANNEL" +:+ fmt_d (i + 1) +:+ ":SCALE?") (scope o)))
         o))).
Proof.
  intros Hc Hm. unfold GetChannelVoltageRange.
  destruct (Z.ltb_spec (channel_count o) i); [lia|].
  rewrite Hm, ask_spec. reflexivity.
Qed.

Lemma GetChannelVoltageRange_hit i stream v o :
  i <= channel_count o ->
  m_channelVoltageRanges o !! i = Some v ->
  GetChannelVoltageRange sscanf_f i stream o = (v, o).
Proof.
  intros Hc Hm. unfold GetChannelVoltageRange.
  destruct (Z.ltb_spec (channel_count o) i); [lia|].
  rewrite Hm. reflexivity.
Qed.

(** X18.  On a cache miss GetChannelVoltageRange sends one SCALE query,
    returns eight times the parsed reply, and a second call returns the same
    without touching the state. *)
Theorem voltage_range_miss_asks_once (i stream stream' : Z) (o : Osc) :
  i <= channel_count o ->
  m_channelVoltageRanges o !! i = None ->
  let r := GetChannelVoltageRange sscanf_f i stream o in
  fst r = f32_mul (sscanf_f (next_reply (scope o))) (f32_of_Z 8)
  /\ queued_since o (snd r) =
     [(":CHANNEL" +:+ fmt_d (i + 1) +:+ ":SCALE?")%string]
  /\ GetChannelVoltageRange sscanf_f i stream' (snd r) = (fst r, snd r).
Proof.
  intros Hc Hm. cbv zeta. rewrite (GetChannelVoltageRange_miss i stream o Hc Hm).
  cbv zeta. rewrite converse_snd. cbn [fst snd]. split; [reflexivity|]. split.
  - unfold queued_since. cbn. rewrite drop_app_length. reflexivity.
  - apply GetChannelVoltageRange_hit; [exact Hc|]. cbn. apply lookup_insert_eq.
Qed.

(** Coupling and attenuation *)

Lemma GetChannelCoupling_effects (i : Z) (o : Osc) :
  let o' := snd (GetChannelCoupling Trim i o) in
  m_probeIsActive o' !! i = Some false
  /\ sent (m_transport (scope o')) =
     sent (m_transport (scope o))
     ++ [(":CHANNEL" +:+ fmt_d (i + 1) +:+ ":COUPLING?")%string;
         (":CHANNEL" +:+ fmt_d (i + 1) +:+ ":IMPEDANCE?")%string]
  /\ channel_count o' = channel_count o.
Proof.
  cbv zeta. unfold GetChannelCoupling. rewrite !ask_spec, !converse_snd.
  cbn -[String.eqb String.prefix String.substring].
  repeat match goal with
         | |- context [if ?b then _ else _] => destruct b
         end;
    cbn; rewrite <- ?app_assoc; rewrite lookup_insert_eq; repeat split.
Qed.

(** X19.  GetChannelCoupling resets m_probeIsActive[i] to false, so the
    active-probe guard of SetChannelAttenuation and SetChannelCoupling never
    holds: whatever the cache said, the attenuation command is sent after
    the two coupling queries, and on an analog channel at least one coupling
    command is. *)
Theorem active_probe_guard_never_fires (i : Z) (o : Osc) :
  fst (probeIsActive_at i (snd (GetChannelCoupling Trim i o))) = false
  /\ (forall atten,
      queued_since o (SetChannelAttenuation fmt_1_2E Trim i atten o) =
        [(":CHANNEL" +:+ fmt_d (i + 1) +:+ ":COUPLING?")%string;
         (":CHANNEL" +:+ fmt_d (i + 1) +:+ ":IMPEDANCE?")%string;
         (":CHANNEL" +:+ fmt_d (i + 1) +:+ ":PROBE VALUE," +:+ fmt_1_2E atten)%string])
  /\ (forall type,
      i < channel_count o ->
      exists cmds,
        cmds <> [] /\
        queued_since o (SetChannelCoupling Trim i type o) =
          [(":CHANNEL" +:+ fmt_d (i + 1) +:+ ":COUPLING?")%string;
           (":CHANNEL" +:+ fmt_d (i + 1) +:+ ":IMPEDANCE?")%string] ++ cmds).
Proof.
  destruct (GetChannelCoupling_effects i o) as (P & S & C). cbv zeta in *.
  split; [|split].
  - unfold probeIsActive_at. rewrite P. reflexivity.
  - intros atten. unfold SetChannelAttenuation, queued_since.
    destruct (GetChannelCoupling Trim i o) as [c o1]. cbn [snd] in *.
    unfold probeIsActive_at. rewrite P. cbn. rewrite S, <- app_assoc.
    rewrite drop_app_length. reflexivity.
  - intros type Hc. unfold SetChannelCoupling, queued_since.
    destruct (Z.leb_spec (channel_count o) i); [lia|].
    destruct (GetChannelCoupling Trim i o) as [c o1]. cbn [snd] in *.
    unfold probeIsActive_at. rewrite P.
    destruct type; eexists; (split; [|cbn; rewrite S, <- !app_assoc;
      rewrite drop_app_length; cbn; reflexivity]); discriminate.
Qed.

(** X20.  For each coupling of GetAvailableCouplings, SetChannelCoupling on
    an analog channel sends the two queries, one COUPLING command and
    (except for GND) one IMPEDANCE command; an instrument that answers the
    queries with the words that were sent makes GetChannelCoupling return
    that coupling, without a log entry. *)
Theorem coupling_round_trip (i : Z) (type : CouplingType) (o : Osc) :
  Trim "AC" = "AC"%string -> Trim "DC" = "DC"%string -> Trim "GN" = "GN"%string ->
  Trim "ONE" = "ONE"%string -> Trim "FIF" = "FIF"%string ->
  i < channel_count o ->
  In type (GetAvailableCouplings i) ->
  exists cw iws,
    queued_since o (SetChannelCoupling Trim i type o) =
      [(":CHANNEL" +:+ fmt_d (i + 1) +:+ ":COUPLING?")%string;
       (":CHANNEL" +:+ fmt_d (i + 1) +:+ ":IMPEDANCE?")%string;
       (":CHANNEL" +:+ fmt_d (i + 1) +:+ ":COUPLING " +:+ cw)%string]
      ++ map (fun w => (":CHANNEL" +:+ fmt_d (i + 1) +:+ ":IMPEDANCE " +:+ w)%string) iws
    /\ forall o' r2 rest,
         replies (m_transport (scope o')) = cw :: r2 :: rest ->
         (forall w, In w iws -> r2 = w) ->
         fst (GetChannelCoupling Trim i o') = type
         /\ m_log (scope (snd (GetChannelCoupling Trim i o'))) = m_log (scope o').
Proof.
  intros Tac Tdc Tgn Tone Tfif Hc Hin.
  destruct (GetChannelCoupling_effects i o) as (P & S & C). cbv zeta in *.
  assert (Q : forall cmds,
    (let o1 := snd (GetChannelCoupling Trim i o) in
     sent (m_transport (scope (fold_left (fun o c => send c o) cmds
        (snd (probeIsActive_at i o1))))) =
     sent (m_transport (scope o)) ++
       [(":CHANNEL" +:+ fmt_d (i + 1) +:+ ":COUPLING?")%string;
        (":CHANNEL" +:+ fmt_d (i + 1) +:+ ":IMPEDANCE?")%string] ++ cmds)).
  { intros cmds. cbv zeta. unfold probeIsActive_at. rewrite P. cbn [snd].
    rewrite (app_assoc _ [_; _] cmds), <- S.
    generalize (snd (GetChannelCoupling Trim i o)).
    induction cmds as [|c cmds IH]; intros o1; cbn [fold_left].
    - rewrite app_nil_r. reflexivity.
    - rewrite IH. cbn. rewrite <- app_assoc. reflexivity. }
  assert (R : forall o' cw r2 rest,
    replies (m_transport (scope o')) = cw :: r2 :: rest ->
    GetChannelCoupling Trim i o' =
    (let replyType := Trim (String.substring 0 2 cw) in
     let replyImp := Trim (String.substring 0 3 r2) in
     let o2 :=
       set_scope
         (snd (converse (":CHANNEL" +:+ fmt_d (i + 1) +:+ ":IMPEDANCE?")
            (snd (converse (":CHANNEL" +:+ fmt_d (i + 1) +:+ ":COUPLING?")
               (scope o')))))
         (set_probeIsActive (<[i := false]> (m_probeIsActive o')) o') in
     if String.eqb replyType "AC" then
       (if String.prefix "FIF" replyImp then COUPLE_AC_50 else COUPLE_AC_1M, o2)
     else if String.eqb replyType "DC" then
       (if String.prefix "FIF" replyImp then COUPLE_DC_50 else COUPLE_DC_1M, o2)
     else if String.eqb replyType "GN" then (COUPLE_GND, o2)
     else
       (COUPLE_SYNTHETIC,
        log LogWarning
          "SiglentMinOscilloscope::GetChannelCoupling got invalid coupling" o2))).
  { intros o' cw r2 rest Hr. unfold GetChannelCoupling.
    rewrite !ask_spec, !converse_snd. unfold next_reply. cbn [scope set_scope
      set_probeIsActive m_transport set_transport replies hd tl].
    destruct o' as [s' ? ? ? ? ? ? ?]. destruct s'. cbn in Hr |- *.
    rewrite Hr. reflexivity. }
  unfold SetChannelCoupling, queued_since.
  destruct (Z.leb_spec (channel_count o) i); [lia|].
  destruct (GetChannelCoupling Trim i o) as [c o1]. cbn [snd] in *.
  unfold probeIsActive_at in *. rewrite P in *. cbn [snd] in Q.
  simpl in Hin.
  destruct Hin as [<-|[<-|[<-|[<-|[<-|[]]]]]].
  - exists "DC"%string, ["ONEMEG"%string]. split.
    + match goal with
      | |- context [send ?b (send ?a ?x)] =>
          change (send b (send a x))
            with (fold_left (fun o c => send c o) [a; b] x);
          rewrite (Q [a; b])
      end.
      rewrite drop_app_length. reflexivity.
    + intros o' r2 rest Hr Hw. rewrite (R _ _ _ _ Hr). cbv zeta.
      rewrite (Hw "ONEMEG"%string) by (left; reflexivity).
      change (String.substring 0 2 "DC") with "DC"%string.
      change (String.substring 0 3 "ONEMEG") with "ONE"%string.
      rewrite Tdc, Tone, !converse_snd. split; reflexivity.
  - exists "AC"%string, ["ONEMEG"%string]. split.
    + match goal with
      | |- context [send ?b (send ?a ?x)] =>
          change (send b (send a x))
            with (fold_left (fun o c => send c o) [a; b] x);
          rewrite (Q [a; b])
      end.
      rewrite drop_app_length. reflexivity.
    + intros o' r2 rest Hr Hw. rewrite (R _ _ _ _ Hr). cbv zeta.
      rewrite (Hw "ONEMEG"%string) by (left; reflexivity).
      change (String.substring 0 2 "AC") with "AC"%string.
      change (String.substring 0 3 "ONEMEG") with "ONE"%string.
      rewrite Tac, Tone, !converse_snd. split; reflexivity.
  - exists "DC"%string, ["FIFTY"%string]. split.
    + match goal with
      | |- context [send ?b (send ?a ?x)] =>
          change (send b (send a x))
            with (fold_left (fun o c => send c o) [a; b] x);
          rewrite (Q [a; b])
      end.
      rewrite drop_app_length. reflexivity.
    + intros o' r2 rest Hr Hw. rewrite (R _ _ _ _ Hr). cbv zeta.
      rewrite (Hw "FIFTY"%string) by (left; reflexivity).
      change (String.substring 0 2 "DC") with "DC"%string.
      change (String.substring 0 3 "FIFTY") with "FIF"%string.
      rewrite Tdc, Tfif, !converse_snd. split; reflexivity.
  - exists "AC"%string, ["FIFTY"%string]. split.
    + match goal with
      | |- context [send ?b (send ?a ?x)] =>
          change (send b (send a x))
            with (fold_left (fun o c => send c o) [a; b] x);
          rewrite (Q [a; b])
      end.
      rewrite drop_app_length. reflexivity.
    + intros o' r2 rest Hr Hw. rewrite (R _ _ _ _ Hr). cbv zeta.
      rewrite (Hw "FIFTY"%string) by (left; reflexivity).
      change (String.substring 0 2 "AC") with "AC"%string.
      change (String.substring 0 3 "FIFTY") with "FIF"%string.
      rewrite Tac, Tfif, !converse_snd. split; reflexivity.
  - exists "GND"%string, []. split.
    + match goal with
      | |- context [send ?a ?x] =>
          change (send a x) with (fold_left (fun o c => send c o) [a] x);
          rewrite (Q [a])
      end.
      rewrite drop_app_length. reflexivity.
    + intros o' r2 rest Hr Hw. rewrite (R _ _ _ _ Hr). cbv zeta.
      change (String.substring 0 2 "GND") with "GN"%string.
      rewrite Tgn, !converse_snd. split; reflexivity.
Qed.

End AccessorProofs.

(** Bulk enable check *)

Lemma uncached_channels_spec (s : Scope) (j : Z) :
  In j (uncached_channels s) <->
  exists i, 0 <= i < m_analogChannelCount s /\ j = key_of i
            /\ m_channelsEnabled s !! key_of i = None.
Proof.
  unfold uncached_channels. rewrite in_map_iff. split.
  - intros (i & <- & Hi). apply filter_In in Hi as (Hi & Hn).
    exists i. apply list_elem_of_In, elem_of_seqZ in Hi.
    destruct (m_channelsEnabled s !! key_of i); [discriminate|].
    repeat split; lia.
  - intros (i & Hi & -> & Hn). exists i. split; [reflexivity|].
    apply filter_In. split.
    + apply list_elem_of_In, elem_of_seqZ. lia.
    + rewrite Hn. reflexivity.
Qed.

Lemma bulk_check_one_effects (i : Z) (s : Scope) :
  let s' := bulk_check_one i s in
  sent (m_transport s') = sent (m_transport s) ++ [switch_query i]
  /\ replies (m_transport s') = tl (replies (m_transport s))
  /\ m_analogChannelCount s' = m_analogChannelCount s
  /\ trigger_state s' = trigger_state s
  /\ (forall k, k <> i -> m_channelsEnabled s' !! k = m_channelsEnabled s !! k)
  /\ (forall k, is_Some (m_channelsEnabled s !! k) ->
                is_Some (m_channelsEnabled s' !! k))
  /\ (on_or_off (next_reply s) ->
      m_log s' = m_log s
      /\ m_channelsEnabled s' !! i = Some (String.eqb (next_reply s) "ON"))
  /\ (~ on_or_off (next_reply s) ->
      m_log s' =
        m_log s ++ [(LogWarning, "BulkCheckChannelEnableState: Unrecognised reply"%string)]
      /\ m_channelsEnabled s' = m_channelsEnabled s).
Proof.
  cbv zeta. unfold bulk_check_one, switch_query. rewrite converse_spec.
  unfold on_or_off.
  assert (Hins : forall (m : gmap Z bool) b k,
            is_Some (m !! k) -> is_Some (<[i := b]> m !! k)).
  { intros m b k Hk. destruct (decide (i = k)) as [->|];
      [rewrite lookup_insert_eq | rewrite lookup_insert_ne by assumption]; eauto. }
  destruct (String.eqb_spec (next_reply s) "OFF") as [E|E].
  - rewrite E. cbn.
    split; [reflexivity|]. split; [reflexivity|]. split; [reflexivity|].
    split; [reflexivity|]. split; [|split; [|split]].
    + intros k Hk. rewrite lookup_insert_ne by congruence. reflexivity.
    + apply Hins.
    + intros _. rewrite lookup_insert_eq. split; reflexivity.
    + intros Hx. exfalso. apply Hx. right. reflexivity.
  - destruct (String.eqb_spec (next_reply s) "ON") as [E'|E']; cbn;
      (split; [reflexivity|]; split; [reflexivity|]; split; [reflexivity|];
       split; [reflexivity|]; split; [|split; [|split]]).
    + intros k Hk. rewrite lookup_insert_ne by congruence. reflexivity.
    + apply Hins.
    + intros _. rewrite lookup_insert_eq. split; reflexivity.
    + intros Hx. exfalso. apply Hx. left. assumption.
    + reflexivity.
    + auto.
    + intros [Hx|Hx]; contradiction.
    + intros _. split; reflexivity.
Qed.

Lemma bulk_fold (l : list Z) : forall s,
  let s' := fold_left (fun s i => bulk_check_one i s) l s in
  sent (m_transport s') = sent (m_transport s) ++ map switch_query l
  /\ replies (m_transport s') = drop (length l) (replies (m_transport s))
  /\ m_analogChannelCount s' = m_analogChannelCount s
  /\ trigger_state s' = trigger_state s
  /\ (forall k, ~ In k l -> m_channelsEnabled s' !! k = m_channelsEnabled s !! k)
  /\ (forall k, is_Some (m_channelsEnabled s !! k) ->
                is_Some (m_channelsEnabled s' !! k))
  /\ (forall rs rest,
        replies (m_transport s) = rs ++ rest -> length rs = length l ->
        Forall on_or_off rs ->
        m_log s' = m_log s
        /\ forall k, In k l -> is_Some (m_channelsEnabled s' !! k)).
Proof.
  induction l as [|i l IH]; intros s; cbv zeta; cbn [fold_left].
  - cbn. rewrite app_nil_r.
    split; [reflexivity|]. split; [reflexivity|]. split; [reflexivity|].
    split; [reflexivity|]. split; [auto|]. split; [auto|].
    intros rs rest _ _ _. split; [reflexivity|]. intros k [].
  - destruct (bulk_check_one_effects i s) as (S1 & R1 & C1 & T1 & K1 & I1 & O1 & _).
    destruct (IH (bulk_check_one i s)) as (S2 & R2 & C2 & T2 & K2 & I2 & O2).
    cbv zeta in *.
    split; [|split; [|split; [|split; [|split; [|split]]]]].
    + rewrite S2, S1. cbn. rewrite <- app_assoc. reflexivity.
    + rewrite R2, R1. cbn. destruct (replies (m_transport s)); [|reflexivity].
      cbn. apply drop_nil.
    + congruence.
    + congruence.
    + intros k Hk.
      rewrite K2 by (intros Hx; apply Hk; right; exact Hx).
      rewrite K1 by (intros ->; apply Hk; left; reflexivity). reflexivity.
    + auto.
    + intros rs rest Hr Hl Hf.
      destruct rs as [|r rs]; [discriminate|].
      apply Forall_cons in Hf as (Hr1 & Hrs).
      assert (Hn : next_reply s = r) by (unfold next_reply; rewrite Hr; reflexivity).
      rewrite <- Hn in Hr1. destruct (O1 Hr1) as (L1 & E1).
      destruct (O2 rs rest) as (L2 & A2);
        [rewrite R1, Hr; reflexivity|cbn in Hl; lia|assumption|].
      split; [congruence|].
      intros k [<-|Hk]; [|auto].
      apply I2. rewrite E1. eauto.
Qed.

(** X21.  BulkCheckChannelEnableState sends one SWITCH query per analog
    channel without a cache entry, in index order, and nothing else; entries
    already cached keep their value, the trigger flags are untouched, and
    with every channel cached it does nothing. *)
Theorem BulkCheck_asks_only_uncached (s : Scope) :
  let s' := BulkCheckChannelEnableState s in
  sent (m_transport s') =
    sent (m_transport s) ++ map switch_query (uncached_channels s)
  /\ (forall k b, m_channelsEnabled s !! k = Some b ->
                  m_channelsEnabled s' !! k = Some b)
  /\ trigger_state s' = trigger_state s
  /\ (uncached_channels s = [] -> s' = s).
Proof.
  cbv zeta. unfold BulkCheckChannelEnableState.
  destruct (bulk_fold (uncached_channels s) s) as (S & _ & _ & T & K & _).
  cbv zeta in *. split; [exact S|]. split; [|split; [exact T|]].
  - intros k b Hk. rewrite K; [assumption|].
    intros Hin. apply uncached_channels_spec in Hin as (i & _ & -> & Hn).
    congruence.
  - intros ->. reflexivity.
Qed.

(** X22.  When the instrument answers each query with ON or OFF,
    BulkCheckChannelEnableState leaves no analog channel uncached, logs
    nothing and consumes exactly those replies; IsChannelEnabled on any
    analog channel is then answered without traffic. *)
Theorem BulkCheck_fills_cache (s : Scope) (rs rest : list string) :
  replies (m_transport s) = rs ++ rest ->
  length rs = length (uncached_channels s) ->
  Forall on_or_off rs ->
  let s' := BulkCheckChannelEnableState s in
  uncached_channels s' = []
  /\ m_log s' = m_log s
  /\ replies (m_transport s') = rest
  /\ forall i, 0 <= i < m_analogChannelCount s ->
       exists b, IsChannelEnabled i s' = (b, s').
Proof.
  intros Hr Hl Hf. cbv zeta. unfold BulkCheckChannelEnableState.
  destruct (bulk_fold (uncached_channels s) s) as (S & R & C & T & K & I & O).
  cbv zeta in *. destruct (O rs rest Hr Hl Hf) as (L & A).
  set (s' := fold_left _ _ s) in *.
  assert (Hall : forall i, 0 <= i < m_analogChannelCount s ->
                   is_Some (m_channelsEnabled s' !! key_of i)).
  { intros i Hi. destruct (m_channelsEnabled s !! key_of i) eqn:E.
    - apply I. rewrite E. eauto.
    - apply A. apply uncached_channels_spec. eauto. }
  split; [|split; [|split]].
  - destruct (uncached_channels s') as [|j l] eqn:E; [reflexivity|].
    assert (Hj : In j (uncached_channels s')) by (rewrite E; left; reflexivity).
    apply uncached_channels_spec in Hj as (i & Hi & -> & Hn).
    rewrite C in Hi. destruct (Hall i Hi) as [b Hb]. congruence.
  - exact L.
  - rewrite R, Hr, <- Hl. apply drop_app_length.
  - intros i Hi. destruct (Hall i Hi) as [b Hb].
    exists b. unfold IsChannelEnabled, channelsEnabled_at. rewrite Hb. reflexivity.
Qed.

(** Cache flush *)

Section FlushProofs.

Variable sscanf_f : string -> spec_float.
Variable sscanf_lf : string -> spec_float.
Variable ParseSampleDepth : string -> spec_float.
Variable FS_PER_SECOND : spec_float.

(** X23.  FlushConfigCache sends nothing and keeps the log, the trigger
    flags and the channel count; afterwards every cached getter of an analog
    channel (enable, offset, voltage range, deskew) and both timebase
    getters send their query again, and the bulk check finds every analog
    channel uncached. *)
Theorem FlushConfigCache_forces_requery (o : Osc) (i stream : Z) :
  let o' := FlushConfigCache o in
  (m_transport (scope o') = m_transport (scope o)
   /\ m_log (scope o') = m_log (scope o)
   /\ trigger_state (scope o') = trigger_state (scope o)
   /\ channel_count o' = channel_count o)
  /\ (0 <= i < channel_count o ->
      sent (m_transport (snd (IsChannelEnabled i (scope o')))) =
        sent (m_transport (scope o)) ++ [switch_query i]
      /\ sent (m_transport (snd (GetChannelOffset sscanf_f i stream (scope o')))) =
         sent (m_transport (scope o))
         ++ [(":CHANNEL" +:+ fmt_ld (i + 1) +:+ ":OFFSET?")%string]
      /\ queued_since o (snd (GetChannelVoltageRange sscanf_f i stream o')) =
         [(":CHANNEL" +:+ fmt_d (i + 1) +:+ ":SCALE?")%string]
      /\ queued_since o (snd (GetDeskewForChannel sscanf_f FS_PER_SECOND i o')) =
         [(":CHANNEL" +:+ fmt_ld (i + 1) +:+ ":SKEW?")%string])
  /\ queued_since o (snd (GetSampleRate sscanf_lf o')) = [":ACQUIRE:SRATE?"%string]
  /\ queued_since o (snd (GetSampleDepth ParseSampleDepth o')) =
     [":ACQUIRE:MDEPTH?"%string]
  /\ uncached_channels (scope o') = map key_of (seqZ 0 (channel_count o)).
Proof.
  cbv zeta. split; [repeat split|]. split; [|split; [|split]].
  - intros Hi.
    assert (Hc : channel_count (FlushConfigCache o) = channel_count o) by reflexivity.
    split; [|split; [|split]].
    + rewrite IsChannelEnabled_miss; [|apply lookup_empty|apply Hi].
      rewrite converse_spec. reflexivity.
    + rewrite (GetChannelOffset_miss sscanf_f i stream);
        [|unfold channel_count in *; cbn; lia|apply lookup_empty].
      rewrite converse_spec. reflexivity.
    + rewrite (GetChannelVoltageRange_miss sscanf_f i stream);
        [|rewrite Hc; lia|apply lookup_empty].
      cbv zeta. rewrite converse_snd. unfold queued_since. cbn.
      apply drop_app_length.
    + rewrite (GetDeskewForChannel_miss sscanf_f FS_PER_SECOND i);
        [|rewrite Hc; lia|apply lookup_empty].
      cbv zeta. rewrite converse_snd. unfold queued_since. cbn.
      apply drop_app_length.
  - rewrite (GetSampleRate_invalid sscanf_lf) by reflexivity.
    cbv zeta. rewrite converse_snd. unfold queued_since. cbn.
    apply drop_app_length.
  - rewrite (GetSampleDepth_invalid ParseSampleDepth) by reflexivity.
    cbv zeta. rewrite converse_snd. unfold queued_since. cbn.
    apply drop_app_length.
  - unfold uncached_channels, channel_count. cbn.
    f_equal. generalize (seqZ 0 (m_analogChannelCount (scope o))).
    induction l as [|x l IH]; [reflexivity|].
    cbn. rewrite lookup_empty. f_equal. exact IH.
Qed.

End FlushProofs.

End DriverAccessors.

(** ** Bit unpacking and payload loops of the importer *)

Section KernelProperties.

Import Cint BINImport UnpackSpec.

(** X24.  The scalar kernel writes bit j of input byte i to output sample
    8*i + j for every byte below count, and leaves every sample outside the
    8*count it covers as it was. *)
Theorem generic_kernel_unpacks_in_place
    (mem : Z -> bool) (pout : Z) (data : Z -> Z) (pin count : Z) :
  0 <= count ->
  (forall i j, 0 <= i < count -> 0 <= j < 8 ->
     ConvertDigitalSamplesGeneric mem pout data pin count (pout + (8 * i + j))
     = Z.testbit (data (pin + i)) j)
  /\ (forall a, a < pout \/ pout + 8 * count <= a ->
        ConvertDigitalSamplesGeneric mem pout data pin count a = mem a).
Proof.
  intros Hc. split.
  - intros i j Hi Hj.
    rewrite ConvertDigitalSamplesGeneric_unpacks by assumption.
    apply shift_and_one. lia.
  - intros a Ha. rewrite ConvertDigitalSamplesGeneric_spec by exact Hc.
    unfold unpacked.
    destruct (Z.leb_spec (pout + 8 * 0) a), (Z.ltb_spec a (pout + 8 * count));
      cbn [andb]; try reflexivity; lia.
Qed.

(** X25.  The AVX2 kernel and the scalar kernel leave the same memory for
    every count up to 2^29, multiple of four or not; and up to 125000 bytes
    ConvertDigitalSamples gives the result of the scalar kernel whatever the
    CPU flag and the thread count are. *)
Theorem conversion_paths_agree
    (mem : Z -> bool) (pout : Z) (data : Z -> Z) (pin count : Z) :
  (0 <= count <= 2 ^ 29 ->
   forall a,
     ConvertDigitalSamplesAVX2 mem pout data pin count a
     = ConvertDigitalSamplesGeneric mem pout data pin count a)
  /\ (0 <= count <= 1000000 / 8 ->
      forall g threads a,
        ConvertDigitalSamples g threads mem pout data pin count a
        = ConvertDigitalSamplesGeneric mem pout data pin count a).
Proof.
  split.
  - intros Hc a. apply ConvertDigitalSamplesAVX2_agrees. exact Hc.
  - intros Hc g threads a. apply ConvertDigitalSamples_small. exact Hc.
Qed.

(** X26.  Above the threshold of 125000 bytes, with two threads or more (and
    at least four bytes per thread), ConvertDigitalSamples never writes the
    last output sample, with either kernel. *)
Theorem threaded_conversion_skips_last_sample
    (g : bool) (threads : Z) (mem : Z -> bool) (pout : Z) (data : Z -> Z)
    (pin count : Z) :
  1000000 / 8 < count <= 2 ^ 29 -> 2 <= threads -> 4 * threads <= count ->
  ConvertDigitalSamples g threads mem pout data pin count (pout + 8 * count - 1)
  = mem (pout + 8 * count - 1).
Proof.
  intros Hc Ht Hb. apply dispatcher_misses_last_sample; assumption.
Qed.

End KernelProperties.

Section PayloadLoops.

Import Cint BINImport UnpackSpec FileSpec PayloadSpec.

Variable F : FloatOps.
Variable H : Host.

Lemma names_loop (body : Z -> Z * Filter F -> Z * Filter F)
    (en : Z -> bool) (name : Z -> string) :
  (forall i st,
     map st_name (m_streams (snd (body i st))) =
     map st_name (m_streams (snd st)) ++ (if en i then [name i] else [])
     /\ m_log (snd (body i st)) = m_log (snd st)) ->
  forall n start st,
    map st_name (m_streams (snd (for_loop n start 1 body st))) =
    map st_name (m_streams (snd st))
    ++ map name (List.filter en (seqZ start (Z.of_nat n)))
    /\ m_log (snd (for_loop n start 1 body st)) = m_log (snd st).
Proof.
  intros Hb. induction n as [|n IH]; intros start st.
  - cbn. rewrite app_nil_r. split; reflexivity.
  - cbn [for_loop]. destruct (IH (start + 1) (body start st)) as (N & L).
    destruct (Hb start st) as (N1 & L1).
    rewrite N, L, N1, L1. split; [|reflexivity].
    rewrite (seqZ_cons start) by lia.
    replace (Z.pred (Z.of_nat (S n))) with (Z.of_nat n) by lia.
    replace (Z.succ start) with (start + 1) by lia.
    cbn [List.filter]. destruct (en start); cbn; rewrite <- app_assoc; reflexivity.
Qed.

Lemma analog_channel_names f wh i (st : Z * Filter F) :
  map st_name (m_streams (snd (analog_channel F f wh i st))) =
  map st_name (m_streams (snd st))
  ++ (if wh_ch_en wh (Z.to_nat i) =? 1 then ["C" +:+ pretty (i + 1)] else [])
  /\ m_log (snd (analog_channel F f wh i st)) = m_log (snd st).
Proof.
  destruct st as [fpos flt]. unfold analog_channel.
  destruct (wh_ch_en wh (Z.to_nat i) =? 1).
  - destruct (convert_payload _ _ _ _ _ _ _) as [samples fpos']. cbn.
    rewrite map_app. split; reflexivity.
  - cbn. rewrite app_nil_r. split; reflexivity.
Qed.

Lemma math_channel_names f wh i (st : Z * Filter F) :
  map st_name (m_streams (snd (math_channel F f wh i st))) =
  map st_name (m_streams (snd st))
  ++ (if wh_math_en wh (Z.to_nat i) =? 1 then ["F" +:+ pretty (i + 1)] else [])
  /\ m_log (snd (math_channel F f wh i st)) = m_log (snd st).
Proof.
  destruct st as [fpos flt]. unfold math_channel.
  destruct (wh_math_en wh (Z.to_nat i) =? 1).
  - destruct (convert_payload _ _ _ _ _ _ _) as [samples fpos']. cbn.
    rewrite map_app. split; reflexivity.
  - cbn. rewrite app_nil_r. split; reflexivity.
Qed.

Lemma digital_channel_names f wh i (st : Z * Filter F) :
  map st_name (m_streams (snd (digital_channel F H f wh i st))) =
  map st_name (m_streams (snd st))
  ++ (if wh_d_ch_en wh (Z.to_nat i) =? 1 then ["D" +:+ pretty i] else [])
  /\ m_log (snd (digital_channel F H f wh i st)) = m_log (snd st).
Proof.
  destruct st as [fpos flt]. unfold digital_channel.
  destruct (wh_d_ch_en wh (Z.to_nat i) =? 1).
  - cbn. rewrite map_app. split; reflexivity.
  - cbn. rewrite app_nil_r. split; reflexivity.
Qed.

Lemma decode_payload_names f wh fpos (flt : Filter F) :
  map st_name (m_streams (decode_payload F H f wh fpos flt)) =
  map st_name (m_streams flt) ++ stream_names wh
  /\ m_log (decode_payload F H f wh fpos flt) = m_log flt.
Proof.
  unfold decode_payload, stream_names, enabled_indices.
  pose proof (names_loop (analog_channel F f wh)
                (fun i => wh_ch_en wh (Z.to_nat i) =? 1)
                (fun i => "C" +:+ pretty (i + 1))
                (analog_channel_names f wh) 4 0 (fpos, flt)) as (N1 & L1).
  set (st1 := for_loop 4 0 1 (analog_channel F f wh) (fpos, flt)) in *.
  pose proof (names_loop (math_channel F f wh)
                (fun i => wh_math_en wh (Z.to_nat i) =? 1)
                (fun i => "F" +:+ pretty (i + 1))
                (math_channel_names f wh) 4 0 st1) as (N2 & L2).
  set (st2 := for_loop 4 0 1 (math_channel F f wh) st1) in *.
  pose proof (names_loop (digital_channel F H f wh)
                (fun i => wh_d_ch_en wh (Z.to_nat i) =? 1)
                (fun i => "D" +:+ pretty i)
                (digital_channel_names f wh) 16 0 st2) as (N3 & L3).
  destruct (wh_digital_en wh =? 0); cbn [negb].
  - rewrite N2, N1, L2, L1. rewrite app_nil_r, <- app_assoc. split; reflexivity.
  - rewrite N3, N2, N1, L3, L2, L1. rewrite <- !app_assoc. split; reflexivity.
Qed.

(** X27.  A file of a supported version yields exactly the streams its wave
    header enables, named C1..C4, then F1..F4, then D0..D15 (only when the
    digital section is on), whatever streams the filter had before; nothing
    is logged. *)
Theorem decoded_streams_are_named_in_file_order
    (fh0 wh0 : list Z) (fname : string) (ReadFile : string -> list Z)
    (flt : Filter F) :
  fname <> ""%string -> (4 <= length (ReadFile fname))%nat ->
  let f := ReadFile fname in
  let version := le_uint (take 4 f) in
  (version = 2 ->
   exists flt',
     OnFileNameChanged F H fh0 wh0 fname ReadFile flt = Returned flt'
     /\ map st_name (m_streams flt') = stream_names (wave_header_at wh0 f 4)
     /\ m_log flt' = m_log flt)
  /\ (version = 4 -> (8 <= length f)%nat ->
      exists flt',
        OnFileNameChanged F H fh0 wh0 fname ReadFile flt = Returned flt'
        /\ map st_name (m_streams flt') = stream_names (wave_header_at wh0 f 8)
        /\ m_log flt' = m_log flt).
Proof.
  intros Hn Hl. cbv zeta.
  destruct (OnFileNameChanged_supported F H fh0 wh0 fname ReadFile flt Hn Hl)
    as (V2 & V4).
  cbv zeta in *. split.
  - intros Hv. eexists. split; [apply V2; exact Hv|].
    destruct (decode_payload_names (ReadFile fname)
                (wave_header_at wh0 (ReadFile fname) 4) 0x800 (ClearStreams F flt))
      as (N & L).
    split; [exact N | exact L].
  - intros Hv Hl8. eexists. split; [apply V4; assumption|].
    destruct (decode_payload_names (ReadFile fname)
                (wave_header_at wh0 (ReadFile fname) 8) 0x1000 (ClearStreams F flt))
      as (N & L).
    split; [exact N | exact L].
Qed.

(** X28.  For an enabled digital channel of up to one million samples the
    stream holds bit (a mod 8) of payload byte a / 8 at sample a, whatever
    the host; the len mod 8 samples past the last whole byte are not
    written, and the payload position advances by len / 8 bytes. *)
Theorem digital_channel_samples (f wh : list Z) (i fpos : Z) (flt : Filter F) :
  wh_d_ch_en wh (Z.to_nat i) = 1 ->
  wh_d_wave_length wh <= 1000000 ->
  let len := wh_d_wave_length wh in
  digital_channel F H f wh i (fpos, flt) =
  (uint32_of (fpos + len / 8),
   AddStream F
     (mkStream ("D" +:+ pretty i) STREAM_TYPE_DIGITAL
        (round_to_int64 F (ddiv F (FS_PER_SECOND F) (wh_d_s_rate F wh)))
        (DigitalSamples (map (digital_sample H f fpos len) (seqZ 0 len)))) flt).
Proof.
  intros He Hlen. cbv zeta. unfold digital_channel. rewrite He. cbn [Z.eqb Pos.eqb].
  f_equal. f_equal. f_equal. f_equal.
  apply map_ext_in. intros a Ha.
  apply list_elem_of_In, elem_of_seqZ in Ha.
  assert (Hq : 0 <= wh_d_wave_length wh / 8 <= 1000000 / 8).
  { split; [apply Z.div_pos; lia | apply Z.div_le_mono; lia]. }
  rewrite ConvertDigitalSamples_small by exact Hq.
  rewrite ConvertDigitalSamplesGeneric_spec by lia.
  unfold unpacked, digital_sample, bit_of.
  rewrite Z.sub_0_r.
  destruct (Z.leb_spec (0 + 8 * 0) a), (Z.ltb_spec a (0 + 8 * (wh_d_wave_length wh / 8)));
    cbn [andb]; try lia;
    destruct (Z.ltb_spec a (8 * (wh_d_wave_length wh / 8))); try lia; reflexivity.
Qed.

(** X29.  With an empty file name OnFileNameChanged only clears the streams.
    With an empty file the version is taken from the uninitialised header:
    the call either throws out_of_range or reports that stale number as
    unsupported. A version 4 file shorter than 8 bytes makes it throw
    out_of_range. *)
Theorem OnFileNameChanged_degenerate_inputs
    (fh0 wh0 : list Z) (fname : string) (ReadFile : string -> list Z)
    (flt : Filter F) :
  OnFileNameChanged F H fh0 wh0 "" ReadFile flt = Returned (ClearStreams F flt)
  /\ (fname <> ""%string -> ReadFile fname = [] ->
      (fh_version fh0 = 2 \/ fh_version fh0 = 4 ->
       OnFileNameChanged F H fh0 wh0 fname ReadFile flt
       = Threw_out_of_range (ClearStreams F flt))
      /\ (fh_version fh0 <> 2 -> fh_version fh0 <> 4 ->
          OnFileNameChanged F H fh0 wh0 fname ReadFile flt
          = Returned
              (LogError F
                 ("Unsupported version (" +:+ fmt_d (fh_version fh0)
                  +:+ ") in file header") (ClearStreams F flt))))
  /\ (fname <> ""%string ->
      (4 <= length (ReadFile fname) < 8)%nat ->
      le_uint (take 4 (ReadFile fname)) = 4 ->
      OnFileNameChanged F H fh0 wh0 fname ReadFile flt
      = Threw_out_of_range (ClearStreams F flt)).
Proof.
  split; [reflexivity|]. split.
  - intros Hn Hf.
    assert (En : String.eqb fname "" = false) by (apply String.eqb_neq; exact Hn).
    assert (E0 : string_copy fh0 [] sizeof_FileHeader (Z.to_nat 0) = Some fh0)
      by reflexivity.
    unfold OnFileNameChanged. rewrite En, Hf. cbv zeta. rewrite E0.
    split.
    + intros [Hv|Hv]; rewrite Hv; reflexivity.
    + intros H2 H4.
      destruct (Z.eqb_spec (fh_version fh0) 2); [contradiction|].
      destruct (Z.eqb_spec (fh_version fh0) 4); [contradiction|].
      reflexivity.
  - intros Hn Hl Hv.
    assert (En : String.eqb fname "" = false) by (apply String.eqb_neq; exact Hn).
    destruct (version_field fh0 (ReadFile fname) ltac:(lia)) as (Hc & Hfv).
    unfold OnFileNameChanged. rewrite En. cbv zeta.
    rewrite Hc, Hfv, Hv. cbn [Z.eqb Pos.eqb orb negb].
    unfold string_copy.
    destruct (Nat.ltb_spec (length (ReadFile fname))
                (Z.to_nat (0 + Z.of_nat sizeof_FileHeader + 4))) as [_|Hx];
      [reflexivity|].
    exfalso. change (Z.to_nat (0 + Z.of_nat sizeof_FileHeader + 4)) with 8%nat in Hx.
    lia.
Qed.

End PayloadLoops.

(** ** Layout of the analog payloads *)

Section PayloadPositions.

Import Cint BINImport UnpackSpec FileSpec PayloadSpec.

Variable F : FloatOps.
Variable H : Host.

Lemma analog_channel_step f wh fpos (flt : Filter F) (i : nat) :
  analog_channel F f wh (Z.of_nat i) (fpos, flt) =
  if wh_ch_en wh i =? 1
  then (uint32_of (fpos + sample_bytes wh * wh_wave_length wh),
        AddStream F (analog_stream F f wh fpos i) flt)
  else (fpos, flt).
Proof.
  unfold analog_channel, analog_stream, convert_payload, sample_bytes.
  rewrite Nat2Z.id.
  destruct (wh_ch_en wh i =? 1); [|reflexivity].
  destruct (data_width_of wh =? 2); cbn [fst snd]; rewrite ?Z.mul_1_l; reflexivity.
Qed.

Lemma analog_loop_positions f wh (i : nat) :
  wh_ch_en wh i = 1 ->
  forall n s fpos (flt : Filter F),
    (s <= i < s + n)%nat ->
    exists pre,
      length pre =
        length (List.filter (fun j => wh_ch_en wh (Z.to_nat j) =? 1)
                  (seqZ (Z.of_nat s) (Z.of_nat (i - s))))
      /\ keeps
           (m_streams flt ++ pre ++
            [analog_stream F f wh
               (Nat.iter (length pre)
                  (fun p => uint32_of (p + sample_bytes wh * wh_wave_length wh)) fpos)
               i])
           (for_loop n (Z.of_nat s) 1 (analog_channel F f wh) (fpos, flt)).
Proof.
  intros En. induction n as [|n IH]; intros s fpos flt Hi; [lia|].
  cbn [for_loop]. replace (Z.of_nat s + 1) with (Z.of_nat (S s)) by lia.
  rewrite analog_channel_step.
  destruct (Nat.eq_dec i s) as [->|Hne].
  - rewrite En. cbn [Z.eqb Pos.eqb]. exists []. split.
    + rewrite Nat.sub_diag. reflexivity.
    + cbn [length Nat.iter app].
      apply (for_loop_frame (keeps _)).
      * intros j st _. apply analog_channel_keeps.
      * exists []. cbn. rewrite app_nil_r. reflexivity.
  - assert (Hs : seqZ (Z.of_nat s) (Z.of_nat (i - s)) =
                 Z.of_nat s :: seqZ (Z.of_nat (S s)) (Z.of_nat (i - S s))).
    { rewrite (seqZ_cons (Z.of_nat s)) by lia. f_equal. f_equal; lia. }
    rewrite Hs. cbn [List.filter]. rewrite Nat2Z.id.
    destruct (wh_ch_en wh s =? 1).
    + destruct (IH (S s) (uint32_of (fpos + sample_bytes wh * wh_wave_length wh))
                  (AddStream F (analog_stream F f wh fpos s) flt))
        as (pre & Hl & K); [lia|].
      exists (analog_stream F f wh fpos s :: pre). split.
      * cbn [length]. rewrite Hl. reflexivity.
      * cbn [length]. rewrite Nat.iter_succ_r.
        cbn [AddStream m_streams] in K. rewrite <- app_assoc in K. exact K.
    + destruct (IH (S s) fpos flt) as (pre & Hl & K); [lia|].
      exists pre. split; assumption.
Qed.

Lemma advance_closed_form (step : Z) (k : nat) (fpos : Z) :
  0 <= fpos < 2 ^ 32 ->
  Nat.iter k (fun p => uint32_of (p + step)) fpos
  = uint32_of (fpos + Z.of_nat k * step).
Proof.
  intros Hf. induction k as [|k IH].
  - unfold uint32_of. cbn [Nat.iter Z.of_nat Z.mul].
    rewrite Z.add_0_r, Z.mod_small by exact Hf. reflexivity.
  - rewrite Nat.iter_succ, IH. unfold uint32_of.
    rewrite Zplus_mod_idemp_l. f_equal. lia.
Qed.

(** X30.  The analog payloads lie back to back: the stream of an enabled
    analog channel is the k-th stream added, k being the number of enabled
    analog channels in front of it, and it is decoded from payload position
    fpos + k * width * wave_length (modulo 2^32), where width is 2 bytes
    when data_width + 1 is 2 and 1 byte for every other value. *)
Theorem analog_payloads_are_contiguous
    (f wh : list Z) (fpos : Z) (flt : Filter F) (i : nat) :
  0 <= fpos < 2 ^ 32 -> (i < 4)%nat -> wh_ch_en wh i = 1 ->
  let k := enabled_before (wh_ch_en wh) i in
  m_streams (decode_payload F H f wh fpos flt) !! (length (m_streams flt) + k)%nat
  = Some
      (analog_stream F f wh
         (uint32_of (fpos + Z.of_nat k * (sample_bytes wh * wh_wave_length wh))) i).
Proof.
  intros Hf Hi En. cbv zeta. unfold enabled_before, enabled_indices.
  destruct (analog_loop_positions f wh i En 4 0 fpos flt ltac:(lia))
    as (pre & Hl & K).
  rewrite Nat.sub_0_r in Hl. change (Z.of_nat 0) with 0 in *.
  rewrite <- Hl. rewrite advance_closed_form in K by exact Hf.
  apply (later_loops_keep F H f wh) in K. destruct K as [more E].
  unfold decode_payload. cbv zeta in E |- *. rewrite E.
  rewrite (app_assoc (m_streams flt) pre), <- app_assoc.
  cbn [app]. apply list_lookup_middle. rewrite length_app. reflexivity.
Qed.

End PayloadPositions.

(** ** Concrete runs of the driver *)

Section DriverRuns.

Import Cint Siglent CacheSpec TriggerSpec BlockSpec Driver DriverSpec.

Lemma IsChannelEnabled_miss_asks_once_witness :
  fst (IsChannelEnabled 0 (scope_replying ["ON"%string])) = true
  /\ fst (IsChannelEnabled 1 (scope_replying ["OFF"%string])) = false.
Proof.
  split.
  - exact (proj1 (IsChannelEnabled_miss_asks_once 0 (scope_replying ["ON"%string])
                    eq_refl eq_refl)).
  - exact (proj1 (IsChannelEnabled_miss_asks_once 1 (scope_replying ["OFF"%string])
                    eq_refl eq_refl)).
Defined.


Lemma offset_set_then_get_witness :
  let s' := SetChannelOffset print_nothing 2 0 (S754_zero false) (scope_replying []) in
  GetChannelOffset scan_zero 2 0 s' = (S754_zero false, s').
Proof.
  exact (proj1 (offset_set_then_get print_nothing scan_zero 2 0 0 (S754_zero false)
                  (scope_replying []) ltac:(vm_compute; first [reflexivity | discriminate]))).
Defined.

Lemma offset_miss_asks_once_witness :
  sent (m_transport (snd (GetChannelOffset scan_zero 2 0 (scope_replying ["1.5"%string]))))
  = [":CHANNEL3:OFFSET?"%string].
Proof.
  exact (proj1 (proj2 (offset_miss_asks_once scan_zero 2 0 0
                         (scope_replying ["1.5"%string])
                         ltac:(vm_compute; first [reflexivity | discriminate]) eq_refl))).
Defined.


Lemma ForceTrigger_one_outstanding_witness :
  sent (m_transport (ForceTrigger scope_stopped)) = [":TRIGGER:MODE FTRIG"%string].
Proof.
  exact (proj1 (proj2 (ForceTrigger_one_outstanding scope_stopped)) eq_refl).
Defined.

Lemma ReadWaveformBlock_stays_within_buffer_witness :
  Z.of_nat (length (snd (fst (ReadWaveformBlock [] 10 false scope_idle)))) <= 10.
Proof.
  exact (proj1 (ReadWaveformBlock_stays_within_buffer [] 10 false scope_idle
                  ltac:(lia))).
Defined.

Lemma bandwidth_limiters_round_trip_witness :
  exists word,
    SetChannelBandwidthLimit 0 20 scope_idle =
      sendOnly (":CHANNEL" +:+ fmt_d (0 + 1) +:+ ":BWLIMIT " +:+ word) scope_idle
    /\ forall s', next_reply s' = word ->
         fst (GetChannelBandwidthLimit 0 s') = 20
         /\ m_log (snd (GetChannelBandwidthLimit 0 s')) = m_log s'.
Proof.
  apply (bandwidth_limiters_round_trip 0 20 scope_idle).
  right. left. reflexivity.
Defined.

Lemma bandwidth_limit_read_is_advertised_witness :
  fst (GetChannelBandwidthLimit 0 (scope_replying ["200M"%string])) = 0.
Proof.
  exact (proj1 (proj1 (proj2 (bandwidth_limit_read_is_advertised 0
                                (scope_replying ["200M"%string]))) eq_refl)).
Defined.

Lemma invert_round_trip_witness :
  Invert 7 true (scope_replying []) = scope_replying []
  /\ IsInverted trim_nothing 7 (scope_replying []) = (false, scope_replying []).
Proof.
  exact (proj1 (invert_round_trip trim_nothing 7 true (scope_replying [])
                  eq_refl eq_refl) eq_refl).
Defined.

Lemma sample_rate_cache_witness :
  fst (GetSampleRate scan_zero (osc_of (scope_replying ["2.0E9"%string]))) = 0.
Proof.
  exact (proj1 (proj1 (proj2 (sample_rate_cache print_nothing scan_zero scan_zero
                                (osc_of (scope_replying ["2.0E9"%string])))) eq_refl)).
Defined.

Lemma SetSampleDepth_advertised_depths_witness :
  m_log (scope (SetSampleDepth print_nothing scan_zero scan_zero 20000000
                  (osc_of (scope_replying []))))
  = [(LogError, "Invalid memory depth for channel"%string)].
Proof.
  exact (proj1 (proj1 (proj2 (SetSampleDepth_advertised_depths print_nothing scan_zero
                                scan_zero 20000000 (osc_of (scope_replying []))))
                  eq_refl)).
Defined.

Lemma deskew_set_then_get_witness :
  let o' :=
    SetDeskewForChannel print_nothing (S754_zero false) 1 250
      (osc_of (scope_replying [])) in
  GetDeskewForChannel scan_zero (S754_zero false) 1 o' = (250, o').
Proof.
  exact (proj1 (proj1 (deskew_set_then_get print_nothing scan_zero (S754_zero false)
                         (S754_zero false) 1 250 (osc_of (scope_replying [])))
                  ltac:(vm_compute; first [reflexivity | discriminate]))).
Defined.

Lemma deskew_miss_asks_once_witness :
  queued_since (osc_of (scope_replying ["0"%string]))
    (snd (GetDeskewForChannel scan_zero (S754_zero false) 1
            (osc_of (scope_replying ["0"%string]))))
  = [":CHANNEL2:SKEW?"%string].
Proof.
  exact (proj1 (proj2 (deskew_miss_asks_once scan_zero (S754_zero false) 1
                         (osc_of (scope_replying ["0"%string]))
                         ltac:(vm_compute; first [reflexivity | discriminate]) eq_refl))).
Defined.

Lemma voltage_range_set_then_get_witness :
  let o' :=
    SetChannelVoltageRange print_nothing 9 0 (S754_zero false)
      (osc_of (scope_replying [])) in
  GetChannelVoltageRange scan_zero 9 0 o' = (f32_of_Z 1, o').
Proof.
  exact (proj2 (proj2 (proj2 (voltage_range_set_then_get print_nothing scan_zero 9 0 0
                                (S754_zero false) (osc_of (scope_replying []))))) 
           ltac:(vm_compute; first [reflexivity | discriminate])).
Defined.

Lemma voltage_range_miss_asks_once_witness :
  queued_since (osc_of (scope_replying ["0"%string]))
    (snd (GetChannelVoltageRange scan_zero 1 0
            (osc_of (scope_replying ["0"%string]))))
  = [":CHANNEL2:SCALE?"%string].
Proof.
  exact (proj1 (proj2 (voltage_range_miss_asks_once scan_zero 1 0 0
                         (osc_of (scope_replying ["0"%string]))
                         ltac:(vm_compute; first [reflexivity | discriminate]) eq_refl))).
Defined.

Lemma active_probe_guard_never_fires_witness :
  exists cmds,
    cmds <> [] /\
    queued_since (osc_of (scope_replying []))
      (SetChannelCoupling trim_nothing 0 COUPLE_GND (osc_of (scope_replying [])))
    = [(":CHANNEL" +:+ fmt_d (0 + 1) +:+ ":COUPLING?")%string;
       (":CHANNEL" +:+ fmt_d (0 + 1) +:+ ":IMPEDANCE?")%string] ++ cmds.
Proof.
  exact (proj2 (proj2 (active_probe_guard_never_fires print_nothing trim_nothing 0
                         (osc_of (scope_replying []))))
           COUPLE_GND ltac:(vm_compute; first [reflexivity | discriminate])).
Defined.

Lemma coupling_round_trip_witness :
  exists cw iws,
    queued_since (osc_of (scope_replying []))
      (SetChannelCoupling trim_nothing 0 COUPLE_DC_50 (osc_of (scope_replying [])))
    = [(":CHANNEL" +:+ fmt_d (0 + 1) +:+ ":COUPLING?")%string;
       (":CHANNEL" +:+ fmt_d (0 + 1) +:+ ":IMPEDANCE?")%string;
       (":CHANNEL" +:+ fmt_d (0 + 1) +:+ ":COUPLING " +:+ cw)%string]
      ++ map (fun w => (":CHANNEL" +:+ fmt_d (0 + 1) +:+ ":IMPEDANCE " +:+ w)%string) iws
    /\ forall o' r2 rest,
         replies (m_transport (scope o')) = cw :: r2 :: rest ->
         (forall w, In w iws -> r2 = w) ->
         fst (GetChannelCoupling trim_nothing 0 o') = COUPLE_DC_50
         /\ m_log (scope (snd (GetChannelCoupling trim_nothing 0 o'))) = m_log (scope o').
Proof.
  apply (coupling_round_trip trim_nothing 0 COUPLE_DC_50 (osc_of (scope_replying []))
           eq_refl eq_refl eq_refl eq_refl eq_refl).
  - vm_compute. reflexivity.
  - right. right. left. reflexivity.
Defined.

Lemma BulkCheck_asks_only_uncached_witness :
  m_channelsEnabled (BulkCheckChannelEnableState scope_ch3_ch4_on) !! 2 = Some true.
Proof.
  exact (proj1 (proj2 (BulkCheck_asks_only_uncached scope_ch3_ch4_on)) 2 true eq_refl).
Defined.

Lemma BulkCheck_fills_cache_witness :
  uncached_channels
    (BulkCheckChannelEnableState (scope_replying ["ON"; "OFF"; "ON"; "OFF"]%string))
  = [].
Proof.
  refine (proj1 (BulkCheck_fills_cache (scope_replying ["ON"; "OFF"; "ON"; "OFF"]%string)
                   ["ON"; "OFF"; "ON"; "OFF"]%string [] eq_refl eq_refl _)).
  repeat (apply List.Forall_cons;
          [first [left; reflexivity | right; reflexivity]|]).
  apply List.Forall_nil.
Defined.

Lemma FlushConfigCache_forces_requery_witness :
  sent (m_transport (snd (IsChannelEnabled 2 (scope (FlushConfigCache (osc_of scope_ch3_ch4_on))))))
  = sent (m_transport scope_ch3_ch4_on) ++ [switch_query 2].
Proof.
  exact (proj1 (proj1 (proj2 (FlushConfigCache_forces_requery scan_zero scan_zero
                                scan_zero (S754_zero false)
                                (osc_of scope_ch3_ch4_on) 2 0))
                  ltac:(split; vm_compute; first [reflexivity | discriminate]))).
Defined.

End DriverRuns.

(** ** Concrete runs of the importer *)

Section ImporterRuns.

Import Cint BINImport UnpackSpec FileSpec PayloadSpec.

Lemma generic_kernel_unpacks_in_place_witness :
  ConvertDigitalSamplesGeneric cleared 0 all_ones 0 2 (0 + (8 * 1 + 3)) = true.
Proof.
  exact (proj1 (generic_kernel_unpacks_in_place cleared 0 all_ones 0 2 ltac:(lia))
           1 3 ltac:(lia) ltac:(lia)).
Defined.

Lemma conversion_paths_agree_witness :
  ConvertDigitalSamplesAVX2 cleared 0 all_ones 0 6 47
  = ConvertDigitalSamplesGeneric cleared 0 all_ones 0 6 47
  /\ ConvertDigitalSamples true 8 cleared 0 all_ones 0 6 47
     = ConvertDigitalSamplesGeneric cleared 0 all_ones 0 6 47.
Proof.
  split.
  - exact (proj1 (conversion_paths_agree cleared 0 all_ones 0 6) ltac:(lia) 47).
  - refine (proj2 (conversion_paths_agree cleared 0 all_ones 0 6) _ true 8 47).
    change (1000000 / 8) with 125000. lia.
Defined.

Lemma threaded_conversion_skips_last_sample_witness :
  ConvertDigitalSamples false 2 cleared 0 all_ones 0 125001 (0 + 8 * 125001 - 1)
  = cleared (0 + 8 * 125001 - 1).
Proof.
  refine (threaded_conversion_skips_last_sample false 2 cleared 0 all_ones 0 125001
            _ ltac:(lia) ltac:(lia)).
  change (1000000 / 8) with 125000. change (2 ^ 29) with 536870912. lia.
Defined.

Lemma decoded_streams_are_named_in_file_order_witness :
  exists flt',
    OnFileNameChanged integer_ops scalar_host [] [] "v2.bin" (one_file file_v2) no_streams
    = Returned flt'
    /\ map st_name (m_streams flt') = ["C1"%string].
Proof.
  destruct (proj1 (decoded_streams_are_named_in_file_order integer_ops scalar_host [] []
                     "v2.bin" (one_file file_v2) no_streams
                     ltac:(discriminate) ltac:(vm_compute; lia)) eq_refl)
    as (flt' & E & N & _).
  exists flt'. split; [exact E|]. rewrite N. reflexivity.
Defined.

Lemma digital_channel_samples_witness :
  fst (digital_channel integer_ops scalar_host [0; 165] wh_digital 0 (1, no_streams)) = 2.
Proof.
  rewrite (digital_channel_samples integer_ops scalar_host [0; 165] wh_digital 0 1
             no_streams eq_refl ltac:(vm_compute; discriminate)).
  reflexivity.
Defined.

Lemma OnFileNameChanged_degenerate_inputs_witness :
  OnFileNameChanged integer_ops scalar_host [7; 0; 0; 0] [] "empty.bin" (one_file [])
    no_streams
  = Returned
      (mkFilter [] [(Siglent.LogError, "Unsupported version (7) in file header"%string)]).
Proof.
  exact (proj2 (proj1 (proj2 (OnFileNameChanged_degenerate_inputs integer_ops scalar_host
                                [7; 0; 0; 0] [] "empty.bin" (one_file []) no_streams))
                  ltac:(discriminate) eq_refl)
           ltac:(discriminate) ltac:(discriminate)).
Defined.

End ImporterRuns.

Section PayloadPositionRuns.

Import Cint BINImport UnpackSpec FileSpec PayloadSpec.

Lemma analog_payloads_are_contiguous_witness :
  m_streams (decode_payload integer_ops scalar_host file_v2
               (wave_header_at [] file_v2 4) 0x800 no_streams) !! 0%nat
  = Some (analog_stream integer_ops file_v2 (wave_header_at [] file_v2 4)
            (uint32_of (0x800 + 0 * (sample_bytes (wave_header_at [] file_v2 4)
                                     * wh_wave_length (wave_header_at [] file_v2 4))))
            0).
Proof.
  exact (analog_payloads_are_contiguous integer_ops scalar_host file_v2
           (wave_header_at [] file_v2 4) 0x800 no_streams 0
           ltac:(vm_compute; split; [discriminate | reflexivity])
           ltac:(lia) ltac:(vm_compute; reflexivity)).
Defined.

End PayloadPositionRuns.
